(** * The generated documentation query server of moonwave's [deploy-mcp]

    A shallow embedding of the worker script held in [MCP_SERVER_CODE]
    (multi-source variant, [src/cli/src/commands/extract-github.ts],
    second document): the aggregator [fetchAllSources], the JSON-RPC
    engine [handleRequest] / [handlePost] / [handleSSE], the router
    [fetch] and [getCorsHeaders].

    JavaScript values are modelled as JSON trees extended with
    [undefined]; exceptions are explicit ([result]); the effects of the
    worker (network fetches, [console.error], [crypto.randomUUID]) are the
    nodes of a small free monad [io] that an interpreter runs against a
    [world]. *)

From Stdlib Require Import String Ascii List ZArith Lia Bool DecimalString.
Import ListNotations.
Open Scope list_scope.
Open Scope string_scope.

(** ** JavaScript values *)

(** The values that [JSON.parse] produces, plus [undefined].

    Numbers: [JNum n] is the integer [n], for the integers of magnitude
    below [2^53] (each of them is a double, and [Number::toString] prints
    it in plain decimal); fractions and larger numbers are outside the
    model.  The server never computes with a number of the data, it only
    tests truthiness and prints.

    Strings: a [string] is the JavaScript string that has these code
    units, one [ascii] per code unit, so the model has the strings whose
    code units are below 256 (ASCII text stands for itself).  On them a
    code unit is a code point, and equality, concatenation, substring
    search, iteration, spreading and JSON quoting are JavaScript's own;
    strings with other code units are outside the model.

    An object is the list of its own properties in property order; no
    value of the worker holds a function. *)
#[warnings="-register-all"]
Inductive value : Type :=
| JUndef
| JNull
| JBool (b : bool)
| JNum (n : Z)
| JStr (s : string)
| JArr (items : list value)
| JObj (props : list (string * value)).

(** Thrown JavaScript errors; [e_message] is what [e.message] reads (the
    texts are V8's wording, on which nothing below depends). *)
Inductive js_error : Type :=
| TypeError (message : string)
| SyntaxError (message : string).

Definition e_message (e : js_error) : string :=
  match e with
  | TypeError m => m
  | SyntaxError m => m
  end.

(** Completion of a synchronous computation: a value or a throw. *)
Inductive result (A : Type) : Type :=
| Ok (a : A)
| Throw (e : js_error).
Arguments Ok {A} a.
Arguments Throw {A} e.

Definition rbind {A B : Type} (r : result A) (f : A -> result B) : result B :=
  match r with
  | Ok a => f a
  | Throw e => Throw e
  end.

Declare Scope result_scope.
Delimit Scope result_scope with result.
Notation "'do' x <- r ; k" := (rbind r (fun x => k))
  (at level 10, x name, r at level 100, k at level 200) : result_scope.
Open Scope result_scope.

(** ToBoolean. *)
Definition truthy (v : value) : bool :=
  match v with
  | JUndef | JNull => false
  | JBool b => b
  | JNum n => negb (Z.eqb n 0)
  | JStr s => negb (String.eqb s EmptyString)
  | JArr _ | JObj _ => true
  end.

(** [a || b] on values. *)
Definition js_or (a b : value) : value := if truthy a then a else b.

(** [x === y].  Two objects (or arrays) are equal only when they are the
    same reference; every comparison of the server is between a value of
    the corpus and a value of the request (or a literal), which are
    distinct allocations, so objects and arrays never compare equal. *)
Definition strict_eq (x y : value) : bool :=
  match x, y with
  | JUndef, JUndef => true
  | JNull, JNull => true
  | JBool a, JBool b => Bool.eqb a b
  | JNum a, JNum b => Z.eqb a b
  | JStr a, JStr b => String.eqb a b
  | _, _ => false
  end.

Definition nullish (v : value) : bool :=
  match v with
  | JUndef | JNull => true
  | _ => false
  end.

(** Own-property lookup in an object's property list. *)
Fixpoint lookup (k : string) (props : list (string * value)) : option value :=
  match props with
  | [] => None
  | (k', v) :: rest => if String.eqb k k' then Some v else lookup k rest
  end.

(** [v.k] for the property names the server reads ([name], [source],
    [id], [method], ...): a [TypeError] on [undefined] and [null], the own
    property of an object, [undefined] on a missing property and on
    primitives and arrays (none of those names is an index, [length] or a
    prototype property). *)
Definition get_prop (v : value) (k : string) : result value :=
  match v with
  | JUndef => Throw (TypeError ("Cannot read properties of undefined (reading '" ++ k ++ "')"))
  | JNull => Throw (TypeError ("Cannot read properties of null (reading '" ++ k ++ "')"))
  | JObj props => Ok (match lookup k props with Some x => x | None => JUndef end)
  | _ => Ok JUndef
  end.

(** [{ ...o, k: v }] on a property list: an existing key keeps its place
    and takes the new value, a new key goes last. *)
Fixpoint obj_set (props : list (string * value)) (k : string) (v : value)
  : list (string * value) :=
  match props with
  | [] => [(k, v)]
  | (k', v') :: rest =>
      if String.eqb k k' then (k', v) :: rest else (k', v') :: obj_set rest k v
  end.

(** ** Strings *)

Definition nl : string := String (ascii_of_nat 10) EmptyString.

(** Decimal text of an integer, which is [Number::toString] on the
    numbers of the model (integers of magnitude below [2^53]). *)
Definition string_of_Z (n : Z) : string := NilZero.string_of_int (Z.to_int n).
Definition string_of_nat (n : nat) : string := string_of_Z (Z.of_nat n).

(** [hay.includes(needle)]. *)
Fixpoint includes (needle hay : string) : bool :=
  if String.prefix needle hay then true
  else match hay with
       | EmptyString => false
       | String _ hay' => includes needle hay'
       end.

(** [s.endsWith('/')]. *)
Fixpoint endsWith_slash (s : string) : bool :=
  match s with
  | EmptyString => false
  | String c EmptyString => Ascii.eqb c "/"
  | String _ s' => endsWith_slash s'
  end.

(** [s.slice(0, -1)]. *)
Fixpoint slice_0_m1 (s : string) : string :=
  match s with
  | EmptyString => EmptyString
  | String _ EmptyString => EmptyString
  | String c s' => String c (slice_0_m1 s')
  end.

Fixpoint join (sep : string) (parts : list string) : string :=
  match parts with
  | [] => EmptyString
  | [p] => p
  | p :: rest => p ++ sep ++ join sep rest
  end.

(** ToString, as template literals and [String.prototype.includes]
    apply it.  An object is converted by OrdinaryToPrimitive: its
    [toString] is called when it is callable, which for the objects here
    means inherited ([Object.prototype.toString], giving
    [[object Object]]); an own [toString] property holds a JSON value,
    is not callable, and [valueOf] gives no primitive either, so the
    conversion throws.  An array is converted by [Array.prototype.join],
    which converts its elements in turn ([undefined] and [null] to the
    empty string) and throws when one of them does. *)
Fixpoint toString (v : value) : result string :=
  match v with
  | JUndef => Ok "undefined"
  | JNull => Ok "null"
  | JBool true => Ok "true"
  | JBool false => Ok "false"
  | JNum n => Ok (string_of_Z n)
  | JStr s => Ok s
  | JArr items =>
      do parts <-
         (fix elements (l : list value) : result (list string) :=
            match l with
            | [] => Ok []
            | x :: rest =>
                do here <- (if nullish x then Ok EmptyString else toString x);
                do later <- elements rest;
                Ok (here :: later)
            end) items;
      Ok (join "," parts)
  | JObj props =>
      match lookup "toString" props with
      | Some _ => Throw (TypeError "Cannot convert object to primitive value")
      | None => Ok "[object Object]"
      end
  end.

(** [`${x}`] where [x] is a string or [undefined] (what
    [JSON.stringify] returns, or an array element that may be missing). *)
Definition interpolate (x : option string) : string :=
  match x with
  | Some s => s
  | None => "undefined"
  end.

(** *** JSON.stringify *)

Definition hex_digit (n : nat) : ascii :=
  match n with
  | 0 => "0" | 1 => "1" | 2 => "2" | 3 => "3" | 4 => "4" | 5 => "5"
  | 6 => "6" | 7 => "7" | 8 => "8" | 9 => "9" | 10 => "a" | 11 => "b"
  | 12 => "c" | 13 => "d" | 14 => "e" | _ => "f"
  end%char.

(** One code unit of QuoteJSONString. *)
Definition quote_char (c : ascii) : string :=
  let n := nat_of_ascii c in
  if Nat.eqb n 8 then "\b"
  else if Nat.eqb n 9 then "\t"
  else if Nat.eqb n 10 then "\n"
  else if Nat.eqb n 12 then "\f"
  else if Nat.eqb n 13 then "\r"
  else if Nat.eqb n 34 then "\" ++ String c EmptyString
  else if Nat.eqb n 92 then "\\"
  else if Nat.ltb n 32 then
    "\u00" ++ String (hex_digit (n / 16)) (String (hex_digit (n mod 16)) EmptyString)
  else String c EmptyString.

Fixpoint quote_chars (s : string) : string :=
  match s with
  | EmptyString => EmptyString
  | String c s' => quote_char c ++ quote_chars s'
  end.

Definition dq : string := String (ascii_of_nat 34) EmptyString.

Definition quote (s : string) : string := dq ++ quote_chars s ++ dq.

(** SerializeJSONProperty with a fixed [gap] (empty for
    [JSON.stringify(v)], two spaces for [JSON.stringify(v, null, 2)]) at
    the current indentation [ind]; [None] is the [undefined] result. *)
Fixpoint serialize (gap ind : string) (v : value) : option string :=
  match v with
  | JUndef => None
  | JNull => Some "null"
  | JBool true => Some "true"
  | JBool false => Some "false"
  | JNum n => Some (string_of_Z n)
  | JStr s => Some (quote s)
  | JArr items =>
      let stepback := ind in
      let ind := ind ++ gap in
      let partial :=
        map (fun x => match serialize gap ind x with
                      | Some s => s
                      | None => "null"
                      end) items in
      match partial with
      | [] => Some "[]"
      | _ =>
          if String.eqb gap EmptyString then Some ("[" ++ join "," partial ++ "]")
          else Some ("[" ++ nl ++ ind ++ join ("," ++ nl ++ ind) partial
                     ++ nl ++ stepback ++ "]")
      end
  | JObj props =>
      let stepback := ind in
      let ind := ind ++ gap in
      let partial :=
        (fix members (ps : list (string * value)) : list string :=
           match ps with
           | [] => []
           | (k, x) :: ps' =>
               match serialize gap ind x with
               | Some s =>
                   (quote k ++ ":" ++ (if String.eqb gap EmptyString then EmptyString else " ") ++ s)
                     :: members ps'
               | None => members ps'
               end
           end) props in
      match partial with
      | [] => Some "{}"
      | _ =>
          if String.eqb gap EmptyString then Some ("{" ++ join "," partial ++ "}")
          else Some ("{" ++ nl ++ ind ++ join ("," ++ nl ++ ind) partial
                     ++ nl ++ stepback ++ "}")
      end
  end.

(** [JSON.stringify(v)] and [JSON.stringify(v, null, 2)]: a string, or
    [undefined] when [v] is. *)
Definition JSON_stringify (gap : string) (v : value) : value :=
  match serialize gap EmptyString v with
  | Some s => JStr s
  | None => JUndef
  end.

Definition compact : string := EmptyString.
Definition indent2 : string := "  ".


(** ** The source registry *)

(** [interface DocSource]. *)
Module DocSource.

Record t : Type := {
  name : string;
  url : option string;
  raw : option string;
  github : option string;
  extract : option bool;
  _embeddedData : option (list value)
}.

End DocSource.

(** The worker's [env]: [DOC_SOURCES] after
    [JSON.parse(env.DOC_SOURCES || '[]')], the list of [DocSource] that
    [deployMcpCommand] serialized into the deployment. *)
Record Env : Type := { DOC_SOURCES : list DocSource.t }.

(** An optional string field as the value a property read gives. *)
Definition opt_str (o : option string) : value :=
  match o with
  | Some s => JStr s
  | None => JUndef
  end.

(** ** Effects *)

(** What [await response.json()] gives. *)
Inductive body_outcome : Type :=
| BodyJson (data : value)
| BodyInvalid (message : string).

(** How a [fetch(url)] promise settles. *)
Inductive fetch_outcome : Type :=
| FetchRejected (message : string)
| FetchResponse (status : Z) (json : body_outcome).

(** [response.ok]. *)
Definition response_ok (status : Z) : bool :=
  (200 <=? status)%Z && (status <=? 299)%Z.

(** The worker's programs.  [fetch(u)] issues a request ([Issue]) and
    hands back a promise; [await] suspends until it settles ([Await]).
    Reading the body ([await response.json()]) is part of the settled
    outcome. *)
Inductive io (A : Type) : Type :=
| Ret (a : A)
| Issue (url : string) (k : io A)
| Await (url : string) (k : fetch_outcome -> io A)
| ConsoleError (line : string) (k : io A)
| RandomUUID (k : string -> io A).
Arguments Ret {A} a.
Arguments Issue {A} url k.
Arguments Await {A} url k.
Arguments ConsoleError {A} line k.
Arguments RandomUUID {A} k.

Fixpoint bind {A B : Type} (p : io A) (f : A -> io B) : io B :=
  match p with
  | Ret a => f a
  | Issue u k => Issue u (bind k f)
  | Await u k => Await u (fun o => bind (k o) f)
  | ConsoleError l k => ConsoleError l (bind k f)
  | RandomUUID k => RandomUUID (fun s => bind (k s) f)
  end.

(** [await fetch(url)]. *)
Definition await_fetch {A : Type} (url : string) (k : fetch_outcome -> io A) : io A :=
  Issue url (Await url k).

(** The outside of one invocation: how each URL answers and the stream
    of [crypto.randomUUID()] results. *)
Record world : Type := {
  net : string -> fetch_outcome;
  uuid : nat -> string
}.

Inductive event : Type :=
| Issued (url : string)
| Settled (url : string)
| Logged (line : string).

Record ran (A : Type) : Type := {
  returned : A;
  events : list event;
  drawn : nat
}.
Arguments returned {A} r.
Arguments events {A} r.
Arguments drawn {A} r.

(** Runs a program in a world, [n] UUIDs having been drawn so far. *)
Fixpoint run {A : Type} (w : world) (n : nat) (p : io A) : ran A :=
  match p with
  | Ret a => {| returned := a; events := []; drawn := n |}
  | Issue u k =>
      let r := run w n k in
      {| returned := returned r; events := Issued u :: events r; drawn := drawn r |}
  | Await u k =>
      let r := run w n (k (net w u)) in
      {| returned := returned r; events := Settled u :: events r; drawn := drawn r |}
  | ConsoleError l k =>
      let r := run w n k in
      {| returned := returned r; events := Logged l :: events r; drawn := drawn r |}
  | RandomUUID k => run w (S n) (k (uuid w n))
  end.

Definition result_of {A : Type} (w : world) (p : io A) : A := returned (run w 0 p).
Definition trace_of {A : Type} (w : world) (p : io A) : list event := events (run w 0 p).

(** ** The aggregator *)

(** The own enumerable properties that [{ ...cls }] copies: those of an
    object; the indexed elements of an array or of a string (one per code
    unit); none for the other primitives. *)
Fixpoint indexed (i : nat) (items : list value) : list (string * value) :=
  match items with
  | [] => []
  | x :: rest => (string_of_nat i, x) :: indexed (S i) rest
  end.

Fixpoint chars (s : string) : list value :=
  match s with
  | EmptyString => []
  | String c s' => JStr (String c EmptyString) :: chars s'
  end.

Definition spread (cls : value) : list (string * value) :=
  match cls with
  | JObj props => props
  | JArr items => indexed 0 items
  | JStr s => indexed 0 (chars s)
  | _ => []
  end.

(** [for (const x of v)]: the elements of an array, the characters of a
    string, a [TypeError] otherwise, thrown before the first iteration. *)
Definition iterate (v : value) : result (list value) :=
  match v with
  | JArr items => Ok items
  | JStr s => Ok (chars s)
  | _ => Throw (TypeError "data is not iterable")
  end.

(** The same for [for (const func of cls.functions || [])], where the
    subject of the loop is an expression. *)
Definition iterate_functions (v : value) : result (list value) :=
  match v with
  | JArr items => Ok items
  | JStr s => Ok (chars s)
  | _ => Throw (TypeError "(cls.functions || []) is not iterable")
  end.

(** [{ ...cls, _source: source.name, _sourceUrl: sourceUrl }]. *)
Definition stamp (source_name : string) (sourceUrl : value) (cls : value) : value :=
  JObj (obj_set (obj_set (spread cls) "_source" (JStr source_name))
                "_sourceUrl" sourceUrl).

(** [source.github || source.url || source.raw]. *)
Definition embedded_sourceUrl (source : DocSource.t) : value :=
  js_or (js_or (opt_str (DocSource.github source)) (opt_str (DocSource.url source)))
        (opt_str (DocSource.raw source)).

(** [source.url || source.raw]. *)
Definition remote_sourceUrl (source : DocSource.t) : value :=
  js_or (opt_str (DocSource.url source)) (opt_str (DocSource.raw source)).

Definition nonempty (o : option string) : option string :=
  match o with
  | Some s => if String.eqb s EmptyString then None else Some s
  | None => None
  end.

(** The URL the loop fetches, [None] when [!rawUrl] ([continue]):
    [source.raw] if truthy, else [source.url] without one trailing slash
    followed by [/raw.json]. *)
Definition resolve_rawUrl (source : DocSource.t) : option string :=
  match nonempty (DocSource.raw source) with
  | Some rawUrl => Some rawUrl
  | None =>
      match nonempty (DocSource.url source) with
      | Some u =>
          let baseUrl := if endsWith_slash u then slice_0_m1 u else u in
          Some (baseUrl ++ "/raw.json")
      | None => None
      end
  end.

(** The [try] block of one loop iteration over the mutable [allData]:
    the array after the block, and whether the block completed or threw. *)
Definition try_source (source : DocSource.t) (allData : list value)
  : io (list value * result unit) :=
  match DocSource._embeddedData source with
  | Some data =>
      Ret ((allData ++ map (stamp (DocSource.name source) (embedded_sourceUrl source)) data)%list,
           Ok tt)
  | None =>
      match resolve_rawUrl source with
      | None => Ret (allData, Ok tt)
      | Some rawUrl =>
          await_fetch rawUrl (fun response =>
            match response with
            | FetchRejected m => Ret (allData, Throw (TypeError m))
            | FetchResponse status json =>
                if negb (response_ok status) then
                  ConsoleError ("Failed to fetch " ++ DocSource.name source ++ ": "
                                ++ string_of_Z status)
                    (Ret (allData, Ok tt))
                else
                  match json with
                  | BodyInvalid m => Ret (allData, Throw (SyntaxError m))
                  | BodyJson data =>
                      match iterate data with
                      | Throw e => Ret (allData, Throw e)
                      | Ok items =>
                          Ret ((allData ++ map (stamp (DocSource.name source)
                                                     (remote_sourceUrl source)) items)%list,
                               Ok tt)
                      end
                  end
            end)
      end
  end.

(** [for (const source of sources) { try { ... } catch (e) { console.error(...) } }]. *)
Fixpoint fetchAllSources_loop (sources : list DocSource.t) (allData : list value)
  : io (list value) :=
  match sources with
  | [] => Ret allData
  | source :: rest =>
      bind (try_source source allData) (fun st =>
        match snd st with
        | Ok _ => fetchAllSources_loop rest (fst st)
        | Throw e =>
            ConsoleError ("Error fetching " ++ DocSource.name source ++ ": " ++ e_message e)
              (fetchAllSources_loop rest (fst st))
        end)
  end.

Definition fetchAllSources (env : Env) : io (list value) :=
  fetchAllSources_loop (DOC_SOURCES env) [].

(** ** The JSON-RPC engine and the query engine *)

Fixpoint filterR (f : value -> result bool) (l : list value) : result (list value) :=
  match l with
  | [] => Ok []
  | x :: rest =>
      do b <- f x;
      do rest' <- filterR f rest;
      Ok (if b then x :: rest' else rest')
  end.

Fixpoint mapR {A B : Type} (f : A -> result B) (l : list A) : result (list B) :=
  match l with
  | [] => Ok []
  | x :: rest =>
      do y <- f x;
      do rest' <- mapR f rest;
      Ok (y :: rest')
  end.

(** [arr.find(cb)]: the first element whose callback result is truthy. *)
Fixpoint findR (f : value -> result bool) (l : list value) : result value :=
  match l with
  | [] => Ok JUndef
  | x :: rest =>
      do b <- f x;
      if b then Ok x else findR f rest
  end.

(** A loop whose iterations push onto a local array: what all of them
    pushed, unless one throws. *)
Fixpoint flat_mapR {A B : Type} (f : A -> result (list B)) (l : list A) : result (list B) :=
  match l with
  | [] => Ok []
  | x :: rest =>
      do here <- f x;
      do later <- flat_mapR f rest;
      Ok (here ++ later)%list
  end.

(** [[{ type: 'text', text }]]. *)
Definition text_content (text : value) : value :=
  JArr [JObj [("type", JStr "text"); ("text", text)]].

Definition result_envelope (id res : value) : value :=
  JObj [("jsonrpc", JStr "2.0"); ("id", id); ("result", res)].

Definition error_envelope (id : value) (code : Z) (message : string) : value :=
  JObj [("jsonrpc", JStr "2.0"); ("id", id);
        ("error", JObj [("code", JNum code); ("message", JStr message)])].

(** The [catch (e)] of [handleRequest]. *)
Definition internal_error (id : value) (e : js_error) : value :=
  JObj [("jsonrpc", JStr "2.0"); ("id", id);
        ("error", JObj [("code", JNum (-32603)); ("message", JStr "Internal error");
                        ("data", JStr (e_message e))])].

(** The catalogue that [tools/list] returns. *)
Record tool : Type := {
  tool_name : string;
  tool_description : string;
  tool_properties : list (string * string);
  tool_required : option (list string)
}.

Definition tools : list tool :=
  [ {| tool_name := "list_sources";
       tool_description := "List all documentation sources configured in this MCP server";
       tool_properties := [];
       tool_required := None |};
    {| tool_name := "get_raw_api_data";
       tool_description := "Get the complete raw API documentation data from all sources";
       tool_properties := [("source", "Filter by source name (optional)")];
       tool_required := None |};
    {| tool_name := "search_classes";
       tool_description := "Search for classes by name or tag across all sources";
       tool_properties := [("query", "Search query for class name");
                           ("tag", "Filter by tag");
                           ("source", "Filter by source name")];
       tool_required := None |};
    {| tool_name := "get_class";
       tool_description := "Get detailed information about a specific class";
       tool_properties :=
         [("name", "The class name");
          ("source", "The source name (optional, useful if multiple sources have same class name)")];
       tool_required := Some ["name"] |};
    {| tool_name := "search_functions";
       tool_description := "Search for functions across all classes and sources";
       tool_properties := [("query", "Search query for function name");
                           ("className", "Filter by class name");
                           ("source", "Filter by source name")];
       tool_required := None |};
    {| tool_name := "get_function";
       tool_description := "Get detailed information about a specific function";
       tool_properties := [("className", "The class name");
                           ("functionName", "The function name");
                           ("source", "The source name (optional)")];
       tool_required := Some ["className"; "functionName"] |} ].

Definition tool_json (t : tool) : value :=
  let properties :=
    JObj (map (fun p => (fst p, JObj [("type", JStr "string"); ("description", JStr (snd p))]))
              (tool_properties t)) in
  let schema := [("type", JStr "object"); ("properties", properties)] in
  JObj [("name", JStr (tool_name t));
        ("description", JStr (tool_description t));
        ("inputSchema",
         JObj (match tool_required t with
               | Some req => (schema ++ [("required", JArr (map JStr req))])%list
               | None => schema
               end))].

(** [sources.map(s => ({ name: s.name, url: s.url || s.raw }))]. *)
Definition sourceInfo (sources : list DocSource.t) : value :=
  JArr (map (fun s => JObj [("name", JStr (DocSource.name s));
                            ("url", remote_sourceUrl s)]) sources).

(** [cls => cls._source === args.source]. *)
Definition from_source (args cls : value) : result bool :=
  do c_source <- get_prop cls "_source";
  do a_source <- get_prop args "source";
  Ok (strict_eq c_source a_source).

(** [cls => cls.name === args[key]]. *)
Definition named (key : string) (args cls : value) : result bool :=
  do c_name <- get_prop cls "name";
  do a_name <- get_prop args key;
  Ok (strict_eq c_name a_name).

(** [if (args.source) list = list.filter(cls => cls._source === args.source)]. *)
Definition narrow_by_source (args : value) (l : list value) : result (list value) :=
  do a_source <- get_prop args "source";
  if truthy a_source then filterR (from_source args) l else Ok l.

Section Server.

(** [String.prototype.toLowerCase], the host's Unicode case mapping. *)
Variable toLowerCase : string -> string.

(** [v.toLowerCase()]. *)
Definition call_toLowerCase (v : value) : result string :=
  match v with
  | JStr s => Ok (toLowerCase s)
  | JUndef => Throw (TypeError "Cannot read properties of undefined (reading 'toLowerCase')")
  | JNull => Throw (TypeError "Cannot read properties of null (reading 'toLowerCase')")
  | _ => Throw (TypeError "toLowerCase is not a function")
  end.

(** [recv.includes(arg)] on a truthy receiver: [Array.prototype.includes]
    (SameValueZero), [String.prototype.includes] (the argument converted
    to a string), no such method otherwise. *)
Definition call_includes (recv arg : value) : result bool :=
  match recv with
  | JArr items => Ok (existsb (strict_eq arg) items)
  | JStr s => do text <- toString arg; Ok (includes text s)
  | _ => Throw (TypeError "cls.tags.includes is not a function")
  end.

(** [x.name.toLowerCase().includes(args.query.toLowerCase())]. *)
Definition name_matches_query (args x : value) : result bool :=
  do x_name <- get_prop x "name";
  do lname <- call_toLowerCase x_name;
  do a_query <- get_prop args "query";
  do lquery <- call_toLowerCase a_query;
  Ok (includes lquery lname).

(** case 'get_raw_api_data' *)
Definition get_raw_api_data (args : value) (rawData : list value) : result value :=
  do dataToReturn <- narrow_by_source args rawData;
  Ok (text_content (JSON_stringify indent2 (JArr dataToReturn))).

(** The filter callback of case 'search_classes'. *)
Definition search_classes_keep (args cls : value) : result bool :=
  do a_source <- get_prop args "source";
  do other_source <-
     (if truthy a_source then
        do c_source <- get_prop cls "_source";
        do a_source' <- get_prop args "source";
        Ok (negb (strict_eq c_source a_source'))
      else Ok false);
  if other_source then Ok false else
  do a_query <- get_prop args "query";
  do no_match <-
     (if truthy a_query then
        do m <- name_matches_query args cls;
        Ok (negb m)
      else Ok false);
  if no_match then Ok false else
  do a_tag <- get_prop args "tag";
  do untagged <-
     (if truthy a_tag then
        do c_tags <- get_prop cls "tags";
        if negb (truthy c_tags) then Ok true
        else
          do c_tags' <- get_prop cls "tags";
          do a_tag' <- get_prop args "tag";
          do has <- call_includes c_tags' a_tag';
          Ok (negb has)
      else Ok false);
  if untagged then Ok false else Ok true.

(** case 'search_classes' *)
Definition search_classes (args : value) (rawData : list value) : result value :=
  do filteredClasses <- filterR (search_classes_keep args) rawData;
  do projected <-
     mapR (fun c =>
             do c_name <- get_prop c "name";
             do c_tags <- get_prop c "tags";
             do c_desc <- get_prop c "desc";
             do c_source <- get_prop c "_source";
             Ok (JObj [("name", c_name); ("tags", c_tags);
                       ("description", c_desc); ("source", c_source)]))
          filteredClasses;
  Ok (text_content (JSON_stringify indent2 (JArr projected))).

(** [c => ({ name: c.name, source: c._source, desc: c.desc })]. *)
Definition candidate (c : value) : result value :=
  do c_name <- get_prop c "name";
  do c_source <- get_prop c "_source";
  do c_desc <- get_prop c "desc";
  Ok (JObj [("name", c_name); ("source", c_source); ("desc", c_desc)]).

(** The classes that case 'get_class' and case 'get_function' select:
    [rawData.filter(cls => cls.name === args[key])], narrowed by
    [args.source] when it is truthy. *)
Definition select_classes (key : string) (args : value) (rawData : list value)
  : result (list value) :=
  do byName <- filterR (named key args) rawData;
  narrow_by_source args byName.

Definition not_found_text (args : value) (key : string) : result string :=
  do a_name <- get_prop args key;
  do text <- toString a_name;
  Ok ("Class '" ++ text ++ "' not found").

(** case 'get_class' *)
Definition get_class (args : value) (rawData : list value) : result value :=
  do classData <- select_classes "name" args rawData;
  match classData with
  | [] =>
      do text <- not_found_text args "name";
      Ok (text_content (JStr text))
  | [only] => Ok (text_content (JSON_stringify indent2 only))
  | _ =>
      do a_name <- get_prop args "name";
      do text <- toString a_name;
      do candidates <- mapR candidate classData;
      Ok (text_content
            (JStr ("Found " ++ string_of_nat (List.length classData) ++ " classes named '"
                   ++ text
                   ++ "' from different sources. Specify 'source' parameter to disambiguate."
                   ++ nl ++ nl
                   ++ interpolate (serialize indent2 EmptyString (JArr candidates)))))
  end.

(** The body of the inner loop of case 'search_functions': what one
    [func] of [cls] pushes. *)
Definition search_functions_step (args cls func : value) : result (list value) :=
  do a_query <- get_prop args "query";
  do keep <- (if negb (truthy a_query) then Ok true else name_matches_query args func);
  if keep then
    do c_name <- get_prop cls "name";
    do f_name <- get_prop func "name";
    do f_type <- get_prop func "function_type";
    do f_desc <- get_prop func "desc";
    do c_source <- get_prop cls "_source";
    Ok [JObj [("className", c_name); ("name", f_name); ("type", f_type);
              ("description", f_desc); ("source", c_source)]]
  else Ok [].

(** [for (const func of cls.functions || []) ...]. *)
Definition search_functions_in (args cls : value) : result (list value) :=
  do c_functions <- get_prop cls "functions";
  do funcs <- (if truthy c_functions then iterate_functions c_functions else Ok []);
  flat_mapR (search_functions_step args cls) funcs.

(** The two [continue] guards of case 'search_functions'. *)
Definition search_functions_skip (args cls : value) : result bool :=
  do a_source <- get_prop args "source";
  do other_source <-
     (if truthy a_source then
        do c_source <- get_prop cls "_source";
        do a_source' <- get_prop args "source";
        Ok (negb (strict_eq c_source a_source'))
      else Ok false);
  if other_source then Ok true else
  do a_className <- get_prop args "className";
  if truthy a_className then
    do c_name <- get_prop cls "name";
    do a_className' <- get_prop args "className";
    Ok (negb (strict_eq c_name a_className'))
  else Ok false.

Definition search_functions_loop (args : value) (rawData : list value)
  : result (list value) :=
  flat_mapR (fun cls =>
               do skip <- search_functions_skip args cls;
               if skip then Ok [] else search_functions_in args cls) rawData.

(** case 'search_functions' *)
Definition search_functions (args : value) (rawData : list value) : result value :=
  do functions <- search_functions_loop args rawData;
  Ok (text_content (JSON_stringify indent2 (JArr functions))).

(** [targetClass.functions?.find(f => f.name === args.functionName)]. *)
Definition find_function (args targetClass : value) : result value :=
  do c_functions <- get_prop targetClass "functions";
  match c_functions with
  | JUndef | JNull => Ok JUndef
  | JArr fs =>
      findR (fun f =>
               do f_name <- get_prop f "name";
               do a_functionName <- get_prop args "functionName";
               Ok (strict_eq f_name a_functionName)) fs
  | _ => Throw (TypeError "targetClass.functions?.find is not a function")
  end.

(** One iteration of the loop of case 'get_function': what
    [targetClass] pushes onto [foundFunctions]. *)
Definition found_in (args targetClass : value) : result (list value) :=
  do func <- find_function args targetClass;
  if truthy func then
    do c_source <- get_prop targetClass "_source";
    do c_name <- get_prop targetClass "name";
    Ok [JObj (obj_set (obj_set (spread func) "_source" c_source) "_className" c_name)]
  else Ok [].

Definition foundFunctions (args : value) (targetClasses : list value)
  : result (list value) :=
  flat_mapR (found_in args) targetClasses.

(** case 'get_function' *)
Definition get_function (args : value) (rawData : list value) : result value :=
  do targetClasses <- select_classes "className" args rawData;
  match targetClasses with
  | [] =>
      do text <- not_found_text args "className";
      Ok (text_content (JStr text))
  | _ =>
      do found <- foundFunctions args targetClasses;
      match found with
      | [] =>
          do a_functionName <- get_prop args "functionName";
          do functionName <- toString a_functionName;
          do a_className <- get_prop args "className";
          do className <- toString a_className;
          Ok (text_content
                (JStr ("Function '" ++ functionName ++ "' not found in class '"
                       ++ className ++ "'")))
      | [only] => Ok (text_content (JSON_stringify indent2 only))
      | _ => Ok (text_content (JSON_stringify indent2 (JArr found)))
      end
  end.

(** The [switch (name)] of [tools/call]: the [content] of the matching
    case, or [None] in the [default] case. *)
Definition tool_switch (name args : value) (rawData : list value)
  : result (option value) :=
  match name with
  | JStr n =>
      if String.eqb n "get_raw_api_data" then
        do c <- get_raw_api_data args rawData; Ok (Some c)
      else if String.eqb n "search_classes" then
        do c <- search_classes args rawData; Ok (Some c)
      else if String.eqb n "get_class" then
        do c <- get_class args rawData; Ok (Some c)
      else if String.eqb n "search_functions" then
        do c <- search_functions args rawData; Ok (Some c)
      else if String.eqb n "get_function" then
        do c <- get_function args rawData; Ok (Some c)
      else Ok None
  | _ => Ok None
  end.

(** What [tools/call] returns once [rawData] is there. *)
Definition tools_call_response (id name args : value) (rawData : list value) : value :=
  match tool_switch name args rawData with
  | Ok (Some content) => result_envelope id (JObj [("content", content)])
  | Ok None =>
      match toString name with
      | Ok text => error_envelope id (-32601) ("Unknown tool: " ++ text)
      | Throw e => internal_error id e
      end
  | Throw e => internal_error id e
  end.

(** The [initialize] response, [newSessionId] being
    [crypto.randomUUID()]. *)
Definition initialize_response (id : value) (newSessionId : string) : value :=
  JObj [("jsonrpc", JStr "2.0"); ("id", id);
        ("result",
         JObj [("protocolVersion", JStr "2025-03-26");
               ("capabilities", JObj [("tools", JObj [])]);
               ("serverInfo", JObj [("name", JStr "moonwave-mcp-server");
                                    ("version", JStr "1.0.0")])]);
        ("_sessionId", JStr newSessionId)].

(** [handleRequest(message, sessionId, env)].  The destructuring of
    [message] is outside the [try]: it throws to the caller.  Everything
    else is inside and ends in the [-32603] envelope. *)
Definition handleRequest (message : value) (sessionId : option string) (env : Env)
  : io (result value) :=
  match (do id <- get_prop message "id";
         do method <- get_prop message "method";
         do params <- get_prop message "params";
         Ok (id, method, params)) with
  | Throw e => Ret (Throw e)
  | Ok (id, method, params) =>
      if strict_eq method (JStr "initialize") then
        RandomUUID (fun newSessionId => Ret (Ok (initialize_response id newSessionId)))
      else if strict_eq method (JStr "tools/list") then
        Ret (Ok (result_envelope id (JObj [("tools", JArr (map tool_json tools))])))
      else if strict_eq method (JStr "tools/call") then
        match (do name <- get_prop params "name";
               do args <- get_prop params "arguments";
               Ok (name, args)) with
        | Throw e => Ret (Ok (internal_error id e))
        | Ok (name, args) =>
            if strict_eq name (JStr "list_sources") then
              Ret (Ok (result_envelope id
                         (JObj [("content",
                                 text_content
                                   (JSON_stringify indent2
                                      (sourceInfo (DOC_SOURCES env))))])))
            else
              bind (fetchAllSources env) (fun rawData =>
                Ret (Ok (tools_call_response id name args rawData)))
        end
      else Ret (Ok (error_envelope id (-32601) "Method not found"))
  end.

(** ** The transport router *)

(** What the worker reads of a [Request]. *)
Record Request : Type := {
  method : string;
  pathname : string;
  Origin : option string;
  Accept : option string;
  Mcp_Session_Id : option string;
  json : result value
}.

(** The body of a [Response]: [null], a string, the readable side of
    [handleSSE] (the frames its writer writes before it closes), or the
    readable side of [handleGet] (keep-alive comments on a timer). *)
Inductive Body : Type :=
| NoBody
| TextBody (text : string)
| FrameStream (frames : list string)
| KeepAliveStream.

(** A [Response]: its body, its status and the headers given to the
    constructor. *)
Record Response : Type := {
  body : Body;
  status : Z;
  headers : list (string * string)
}.

Fixpoint header (k : string) (hs : list (string * string)) : option string :=
  match hs with
  | [] => None
  | (k', v) :: rest => if String.eqb k k' then Some v else header k rest
  end.

(** [new Response(s)] with [s] the result of [JSON.stringify]. *)
Definition body_of (v : value) : Body :=
  match v with
  | JStr s => TextBody s
  | _ => NoBody
  end.

(** [getCorsHeaders(request)]; [origin || '*'] takes the wildcard for a
    missing header and for an empty one. *)
Definition getCorsHeaders (request : Request) : list (string * string) :=
  let origin := Origin request in
  [("Access-Control-Allow-Origin",
    match nonempty origin with Some o => o | None => "*" end);
   ("Access-Control-Allow-Methods", "GET, POST, OPTIONS");
   ("Access-Control-Allow-Headers", "Content-Type, Accept, Mcp-Session-Id, Last-Event-ID")].

(** [request.headers.get('Accept') || '']. *)
Definition accept_of (request : Request) : string :=
  match nonempty (Accept request) with Some a => a | None => EmptyString end.

(** [msg => msg.method && msg.id !== undefined]. *)
Definition is_request (msg : value) : result bool :=
  do m <- get_prop msg "method";
  if truthy m then
    do id <- get_prop msg "id";
    Ok (negb (strict_eq id JUndef))
  else Ok false.

(** [msg => msg.id !== undefined]. *)
Definition has_id (msg : value) : result bool :=
  do id <- get_prop msg "id";
  Ok (negb (strict_eq id JUndef)).

(** [arr.some(cb)]. *)
Fixpoint someR (f : value -> result bool) (l : list value) : result bool :=
  match l with
  | [] => Ok false
  | x :: rest =>
      do b <- f x;
      if b then Ok true else someR f rest
  end.

(** [Promise.all(msgs.map(msg => handleRequest(msg, sessionId, env)))].
    The worker starts the handlers together, so the requests of
    different handlers interleave there.  The handlers share no state and
    a world answers a URL the same way every time, so their envelopes are
    those of running them one after another in input order, which is what
    this definition does: it gives the envelopes of the batch, and lists
    the events handler by handler rather than in their interleaved order.
    A rejection rejects the whole. *)
Fixpoint all_handled (sessionId : option string) (env : Env) (msgs : list value)
  : io (result (list value)) :=
  match msgs with
  | [] => Ret (Ok [])
  | msg :: rest =>
      bind (handleRequest msg sessionId env) (fun r =>
        bind (all_handled sessionId env rest) (fun rs =>
          Ret (do response <- r; do responses <- rs; Ok (response :: responses))))
  end.

Definition event_stream_headers (request : Request) : list (string * string) :=
  ([("Content-Type", "text/event-stream");
    ("Cache-Control", "no-cache");
    ("Connection", "keep-alive")] ++ getCorsHeaders request)%list.

(** [`data: ${JSON.stringify(response)}\n\n`]. *)
Definition sse_frame (response : value) : string :=
  "data: " ++ interpolate (serialize compact EmptyString response) ++ nl ++ nl.

(** The [try] block of [handleSSE]'s writer over the frames written so
    far. *)
Fixpoint sse_try (sessionId : option string) (env : Env) (messages : list value)
         (written : list string) : io (list string * result unit) :=
  match messages with
  | [] => Ret (written, Ok tt)
  | msg :: rest =>
      match has_id msg with
      | Throw e => Ret (written, Throw e)
      | Ok false => sse_try sessionId env rest written
      | Ok true =>
          bind (handleRequest msg sessionId env) (fun r =>
            match r with
            | Throw e => Ret (written, Throw e)
            | Ok response =>
                sse_try sessionId env rest
                  (written ++ [sse_frame response])%list
            end)
      end
  end.

Definition handleSSE (messages : list value) (sessionId : option string) (env : Env)
           (request : Request) : io Response :=
  bind (sse_try sessionId env messages []) (fun st =>
    let frames :=
      match snd st with
      | Ok _ => fst st
      | Throw e =>
          (fst st ++
             [sse_frame (JObj [("jsonrpc", JStr "2.0");
                               ("error", JObj [("code", JNum (-32603));
                                               ("message", JStr "Internal error");
                                               ("data", JStr (e_message e))])])])%list
      end in
    Ret {| body := FrameStream frames; status := 200;
           headers := event_stream_headers request |}).

Definition json_headers (request : Request) : list (string * string) :=
  (("Content-Type", "application/json") :: getCorsHeaders request)%list.

Definition handlePost (request : Request) (env : Env) : io (result Response) :=
  let accept := accept_of request in
  let sessionId := Mcp_Session_Id request in
  match json request with
  | Throw _ =>
      Ret (Ok {| body := body_of (JSON_stringify compact
                                     (JObj [("jsonrpc", JStr "2.0");
                                            ("error", JObj [("code", JNum (-32700));
                                                            ("message", JStr "Parse error")])]));
                 status := 400;
                 headers := json_headers request |})
  | Ok body =>
      let messages := match body with JArr l => l | _ => [body] end in
      match someR is_request messages with
      | Throw e => Ret (Throw e)
      | Ok false =>
          Ret (Ok {| body := NoBody; status := 202; headers := getCorsHeaders request |})
      | Ok true =>
          if includes "text/event-stream" accept then
            bind (handleSSE messages sessionId env request) (fun r => Ret (Ok r))
          else
            match filterR has_id messages with
            | Throw e => Ret (Throw e)
            | Ok requests =>
                bind (all_handled sessionId env requests) (fun rs =>
                  match rs with
                  | Throw e => Ret (Throw e)
                  | Ok responses =>
                      Ret (Ok {| body := body_of (JSON_stringify compact
                                                     (match responses with
                                                      | [only] => only
                                                      | _ => JArr responses
                                                      end));
                                 status := 200;
                                 headers := json_headers request |})
                  end)
            end
      end
  end.

Definition handleGet (request : Request) (env : Env) : Response :=
  let accept := accept_of request in
  if negb (includes "text/event-stream" accept) then
    {| body := TextBody "Method Not Allowed"; status := 405; headers := [] |}
  else
    {| body := KeepAliveStream; status := 200; headers := event_stream_headers request |}.

(** The info document of [GET /]. *)
Definition info_document (env : Env) : value :=
  JObj [("name", JStr "moonwave-mcp-server");
        ("version", JStr "1.0.0");
        ("description", JStr "MCP server for Moonwave API documentation");
        ("protocolVersion", JStr "2025-03-26");
        ("sources", sourceInfo (DOC_SOURCES env));
        ("mcpEndpoint", JStr "/mcp")].

(** [export default { async fetch(request, env, ctx) }]. *)
Definition fetch (request : Request) (env : Env) : io (result Response) :=
  if String.eqb (pathname request) "/mcp" || String.eqb (pathname request) "/mcp/" then
    if String.eqb (method request) "POST" then handlePost request env
    else if String.eqb (method request) "GET" then Ret (Ok (handleGet request env))
    else if String.eqb (method request) "OPTIONS" then
      Ret (Ok {| body := NoBody; status := 204; headers := getCorsHeaders request |})
    else Ret (Ok {| body := TextBody "Method Not Allowed"; status := 405; headers := [] |})
  else if String.eqb (pathname request) "/" && String.eqb (method request) "GET" then
    Ret (Ok {| body := body_of (JSON_stringify compact (info_document env));
               status := 200;
               headers := json_headers request |})
  else Ret (Ok {| body := TextBody "Not Found"; status := 404; headers := [] |}).

End Server.


(** * The deployment command

    [deploy-mcp], the second document of
    [src/cli/src/commands/extract-github.ts]: how the registry of the
    worker is built from the command line and the configuration file. *)

(** [s.split(c)] for a separator of one character: the pieces between
    the separators, one piece (the string itself) when there is none. *)
Fixpoint split (c : ascii) (s : string) : list string :=
  match s with
  | EmptyString => [EmptyString]
  | String x s' =>
      if Ascii.eqb x c then EmptyString :: split c s'
      else match split c s' with
           | piece :: pieces => String x piece :: pieces
           | [] => [String x EmptyString]
           end
  end.

(** [parts[i]], [undefined] past the end. *)
Definition part (parts : list string) (i : nat) : value :=
  match nth_error parts i with
  | Some s => JStr s
  | None => JUndef
  end.

(** [.filter(Boolean)] on strings. *)
Definition is_nonempty (s : string) : bool := negb (String.eqb s EmptyString).

Fixpoint drop (n : nat) (s : string) : string :=
  match n, s with
  | S n', String _ s' => drop n' s'
  | _, _ => s
  end.

(** [hostname.replace(/^www\./, '')]. *)
Definition strip_www (hostname : string) : string :=
  if String.prefix "www." hostname then drop 4 hostname else hostname.

(** [resolveGitHubUrl(repo)]: the destructuring takes the first two
    pieces, the second being [undefined] when there is no slash. *)
Definition resolveGitHubUrl (repo : string) : string :=
  let parts := split "/" repo in
  let owner := nth_error parts 0 in
  let repoName := nth_error parts 1 in
  "https://" ++ interpolate owner ++ ".github.io/" ++ interpolate repoName ++ "/raw.json".

(** [interface DeployMcpArgs], without the two credentials. *)
Record DeployMcpArgs : Type := {
  arg_url : option string;
  include_raw : option (list string);
  include_github : option (list string);
  extract_github : option (list string);
  config : option string
}.

(** [interface McpConfig]. *)
Record McpConfig : Type := { sources : list DocSource.t }.

(** A [DocSource] as the object that is serialized: the fields that are
    there. *)
Definition optional (k : string) (o : option value) : list (string * value) :=
  match o with
  | Some v => [(k, v)]
  | None => []
  end.

Definition source_json (source : DocSource.t) : value :=
  JObj ([("name", JStr (DocSource.name source))]
        ++ optional "url" (option_map JStr (DocSource.url source))
        ++ optional "raw" (option_map JStr (DocSource.raw source))
        ++ optional "github" (option_map JStr (DocSource.github source))
        ++ optional "extract" (option_map JBool (DocSource.extract source))
        ++ optional "_embeddedData" (option_map JArr (DocSource._embeddedData source)))%list.

Section Deploy.

(** [new URL(url)]: the host name and the path of a URL that parses,
    [None] when the constructor throws. *)
Variable parse_URL : string -> option (string * string).

(** [loadConfigFile(configPath)]: the configuration read and parsed, or
    [null]. *)
Variable loadConfigFile : string -> option McpConfig.

(** [extractFromGitHub(repo, binaryPath)]: the classes extracted from a
    clone of the repository, or [null]. *)
Variable extractFromGitHub : string -> option (list value).

(** [hostname.split('.')[0]] is always there: a split gives at least one
    piece. *)
Definition extractNameFromUrl (url : string) : string :=
  match parse_URL url with
  | None => url
  | Some (parsed_hostname, parsed_pathname) =>
      let hostname := strip_www parsed_hostname in
      let pathParts := filter is_nonempty (split "/" parsed_pathname) in
      if includes "github.io" hostname then
        match pathParts with
        | first :: _ => first
        | [] => interpolate (nth_error (split "." hostname) 0)
        end
      else interpolate (nth_error (split "." hostname) 0)
  end.

(** [source.name || source.github.split('/')[1]]. *)
Definition config_name (source : DocSource.t) (github : string) : value :=
  js_or (JStr (DocSource.name source)) (part (split "/" github) 1).

(** What one source of the configuration file pushes. *)
Definition config_source (source : DocSource.t) : list value :=
  match nonempty (DocSource.github source) with
  | Some github =>
      match DocSource.extract source with
      | Some true =>
          match extractFromGitHub github with
          | Some extractedData =>
              [JObj [("name", config_name source github);
                     ("github", JStr github);
                     ("_embeddedData", JArr extractedData)]]
          | None => []
          end
      | _ =>
          [JObj [("name", config_name source github);
                 ("raw", JStr (resolveGitHubUrl github))]]
      end
  | None => [source_json source]
  end.

(** [repoName || repo] after [const [, repoName] = repo.split('/')]. *)
Definition repo_name (repo : string) : value :=
  js_or (part (split "/" repo) 1) (JStr repo).

Definition list_of {A : Type} (o : option (list A)) : list A :=
  match o with
  | Some l => l
  | None => []
  end.

(** [buildSourcesList(args, binaryPath)]. *)
Definition buildSourcesList (args : DeployMcpArgs) : list value :=
  (match nonempty (config args) with
   | Some configPath =>
       match loadConfigFile configPath with
       | Some config => flat_map config_source (sources config)
       | None => []
       end
   | None => []
   end
   ++ match nonempty (arg_url args) with
      | Some url => [JObj [("name", JStr (extractNameFromUrl url)); ("url", JStr url)]]
      | None => []
      end
   ++ map (fun rawUrl => JObj [("name", JStr (extractNameFromUrl rawUrl));
                               ("raw", JStr rawUrl)])
          (list_of (include_raw args))
   ++ map (fun repo => JObj [("name", repo_name repo);
                             ("raw", JStr (resolveGitHubUrl repo))])
          (list_of (include_github args))
   ++ flat_map (fun repo =>
                  match extractFromGitHub repo with
                  | Some extractedData =>
                      [JObj [("name", repo_name repo);
                             ("github", JStr repo);
                             ("_embeddedData", JArr extractedData)]]
                  | None => []
                  end)
               (list_of (extract_github args)))%list.

End Deploy.

(** [JSON.stringify(sources).replace(/'/g, "\\'")]: a backslash before
    every apostrophe. *)
Fixpoint escape_apostrophes (s : string) : string :=
  match s with
  | EmptyString => EmptyString
  | String c s' =>
      if Ascii.eqb c "'" then String "\" (String c (escape_apostrophes s'))
      else String c (escape_apostrophes s')
  end.

(** The first occurrence of [pat] in [s]: what is before it and what is
    after it. *)
Fixpoint find_first (pat s : string) : option (string * string) :=
  if String.prefix pat s then Some (EmptyString, drop (String.length pat) s)
  else match s with
       | EmptyString => None
       | String c s' =>
           match find_first pat s' with
           | Some (before, after) => Some (String c before, after)
           | None => None
           end
       end.

(** GetSubstitution for a string pattern: [$$] is a dollar sign, [$&]
    the match, [$`] the text before it and [$'] the text after it; with
    no capture groups every other [$] stands for itself. *)
Fixpoint substitution (matched before after replacement : string) : string :=
  match replacement with
  | EmptyString => EmptyString
  | String c r =>
      if Ascii.eqb c "$" then
        match r with
        | String d r' =>
            if Ascii.eqb d "$" then String "$" (substitution matched before after r')
            else if Ascii.eqb d "&" then matched ++ substitution matched before after r'
            else if Ascii.eqb d "`" then before ++ substitution matched before after r'
            else if Ascii.eqb d "'" then after ++ substitution matched before after r'
            else String c (substitution matched before after r)
        | EmptyString => String c EmptyString
        end
      else String c (substitution matched before after r)
  end.

(** [s.replace(pat, replacement)] with a string pattern: the first
    occurrence only. *)
Definition replace_first (s pat replacement : string) : string :=
  match find_first pat s with
  | Some (before, after) => before ++ substitution pat before after replacement ++ after
  | None => s
  end.

Definition WRANGLER_TOML : string :=
  "name = " ++ dq ++ "moonwave-mcp-server" ++ dq ++ nl
  ++ "main = " ++ dq ++ "src/index.js" ++ dq ++ nl
  ++ "compatibility_date = " ++ dq ++ "2024-12-01" ++ dq ++ nl
  ++ nl
  ++ "[vars]" ++ nl
  ++ "DOC_SOURCES = '%%DOC_SOURCES%%'".

(** The [wrangler.toml] that [deployMcpCommand] writes for the text
    [JSON.stringify(sources)]. *)
Definition wranglerConfig_of (json : string) : string :=
  let sourcesJson := escape_apostrophes json in
  replace_first WRANGLER_TOML "%%DOC_SOURCES%%" sourcesJson.

Definition wranglerConfig (sources : list value) : string :=
  wranglerConfig_of (interpolate (serialize compact EmptyString (JArr sources))).

(** * The single-source worker

    The worker that [deployMcpCommand] wrote before the registry of
    sources: one documentation site, [env.DOCS_URL], whose [/raw] is
    fetched by every [tools/call]. *)

Module SingleSource.

Record Env : Type := { DOCS_URL : string }.

(** The receiver of [rawData.filter(...)] and [rawData.find(...)]: a
    parsed JSON body has these methods only when it is an array. *)
Definition array_receiver (method : string) (rawData : value) : result (list value) :=
  match rawData with
  | JArr items => Ok items
  | JUndef =>
      Throw (TypeError ("Cannot read properties of undefined (reading '" ++ method ++ "')"))
  | JNull =>
      Throw (TypeError ("Cannot read properties of null (reading '" ++ method ++ "')"))
  | _ => Throw (TypeError ("rawData." ++ method ++ " is not a function"))
  end.

(** The catalogue that [tools/list] returns. *)
Definition tools : list tool :=
  [ {| tool_name := "get_raw_api_data";
       tool_description := "Get the complete raw API documentation data";
       tool_properties := [];
       tool_required := None |};
    {| tool_name := "search_classes";
       tool_description := "Search for classes by name or tag";
       tool_properties := [("query", "Search query for class name");
                           ("tag", "Filter by tag")];
       tool_required := None |};
    {| tool_name := "get_class";
       tool_description := "Get detailed information about a specific class";
       tool_properties := [("name", "The class name")];
       tool_required := Some ["name"] |};
    {| tool_name := "search_functions";
       tool_description := "Search for functions across all classes";
       tool_properties := [("query", "Search query for function name");
                           ("className", "Filter by class name")];
       tool_required := None |};
    {| tool_name := "get_function";
       tool_description := "Get detailed information about a specific function";
       tool_properties := [("className", "The class name");
                           ("functionName", "The function name")];
       tool_required := Some ["className"; "functionName"] |} ].

Section Worker.

Variable toLowerCase : string -> string.

(** [new URL('/raw', env.DOCS_URL).toString()], [None] when the
    constructor throws. *)
Variable raw_URL : string -> option string.

(** case 'get_raw_api_data' *)
Definition get_raw_api_data (rawData : value) : result value :=
  Ok (text_content (JSON_stringify indent2 rawData)).

(** The filter callback of case 'search_classes'. *)
Definition search_classes_keep (args cls : value) : result bool :=
  do a_query <- get_prop args "query";
  do no_match <-
     (if truthy a_query then
        do m <- name_matches_query toLowerCase args cls;
        Ok (negb m)
      else Ok false);
  if no_match then Ok false else
  do a_tag <- get_prop args "tag";
  do untagged <-
     (if truthy a_tag then
        do c_tags <- get_prop cls "tags";
        if negb (truthy c_tags) then Ok true
        else
          do c_tags' <- get_prop cls "tags";
          do a_tag' <- get_prop args "tag";
          do has <- call_includes c_tags' a_tag';
          Ok (negb has)
      else Ok false);
  if untagged then Ok false else Ok true.

(** case 'search_classes' *)
Definition search_classes (args rawData : value) : result value :=
  do classes <- array_receiver "filter" rawData;
  do filteredClasses <- filterR (search_classes_keep args) classes;
  do projected <-
     mapR (fun c =>
             do c_name <- get_prop c "name";
             do c_tags <- get_prop c "tags";
             do c_desc <- get_prop c "desc";
             Ok (JObj [("name", c_name); ("tags", c_tags); ("description", c_desc)]))
          filteredClasses;
  Ok (text_content (JSON_stringify indent2 (JArr projected))).

(** case 'get_class' *)
Definition get_class (args rawData : value) : result value :=
  do classes <- array_receiver "find" rawData;
  do classData <- findR (named "name" args) classes;
  if negb (truthy classData) then
    do text <- not_found_text args "name";
    Ok (text_content (JStr text))
  else Ok (text_content (JSON_stringify indent2 classData)).

(** The body of the inner loop of case 'search_functions'. *)
Definition search_functions_step (args cls func : value) : result (list value) :=
  do a_query <- get_prop args "query";
  do keep <- (if negb (truthy a_query) then Ok true
              else name_matches_query toLowerCase args func);
  if keep then
    do c_name <- get_prop cls "name";
    do f_name <- get_prop func "name";
    do f_type <- get_prop func "function_type";
    do f_desc <- get_prop func "desc";
    Ok [JObj [("className", c_name); ("name", f_name); ("type", f_type);
              ("description", f_desc)]]
  else Ok [].

(** One iteration of the outer loop of case 'search_functions'. *)
Definition search_functions_in (args cls : value) : result (list value) :=
  do a_className <- get_prop args "className";
  do skip <-
     (if truthy a_className then
        do c_name <- get_prop cls "name";
        do a_className' <- get_prop args "className";
        Ok (negb (strict_eq c_name a_className'))
      else Ok false);
  if skip then Ok [] else
  do c_functions <- get_prop cls "functions";
  do funcs <- (if truthy c_functions then iterate_functions c_functions else Ok []);
  flat_mapR (search_functions_step args cls) funcs.

(** case 'search_functions' *)
Definition search_functions (args rawData : value) : result value :=
  do classes <-
     match rawData with
     | JArr items => Ok items
     | JStr s => Ok (chars s)
     | _ => Throw (TypeError "rawData is not iterable")
     end;
  do functions <- flat_mapR (search_functions_in args) classes;
  Ok (text_content (JSON_stringify indent2 (JArr functions))).

(** case 'get_function' *)
Definition get_function (args rawData : value) : result value :=
  do classes <- array_receiver "find" rawData;
  do targetClass <- findR (named "className" args) classes;
  if negb (truthy targetClass) then
    do text <- not_found_text args "className";
    Ok (text_content (JStr text))
  else
    do func <- find_function args targetClass;
    if negb (truthy func) then
      do a_functionName <- get_prop args "functionName";
      do functionName <- toString a_functionName;
      do a_className <- get_prop args "className";
      do className <- toString a_className;
      Ok (text_content
            (JStr ("Function '" ++ functionName ++ "' not found in class '"
                   ++ className ++ "'")))
    else Ok (text_content (JSON_stringify indent2 func)).

(** The [switch (name)] of [tools/call]: the [content] of the matching
    case, or [None] in the [default] case. *)
Definition tool_switch (name args rawData : value) : result (option value) :=
  match name with
  | JStr n =>
      if String.eqb n "get_raw_api_data" then
        do c <- get_raw_api_data rawData; Ok (Some c)
      else if String.eqb n "search_classes" then
        do c <- search_classes args rawData; Ok (Some c)
      else if String.eqb n "get_class" then
        do c <- get_class args rawData; Ok (Some c)
      else if String.eqb n "search_functions" then
        do c <- search_functions args rawData; Ok (Some c)
      else if String.eqb n "get_function" then
        do c <- get_function args rawData; Ok (Some c)
      else Ok None
  | _ => Ok None
  end.

(** What [tools/call] returns once [rawData] is there. *)
Definition tools_call_response (id name args rawData : value) : value :=
  match tool_switch name args rawData with
  | Ok (Some content) => result_envelope id (JObj [("content", content)])
  | Ok None =>
      match toString name with
      | Ok text => error_envelope id (-32601) ("Unknown tool: " ++ text)
      | Throw e => internal_error id e
      end
  | Throw e => internal_error id e
  end.

(** [handleRequest(message, sessionId, env)].  The [/raw] of the
    documentation site is fetched and parsed before the [switch]; the
    status of the response is not looked at. *)
Definition handleRequest (message : value) (sessionId : option string) (env : Env)
  : io (result value) :=
  match (do id <- get_prop message "id";
         do method <- get_prop message "method";
         do params <- get_prop message "params";
         Ok (id, method, params)) with
  | Throw e => Ret (Throw e)
  | Ok (id, method, params) =>
      if strict_eq method (JStr "initialize") then
        RandomUUID (fun newSessionId => Ret (Ok (initialize_response id newSessionId)))
      else if strict_eq method (JStr "tools/list") then
        Ret (Ok (result_envelope id (JObj [("tools", JArr (map tool_json tools))])))
      else if strict_eq method (JStr "tools/call") then
        match (do name <- get_prop params "name";
               do args <- get_prop params "arguments";
               Ok (name, args)) with
        | Throw e => Ret (Ok (internal_error id e))
        | Ok (name, args) =>
            match raw_URL (DOCS_URL env) with
            | None => Ret (Ok (internal_error id (TypeError "Invalid URL")))
            | Some apiUrl =>
                await_fetch apiUrl (fun response =>
                  match response with
                  | FetchRejected m => Ret (Ok (internal_error id (TypeError m)))
                  | FetchResponse _ (BodyInvalid m) =>
                      Ret (Ok (internal_error id (SyntaxError m)))
                  | FetchResponse _ (BodyJson rawData) =>
                      Ret (Ok (tools_call_response id name args rawData))
                  end)
            end
        end
      else Ret (Ok (error_envelope id (-32601) "Method not found"))
  end.

End Worker.

(** [WRANGLER_TOML] of the single-source deployment. *)
Definition WRANGLER_TOML : string :=
  "name = " ++ dq ++ "moonwave-mcp-server" ++ dq ++ nl
  ++ "main = " ++ dq ++ "src/index.js" ++ dq ++ nl
  ++ "compatibility_date = " ++ dq ++ "2024-12-01" ++ dq ++ nl
  ++ nl
  ++ "[vars]" ++ nl
  ++ "DOCS_URL = " ++ dq ++ "%%DOCS_URL%%" ++ dq.

(** [WRANGLER_TOML.replace("%%DOCS_URL%%", args.url)]. *)
Definition wranglerConfig (url : string) : string :=
  replace_first WRANGLER_TOML "%%DOCS_URL%%" url.

End SingleSource.
(** ** What the aggregator is specified against *)

(** Whether a source is fetched, and from where. *)
Definition fetched_url (source : DocSource.t) : option string :=
  match DocSource._embeddedData source with
  | Some _ => None
  | None => resolve_rawUrl source
  end.

(** A failed fetch as the loop of [fetchAllSources] detects it: the
    promise rejected (network error), the status is not a success, the
    body is not JSON, or it is JSON that cannot be iterated.  A payload
    that parses and can be iterated (an array of anything, a string)
    passes, whatever it holds. *)
Definition fetch_failed (o : fetch_outcome) : bool :=
  match o with
  | FetchRejected _ => true
  | FetchResponse status json =>
      negb (response_ok status) ||
      match json with
      | BodyInvalid _ => true
      | BodyJson data => match iterate data with Throw _ => true | Ok _ => false end
      end
  end.

(** The records a source holds in a world, in the source's own order:
    its embedded snapshot, or the elements of the payload fetched. *)
Definition payload (w : world) (source : DocSource.t) : list value :=
  match DocSource._embeddedData source with
  | Some data => data
  | None =>
      match resolve_rawUrl source with
      | None => []
      | Some rawUrl =>
          match net w rawUrl with
          | FetchResponse status (BodyJson data) =>
              if response_ok status then
                match iterate data with Ok items => items | Throw _ => [] end
              else []
          | _ => []
          end
      end
  end.

Definition sourceUrl_of (source : DocSource.t) : value :=
  match DocSource._embeddedData source with
  | Some _ => embedded_sourceUrl source
  | None => remote_sourceUrl source
  end.

(** What a source contributes to the corpus. *)
Definition contributed (w : world) (source : DocSource.t) : list value :=
  map (stamp (DocSource.name source) (sourceUrl_of source)) (payload w source).

(** The fetch events of one source. *)
Definition fetch_events_of (source : DocSource.t) : list event :=
  match fetched_url source with
  | Some u => [Issued u; Settled u]
  | None => []
  end.

Definition is_fetch_event (e : event) : bool :=
  match e with
  | Issued _ | Settled _ => true
  | Logged _ => false
  end.

Definition fetch_events (t : list event) : list event := filter is_fetch_event t.

(** A parallel fan-out with a completion barrier: every request is
    issued before the first outcome is awaited. *)
Fixpoint no_issue (t : list event) : bool :=
  match t with
  | [] => true
  | Issued _ :: _ => false
  | _ :: t' => no_issue t'
  end.

Fixpoint fan_out (t : list event) : bool :=
  match t with
  | [] => true
  | Settled _ :: t' => no_issue t'
  | _ :: t' => fan_out t'
  end.

(** ** What the engines are specified against *)

(** The value of a property, [undefined] where the value has none. *)
Definition field (k : string) (v : value) : value :=
  match get_prop v k with
  | Ok x => x
  | Throw _ => JUndef
  end.

(** [message] is a [tools/call] request with this [id], tool [name] and
    [arguments]. *)
Definition is_tools_call (message id name args : value) : Prop :=
  get_prop message "id" = Ok id /\
  get_prop message "method" = Ok (JStr "tools/call") /\
  exists params,
    get_prop message "params" = Ok params /\
    get_prop params "name" = Ok name /\
    get_prop params "arguments" = Ok args.

(** The record is named [args[key]] and, when [args.source] is given,
    comes from that source. *)
Definition selected (key : string) (args cls : value) : bool :=
  strict_eq (field "name" cls) (field key args) &&
  (negb (truthy (field "source" args)) ||
   strict_eq (field "_source" cls) (field "source" args)).

(** The line of a candidate in the disambiguation listing. *)
Definition candidate_of (c : value) : value :=
  JObj [("name", field "name" c); ("source", field "_source" c); ("desc", field "desc" c)].

(** A successful tool result carrying [text]. *)
Definition tool_result (id text : value) : value :=
  result_envelope id (JObj [("content", text_content text)]).

Definition is_object (v : value) : bool :=
  match v with
  | JObj _ => true
  | _ => false
  end.

(** A class record as the data model has it: [functions] is absent (or
    null) or an array of function records. *)
Definition functions_well_formed (cls : value) : bool :=
  match field "functions" cls with
  | JUndef | JNull => true
  | JArr fs => forallb is_object fs
  | _ => false
  end.

Definition functions_of (cls : value) : list value :=
  match field "functions" cls with
  | JArr fs => fs
  | _ => []
  end.

(** The first function of the class with exactly this name. *)
Definition function_named (functionName cls : value) : option value :=
  find (fun f => strict_eq (field "name" f) functionName) (functions_of cls).

(** A function record annotated with its owning class and source. *)
Definition annotated (cls f : value) : value :=
  JObj (obj_set (obj_set (spread f) "_source" (field "_source" cls))
                "_className" (field "name" cls)).

(** What a class adds to the functions found. *)
Definition matches_in (functionName cls : value) : list value :=
  match function_named functionName cls with
  | Some f => [annotated cls f]
  | None => []
  end.

(** The message list of a parsed body: a batch, or the single message
    wrapped. *)
Definition messages_of (body : value) : list value :=
  match body with
  | JArr l => l
  | _ => [body]
  end.

(** A message that has both a [method] and a defined [id]. *)
Definition request_like (msg : value) : bool :=
  truthy (field "method" msg) && negb (strict_eq (field "id" msg) JUndef).

(** The origin that [getCorsHeaders] allows: the request's [Origin] when
    the header is there with a non-empty value, the wildcard otherwise. *)
Definition allowed_origin (request : Request) : string :=
  match nonempty (Origin request) with
  | Some o => o
  | None => "*"
  end.

(** A registry composed solely of embedded snapshots. *)
Definition all_embedded (env : Env) : bool :=
  forallb (fun source =>
             match DocSource._embeddedData source with
             | Some _ => true
             | None => false
             end) (DOC_SOURCES env).

(** A record that the aggregator stamped for one of the sources. *)
Definition is_record_of (sources : list DocSource.t) (c : value) : Prop :=
  exists props source,
    c = JObj props /\ In source sources /\
    lookup "_source" props = Some (JStr (DocSource.name source)).

(** *** The shape of a serialized array or object *)

(** The members of an object, as [serialize] lists them. *)
Definition members (gap ind : string) : list (string * value) -> list string :=
  fix members (ps : list (string * value)) : list string :=
    match ps with
    | [] => []
    | (k, x) :: ps' =>
        match serialize gap ind x with
        | Some s =>
            (quote k ++ ":" ++ (if String.eqb gap EmptyString then EmptyString else " ") ++ s)
              :: members ps'
        | None => members ps'
        end
    end.

Definition elements (gap ind : string) (items : list value) : list string :=
  map (fun x => match serialize gap ind x with Some s => s | None => "null" end) items.

Definition bracketed (gap ind : string) (opening closing : string) (partial : list string)
  : string :=
  match partial with
  | [] => opening ++ closing
  | _ =>
      if String.eqb gap EmptyString then opening ++ join "," partial ++ closing
      else opening ++ nl ++ (ind ++ gap) ++ join ("," ++ nl ++ (ind ++ gap)) partial
           ++ nl ++ ind ++ closing
  end.

(** ** What the rest of the worker is specified against *)

(** A JSON-RPC response envelope for [id]: the version, the id, and
    either a result or an error whose code is [-32601] or [-32603]. *)
Definition is_envelope_for (id response : value) : Prop :=
  exists props,
    response = JObj props /\
    lookup "jsonrpc" props = Some (JStr "2.0") /\
    lookup "id" props = Some id /\
    ((exists r, lookup "result" props = Some r /\ lookup "error" props = None) \/
     (exists code message rest,
        lookup "error" props =
        Some (JObj (("code", JNum code) :: ("message", JStr message) :: rest)) /\
        lookup "result" props = None /\
        (code = (-32601)%Z \/ code = (-32603)%Z))).

(** The message makes [handleRequest] aggregate: a [tools/call] whose
    [params] can be destructured and whose tool is not [list_sources]. *)
Definition aggregates (message : value) : bool :=
  strict_eq (field "method" message) (JStr "tools/call") &&
  negb (nullish (field "params" message)) &&
  negb (strict_eq (field "name" (field "params" message)) (JStr "list_sources")).

(** The request is a POST to the MCP endpoint. *)
Definition is_mcp_post (request : Request) : bool :=
  (String.eqb (pathname request) "/mcp" || String.eqb (pathname request) "/mcp/") &&
  String.eqb (method request) "POST".

(** The text of a string value. *)
Definition text_of (v : value) : string :=
  match v with
  | JStr s => s
  | _ => EmptyString
  end.

Definition is_string (v : value) : bool :=
  match v with
  | JStr _ => true
  | _ => false
  end.

(** An optional string argument: a string, or not given. *)
Definition string_or_absent (v : value) : bool :=
  match v with
  | JUndef | JNull | JStr _ => true
  | _ => false
  end.

(** A class record as the data model has it, for searching: [name] is a
    string and [tags] is absent (or null) or an array. *)
Definition class_well_formed (cls : value) : bool :=
  is_string (field "name" cls) &&
  match field "tags" cls with
  | JUndef | JNull | JArr _ => true
  | _ => false
  end.

(** [functions] is absent (or null) or an array of function records
    whose [name] is a string. *)
Definition functions_named (cls : value) : bool :=
  match field "functions" cls with
  | JUndef | JNull => true
  | JArr fs => forallb (fun f => is_object f && is_string (field "name" f)) fs
  | _ => false
  end.

Section SearchSpec.

Variable toLowerCase : string -> string.

(** The name contains the query, case-insensitively (every name when no
    query is given). *)
Definition query_matches (args x : value) : bool :=
  negb (truthy (field "query" args)) ||
  includes (toLowerCase (text_of (field "query" args)))
           (toLowerCase (text_of (field "name" x))).

Definition source_matches (args cls : value) : bool :=
  negb (truthy (field "source" args)) ||
  strict_eq (field "_source" cls) (field "source" args).

(** The tag is one of the elements of the class's [tags] (every class
    when no tag is given). *)
Definition tag_matches (args cls : value) : bool :=
  negb (truthy (field "tag" args)) ||
  match field "tags" cls with
  | JArr tags => existsb (strict_eq (field "tag" args)) tags
  | _ => false
  end.

Definition class_matches (args cls : value) : bool :=
  source_matches args cls && query_matches args cls && tag_matches args cls.

(** The line of a class in the answer of [search_classes]. *)
Definition class_line (c : value) : value :=
  JObj [("name", field "name" c); ("tags", field "tags" c);
        ("description", field "desc" c); ("source", field "_source" c)].

(** The line of a function in the answer of [search_functions]. *)
Definition function_line (cls func : value) : value :=
  JObj [("className", field "name" cls); ("name", field "name" func);
        ("type", field "function_type" func); ("description", field "desc" func);
        ("source", field "_source" cls)].

(** The class passes the two guards of [search_functions]. *)
Definition class_searched (args cls : value) : bool :=
  source_matches args cls &&
  (negb (truthy (field "className" args)) ||
   strict_eq (field "name" cls) (field "className" args)).

Definition function_lines (args cls : value) : list value :=
  if class_searched args cls
  then map (function_line cls) (filter (query_matches args) (functions_of cls))
  else [].

End SearchSpec.

(** The messages that are dispatched: those with a defined [id]. *)
Definition with_id (messages : list value) : list value :=
  filter (fun msg => negb (strict_eq (field "id" msg) JUndef)) messages.

(** The frame that ends a stream whose writer threw. *)
Definition error_frame (e : js_error) : string :=
  sse_frame (JObj [("jsonrpc", JStr "2.0");
                   ("error", JObj [("code", JNum (-32603));
                                   ("message", JStr "Internal error");
                                   ("data", JStr (e_message e))])]).

Definition non_null (messages : list value) : bool :=
  forallb (fun msg => negb (nullish msg)) messages.

(** The property names of an object, in order. *)
Definition keys (props : list (string * value)) : list string := map fst props.

(** Whether a character occurs in a string. *)
Fixpoint contains_char (c : ascii) (s : string) : bool :=
  match s with
  | EmptyString => false
  | String x s' => Ascii.eqb c x || contains_char c s'
  end.


(** ** What the deployment command is specified against *)



(** The head of the generated [wrangler.toml], up to the quote that
    opens the value of [DOC_SOURCES]. *)
Definition wrangler_head : string :=
  "name = " ++ dq ++ "moonwave-mcp-server" ++ dq ++ nl
  ++ "main = " ++ dq ++ "src/index.js" ++ dq ++ nl
  ++ "compatibility_date = " ++ dq ++ "2024-12-01" ++ dq ++ nl
  ++ nl
  ++ "[vars]" ++ nl
  ++ "DOC_SOURCES = '".

(** ** What the single-source worker is specified against *)

Definition is_array (v : value) : bool :=
  match v with
  | JArr _ => true
  | _ => false
  end.

(** The response is the [-32603] envelope for [id] whose [data] is the
    message of [e]. *)
Definition is_internal_error (id response : value) : Prop :=
  exists e, response = internal_error id e.

(** ** What a payload is specified against *)

(** A payload as the data model has it: an array of class records, each
    an object. *)
Definition well_formed_payload (data : value) : bool :=
  match data with
  | JArr items => forallb is_object items
  | _ => false
  end.

(** ** Example registries and worlds *)

Definition remote_raw (name rawUrl : string) : DocSource.t :=
  {| DocSource.name := name; DocSource.url := None; DocSource.raw := Some rawUrl;
     DocSource.github := None; DocSource.extract := None;
     DocSource._embeddedData := None |}.

Definition remote_docs (name url : string) : DocSource.t :=
  {| DocSource.name := name; DocSource.url := Some url; DocSource.raw := None;
     DocSource.github := None; DocSource.extract := None;
     DocSource._embeddedData := None |}.

Definition embedded (name repo : string) (data : list value) : DocSource.t :=
  {| DocSource.name := name; DocSource.url := None; DocSource.raw := None;
     DocSource.github := Some repo; DocSource.extract := None;
     DocSource._embeddedData := Some data |}.

Definition ex_function (name : string) : value :=
  JObj [("name", JStr name); ("function_type", JStr "method"); ("desc", JStr "Draws it.")].

Definition ex_class (name : string) (functions : list value) : value :=
  JObj [("name", JStr name); ("desc", JStr "A class."); ("functions", JArr functions)].

Definition alpha : DocSource.t := remote_raw "alpha" "https://alpha.example/raw.json".
Definition beta : DocSource.t := remote_docs "beta" "https://beta.example/docs/".
Definition gamma : DocSource.t := remote_raw "gamma" "https://gamma.example/raw.json".
Definition delta : DocSource.t :=
  embedded "delta" "owner/delta" [ex_class "Foo" [ex_function "render"]].

(** [alpha] and [gamma] answer with a payload, everything else with a
    503. *)
Definition ex_world : world :=
  {| net := fun u =>
       if String.eqb u "https://alpha.example/raw.json" then
         FetchResponse 200 (BodyJson (JArr [ex_class "Foo" [ex_function "render"];
                                            ex_class "Bar" []]))
       else if String.eqb u "https://gamma.example/raw.json" then
         FetchResponse 200 (BodyJson (JArr [ex_class "Foo" [ex_function "render"]]))
       else FetchResponse 503 (BodyInvalid "Unexpected token < in JSON at position 0");
     uuid := fun _ => "00000000-0000-4000-8000-000000000000" |}.

(** A world without a network. *)
Definition offline : world :=
  {| net := fun _ => FetchRejected "fetch failed";
     uuid := fun _ => "11111111-1111-4111-8111-111111111111" |}.

(** ASCII case folding, standing for the host's [toLowerCase] in the
    examples. *)
Definition ascii_lower (c : ascii) : ascii :=
  let n := nat_of_ascii c in
  if Nat.leb 65 n && Nat.leb n 90 then ascii_of_nat (n + 32) else c.

Fixpoint ascii_toLowerCase (s : string) : string :=
  match s with
  | EmptyString => EmptyString
  | String c s' => String (ascii_lower c) (ascii_toLowerCase s')
  end.

(** A [tools/call] request. *)
Definition tools_call (id : value) (name : string) (args : value) : value :=
  JObj [("jsonrpc", JStr "2.0"); ("id", id); ("method", JStr "tools/call");
        ("params", JObj [("name", JStr name); ("arguments", args)])].

Definition post_mcp (origin : option string) (body : value) : Request :=
  {| method := "POST"; pathname := "/mcp"; Origin := origin; Accept := None;
     Mcp_Session_Id := None; json := Ok body |}.

(** [alpha] (fetched) and [delta] (embedded) both document a class
    [Foo]. *)
Definition two_sources : Env := {| DOC_SOURCES := [alpha; delta] |}.

Definition request_of (method pathname : string) (origin accept : option string) : Request :=
  {| method := method; pathname := pathname; Origin := origin; Accept := accept;
     Mcp_Session_Id := None; json := Throw (SyntaxError "Unexpected end of JSON input") |}.

(** A registry of embedded snapshots only. *)
Definition snapshots_only : Env :=
  {| DOC_SOURCES := [delta; embedded "epsilon" "owner/epsilon" [ex_class "Bar" []]] |}.

(** A batch of one request and one JSON-RPC response object. *)
Definition ex_response_object : value :=
  JObj [("jsonrpc", JStr "2.0"); ("id", JNum 7); ("result", JObj [])].

Definition ex_batch : value :=
  JArr [tools_call (JNum 1) "list_sources" (JObj []); ex_response_object].

(** ** Further examples *)

(** A [tools/call] whose [params] hold the tool name only. *)
Definition tools_call_bare (id : value) (name : string) : value :=
  JObj [("jsonrpc", JStr "2.0"); ("id", id); ("method", JStr "tools/call");
        ("params", JObj [("name", JStr name)])].

Definition post_stream (body : value) : Request :=
  {| method := "POST"; pathname := "/mcp"; Origin := None;
     Accept := Some "application/json, text/event-stream";
     Mcp_Session_Id := None; json := Ok body |}.

(** A request, a notification and a response object. *)
Definition ex_mixed_batch : value :=
  JArr [tools_call (JNum 1) "list_sources" (JObj []);
        JObj [("jsonrpc", JStr "2.0"); ("method", JStr "notifications/initialized")];
        ex_response_object].

(** A request, a null and another request. *)
Definition ex_null_batch : value :=
  JArr [tools_call (JNum 1) "list_sources" (JObj []); JNull;
        tools_call (JNum 2) "list_sources" (JObj [])].

(** A batch of two notifications. *)
Definition ex_notifications : value :=
  JArr [JObj [("jsonrpc", JStr "2.0"); ("method", JStr "notifications/initialized")];
        JObj [("jsonrpc", JStr "2.0"); ("method", JStr "notifications/cancelled");
              ("params", JObj [("requestId", JNum 3)])]].

(** A source that names a repository and nothing to fetch. *)
Definition unlocated : DocSource.t :=
  {| DocSource.name := "zeta"; DocSource.url := Some EmptyString; DocSource.raw := None;
     DocSource.github := Some "owner/zeta"; DocSource.extract := None;
     DocSource._embeddedData := None |}.


(** ** A single-source deployment *)

Definition single_env : SingleSource.Env :=
  {| SingleSource.DOCS_URL := "https://alpha.example/docs/" |}.

(** [/raw] against an absolute [https] base: the origin of the base,
    then [/raw]; no URL when the base has no scheme. *)
Definition origin_raw (base : string) : option string :=
  if String.prefix "https://" base then
    match split "/" (drop 8 base) with
    | host :: _ => Some ("https://" ++ host ++ "/raw")
    | [] => None
    end
  else None.

(** The site answers [/raw] with the two classes, twice a class named
    [Foo]. *)
Definition single_world : world :=
  {| net := fun u =>
       if String.eqb u "https://alpha.example/raw" then
         FetchResponse 200 (BodyJson (JArr [ex_class "Bar" [];
                                            ex_class "Foo" [ex_function "render"];
                                            ex_class "Foo" []]))
       else FetchResponse 404 (BodyJson (JObj [("error", JStr "Not Found")]));
     uuid := fun _ => "22222222-2222-4222-8222-222222222222" |}.

(** The site is gone: every address answers 404 with an error
    document. *)
Definition gone_world : world :=
  {| net := fun _ => FetchResponse 404 (BodyJson (JObj [("error", JStr "Not Found")]));
     uuid := fun _ => "33333333-3333-4333-8333-333333333333" |}.

(** The same document with a 200. *)
Definition odd_world : world :=
  {| net := fun _ => FetchResponse 200 (BodyJson (JObj [("error", JStr "Not Found")]));
     uuid := fun _ => "33333333-3333-4333-8333-333333333333" |}.

(** ** A deployment *)

(** [new URL] on the [https] URLs of the examples, which have no port,
    query or fragment: the host, and the path ([/] when there is
    none). *)
Definition ex_parse_URL (url : string) : option (string * string) :=
  if String.prefix "https://" url then
    match split "/" (drop 8 url) with
    | host :: _ =>
        let pathname := drop (String.length host) (drop 8 url) in
        Some (host, if String.eqb pathname EmptyString then "/" else pathname)
    | [] => None
    end
  else None.

Definition ex_loadConfigFile (configPath : string) : option McpConfig := None.

(** The extraction succeeds on [owner/delta] only. *)
Definition ex_extractFromGitHub (repo : string) : option (list value) :=
  if String.eqb repo "owner/delta" then Some [ex_class "Foo" [ex_function "render"]]
  else None.

Definition ex_args : DeployMcpArgs :=
  {| arg_url := Some "https://www.example.org/docs";
     include_raw := None;
     include_github := Some ["evaera/moonwave"];
     extract_github := Some ["owner/broken"; "owner/delta"];
     config := None |}.

Definition ex_sources : list value :=
  buildSourcesList ex_parse_URL ex_loadConfigFile ex_extractFromGitHub ex_args.

(** ** Arguments that are not text, and payloads that are no records *)

(** The object [{"toString": 1}]: it has no conversion to a string. *)
Definition unconvertible : value := JObj [("toString", JNum 1)].

(** A [tools/call] whose tool name is any value. *)
Definition tools_call_named (id name args : value) : value :=
  JObj [("jsonrpc", JStr "2.0"); ("id", id); ("method", JStr "tools/call");
        ("params", JObj [("name", name); ("arguments", args)])].

Definition epsilon : DocSource.t := remote_raw "epsilon" "https://epsilon.example/raw.json".

(** [alpha] and [gamma] answer as before; the raw data of [beta] is the
    JSON string [Not Found] and that of [epsilon] the JSON array
    [[1, null]], both with a 200. *)
Definition junk_world : world :=
  {| net := fun u =>
       if String.eqb u "https://beta.example/docs/raw.json" then
         FetchResponse 200 (BodyJson (JStr "Not Found"))
       else if String.eqb u "https://epsilon.example/raw.json" then
         FetchResponse 200 (BodyJson (JArr [JNum 1; JNull]))
       else net ex_world u;
     uuid := uuid ex_world |}.
(** * Properties *)

(** ** Running programs *)

Lemma run_bind {A B : Type} (w : world) (p : io A) (f : A -> io B) (n : nat) :
  run w n (bind p f) =
  let r := run w n p in
  let r' := run w (drawn r) (f (returned r)) in
  {| returned := returned r'; events := (events r ++ events r')%list; drawn := drawn r' |}.
Proof.
  revert n. induction p as [a | u k IH | u k IH | l k IH | k IH]; intro n; simpl.
  - destruct (run w n (f a)); reflexivity.
  - rewrite IH. reflexivity.
  - rewrite IH. reflexivity.
  - rewrite IH. reflexivity.
  - apply IH.
Qed.

(** ** The aggregator *)

(** The [try] block of a source: the array grows by what the source
    contributes, and only the source's own fetch is on the trace. *)
Lemma try_source_run (w : world) (source : DocSource.t) (allData : list value) (n : nat) :
  let r := run w n (try_source source allData) in
  fst (returned r) = (allData ++ contributed w source)%list /\
  fetch_events (events r) = fetch_events_of source /\
  drawn r = n.
Proof.
  unfold try_source, contributed, payload, sourceUrl_of, fetch_events_of, fetched_url.
  destruct (DocSource._embeddedData source) as [data |]; simpl.
  - repeat split; reflexivity.
  - destruct (resolve_rawUrl source) as [rawUrl |]; simpl.
    + destruct (net w rawUrl) as [m | status [data | m]]; simpl.
      * rewrite app_nil_r. repeat split; reflexivity.
      * destruct (response_ok status); simpl.
        -- destruct (iterate data) as [items | e]; simpl;
             try rewrite app_nil_r; repeat split; reflexivity.
        -- rewrite app_nil_r. repeat split; reflexivity.
      * destruct (response_ok status); simpl;
          rewrite app_nil_r; repeat split; reflexivity.
    + rewrite app_nil_r. repeat split; reflexivity.
Qed.

Lemma fetch_events_app (t u : list event) :
  fetch_events (t ++ u) = (fetch_events t ++ fetch_events u)%list.
Proof. apply filter_app. Qed.

Lemma fetchAllSources_loop_run (w : world) (sources : list DocSource.t) :
  forall (allData : list value) (n : nat),
    let r := run w n (fetchAllSources_loop sources allData) in
    returned r = (allData ++ flat_map (contributed w) sources)%list /\
    fetch_events (events r) = flat_map fetch_events_of sources /\
    drawn r = n.
Proof.
  induction sources as [| source rest IH]; intros allData n; simpl.
  - rewrite app_nil_r. repeat split; reflexivity.
  - rewrite run_bind. cbv zeta.
    destruct (try_source_run w source allData n) as (Hdata & Hev & Hn).
    destruct (run w n (try_source source allData)) as [[allData' r] ev n'].
    simpl in *. subst n' allData'.
    destruct r as [[] | e]; simpl.
    + destruct (IH (allData ++ contributed w source)%list n) as (H1 & H2 & H3).
      rewrite H1, H3, fetch_events_app, Hev, H2, app_assoc.
      repeat split; reflexivity.
    + destruct (IH (allData ++ contributed w source)%list n) as (H1 & H2 & H3).
      rewrite H1, H3, fetch_events_app, Hev. simpl. rewrite H2, app_assoc.
      repeat split; reflexivity.
Qed.

(** The corpus is what the sources contribute, in registry order. *)
Lemma fetchAllSources_corpus (w : world) (env : Env) (n : nat) :
  returned (run w n (fetchAllSources env)) = flat_map (contributed w) (DOC_SOURCES env).
Proof.
  unfold fetchAllSources.
  destruct (fetchAllSources_loop_run w (DOC_SOURCES env) [] n) as (H & _ & _).
  exact H.
Qed.

Lemma fetchAllSources_drawn (w : world) (env : Env) (n : nat) :
  drawn (run w n (fetchAllSources env)) = n.
Proof.
  unfold fetchAllSources.
  destruct (fetchAllSources_loop_run w (DOC_SOURCES env) [] n) as (_ & _ & H).
  exact H.
Qed.

Lemma lookup_obj_set_same (props : list (string * value)) (k : string) (v : value) :
  lookup k (obj_set props k v) = Some v.
Proof.
  induction props as [| [k' v'] rest IH]; simpl.
  - rewrite String.eqb_refl. reflexivity.
  - destruct (String.eqb k k') eqn:E; simpl; rewrite E; [reflexivity | exact IH].
Qed.

Lemma lookup_obj_set_other (props : list (string * value)) (k k' : string) (v : value) :
  String.eqb k' k = false ->
  lookup k' (obj_set props k v) = lookup k' props.
Proof.
  intro Hne. induction props as [| [k0 v0] rest IH]; simpl.
  - rewrite Hne. reflexivity.
  - destruct (String.eqb k k0) eqn:E; simpl.
    + apply String.eqb_eq in E. subst k0. rewrite Hne. reflexivity.
    + destruct (String.eqb k' k0); [reflexivity | exact IH].
Qed.

Lemma failed_source_contributes_nothing (w : world) (source : DocSource.t) (u : string) :
  fetched_url source = Some u ->
  fetch_failed (net w u) = true ->
  contributed w source = [].
Proof.
  unfold fetched_url, contributed, payload, fetch_failed.
  destruct (DocSource._embeddedData source); [discriminate |].
  intros -> Hfail.
  destruct (net w u) as [m | status [data | m]]; simpl; try reflexivity.
  destruct (response_ok status); simpl in *; [| reflexivity].
  destruct (iterate data); [discriminate | reflexivity].
Qed.

(** C1: for the failures that the loop detects (a rejected request, a
    non-success status, a body that is not JSON, JSON that cannot be
    iterated) the corpus is exactly what the remaining sources
    contribute, in registry order.  A malformed payload that parses and
    can be iterated is not detected: where the raw data of [beta] is the
    JSON string [Not Found], the corpus holds nine records of [beta], one
    per character, between those of [alpha] and [gamma]; where the raw
    data of [epsilon] is the array [[1, null]], it holds two records of
    [epsilon] that are nothing but the stamps. *)
Theorem iterable_junk_is_not_skipped :
  (forall (w : world) (before after : list DocSource.t) (bad : DocSource.t) (u : string),
      fetched_url bad = Some u ->
      fetch_failed (net w u) = true ->
      result_of w (fetchAllSources {| DOC_SOURCES := before ++ bad :: after |}) =
      (flat_map (contributed w) before ++ flat_map (contributed w) after)%list) /\
  (fetched_url beta = Some "https://beta.example/docs/raw.json" /\
   net junk_world "https://beta.example/docs/raw.json" =
   FetchResponse 200 (BodyJson (JStr "Not Found")) /\
   well_formed_payload (JStr "Not Found") = false /\
   result_of junk_world (fetchAllSources {| DOC_SOURCES := [alpha; beta; gamma] |}) =
   (contributed junk_world alpha
    ++ map (fun c => JObj [("0", JStr c); ("_source", JStr "beta");
                           ("_sourceUrl", JStr "https://beta.example/docs/")])
           ["N"; "o"; "t"; " "; "F"; "o"; "u"; "n"; "d"]
    ++ contributed junk_world gamma)%list) /\
  (fetched_url epsilon = Some "https://epsilon.example/raw.json" /\
   net junk_world "https://epsilon.example/raw.json" =
   FetchResponse 200 (BodyJson (JArr [JNum 1; JNull])) /\
   well_formed_payload (JArr [JNum 1; JNull]) = false /\
   result_of junk_world (fetchAllSources {| DOC_SOURCES := [alpha; epsilon] |}) =
   (contributed junk_world alpha
    ++ [JObj [("_source", JStr "epsilon");
              ("_sourceUrl", JStr "https://epsilon.example/raw.json")];
        JObj [("_source", JStr "epsilon");
              ("_sourceUrl", JStr "https://epsilon.example/raw.json")]])%list).
Proof.
  split; [| split].
  - intros w before after bad u Hu Hfail.
    unfold result_of. rewrite fetchAllSources_corpus. cbn [DOC_SOURCES].
    rewrite flat_map_app. cbn [flat_map].
    rewrite (failed_source_contributes_nothing w bad u Hu Hfail). reflexivity.
  - repeat split.
  - repeat split.
Qed.

(** C2: the corpus lists the sources in registry order and, within a
    source, the source's records in their own order; and every record of
    the corpus is a record of one of the sources stamped, before it is
    pushed, with [_source], the name of that source, and with
    [_sourceUrl]. *)
Theorem corpus_is_stamped_in_registry_order (w : world) (env : Env) :
  result_of w (fetchAllSources env) =
  flat_map (fun source =>
              map (stamp (DocSource.name source) (sourceUrl_of source)) (payload w source))
           (DOC_SOURCES env) /\
  forall c, In c (result_of w (fetchAllSources env)) ->
    exists source cls props,
      In source (DOC_SOURCES env) /\ In cls (payload w source) /\
      c = stamp (DocSource.name source) (sourceUrl_of source) cls /\
      c = JObj props /\
      lookup "_source" props = Some (JStr (DocSource.name source)) /\
      lookup "_sourceUrl" props = Some (sourceUrl_of source).
Proof.
  unfold result_of. rewrite fetchAllSources_corpus. split; [reflexivity |].
  intros c Hc. apply in_flat_map in Hc. destruct Hc as (source & Hsource & Hc).
  unfold contributed in Hc. apply in_map_iff in Hc. destruct Hc as (cls & <- & Hcls).
  exists source, cls. eexists. split; [exact Hsource |]. split; [exact Hcls |].
  split; [reflexivity |]. split; [reflexivity |]. split.
  - rewrite lookup_obj_set_other by reflexivity. apply lookup_obj_set_same.
  - apply lookup_obj_set_same.
Qed.

(** C8 fails at a registry of two remote sources: the second request is
    issued only after the first has settled. *)
Lemma fetches_are_not_fanned_out :
  trace_of ex_world (fetchAllSources {| DOC_SOURCES := [alpha; gamma] |}) =
  [Issued "https://alpha.example/raw.json"; Settled "https://alpha.example/raw.json";
   Issued "https://gamma.example/raw.json"; Settled "https://gamma.example/raw.json"] /\
  fan_out (trace_of ex_world (fetchAllSources {| DOC_SOURCES := [alpha; gamma] |})) = false.
Proof. split; reflexivity. Qed.

(** C8, amended: within an aggregation run the remote sources are fetched
    one after another in registry order, each fetch awaited to its
    outcome before the next one is issued, and the corpus lists the
    sources' records in registry order. *)
Theorem fetches_are_sequential_in_registry_order (w : world) (env : Env) :
  fetch_events (trace_of w (fetchAllSources env)) =
  flat_map fetch_events_of (DOC_SOURCES env) /\
  result_of w (fetchAllSources env) = flat_map (contributed w) (DOC_SOURCES env).
Proof.
  unfold trace_of, result_of, fetchAllSources.
  destruct (fetchAllSources_loop_run w (DOC_SOURCES env) [] 0) as (H1 & H2 & _).
  split; assumption.
Qed.

(** ** Strings *)

Lemma append_assoc (a b c : string) : (a ++ b) ++ c = a ++ b ++ c.
Proof. induction a as [| x a IH]; simpl; [reflexivity | now rewrite IH]. Qed.

Lemma prefix_append (a s : string) : String.prefix a (a ++ s) = true.
Proof.
  induction a as [| x a IH]; simpl.
  - destruct s; reflexivity.
  - destruct (ascii_dec x x) as [_ | Hne]; [exact IH | now elim Hne].
Qed.

Lemma includes_of_prefix (a b : string) :
  String.prefix a b = true -> includes a b = true.
Proof. intro H. destruct b; cbn [includes]; rewrite H; reflexivity. Qed.

Lemma includes_prefix (a s : string) : includes a (a ++ s) = true.
Proof. apply includes_of_prefix, prefix_append. Qed.

Lemma append_empty_r (a : string) : a ++ EmptyString = a.
Proof. induction a as [| x a IH]; simpl; [reflexivity | now rewrite IH]. Qed.

Lemma includes_refl (a : string) : includes a a = true.
Proof. rewrite <- (append_empty_r a) at 2. apply includes_prefix. Qed.

Lemma includes_skip (c : ascii) (a b : string) :
  includes a b = true -> includes a (String c b) = true.
Proof.
  intro H. cbn [includes]. destruct (String.prefix a (String c b)); [reflexivity | exact H].
Qed.

Lemma includes_append_l (a p b : string) :
  includes a b = true -> includes a (p ++ b) = true.
Proof.
  intro H. induction p as [| c p IH]; simpl append; [exact H |].
  apply includes_skip, IH.
Qed.

Lemma prefix_weaken (a b s : string) :
  String.prefix a b = true -> String.prefix a (b ++ s) = true.
Proof.
  revert b. induction a as [| x a IH]; intros b H.
  - destruct (b ++ s); reflexivity.
  - destruct b as [| y b]; simpl in *; [discriminate |].
    destruct (ascii_dec x y); [now apply IH | discriminate].
Qed.

Lemma includes_append_r (a b s : string) :
  includes a b = true -> includes a (b ++ s) = true.
Proof.
  induction b as [| c b IH]; intro H.
  - apply includes_of_prefix. destruct a; [| discriminate H].
    destruct (EmptyString ++ s); reflexivity.
  - cbn [includes] in H. destruct (String.prefix a (String c b)) eqn:E.
    + apply includes_of_prefix, prefix_weaken, E.
    + simpl append. apply includes_skip, IH, H.
Qed.

(** [a] occurs in every text built around it. *)
Lemma includes_middle (a p s : string) : includes a (p ++ a ++ s) = true.
Proof. apply includes_append_l, includes_prefix. Qed.

Lemma includes_join (sep p : string) (parts : list string) :
  In p parts -> includes p (join sep parts) = true.
Proof.
  induction parts as [| q rest IH]; [intros [] |].
  intros [-> | Hin].
  - destruct rest; simpl.
    + apply includes_refl.
    + apply includes_prefix.
  - destruct rest as [| r rest']; [destruct Hin |].
    change (join sep (q :: r :: rest')) with (q ++ sep ++ join sep (r :: rest')).
    apply includes_append_l, includes_append_l, IH, Hin.
Qed.

Lemma prefix_elim (a b : string) :
  String.prefix a b = true -> exists s, b = a ++ s.
Proof.
  revert b. induction a as [| x a IH]; intros b H.
  - exists b. reflexivity.
  - destruct b as [| y b]; simpl in H; [discriminate |].
    destruct (ascii_dec x y) as [<- | _]; [| discriminate].
    destruct (IH b H) as (s & ->). exists s. reflexivity.
Qed.

Lemma includes_elim (a b : string) :
  includes a b = true -> exists p s, b = p ++ a ++ s.
Proof.
  induction b as [| c b IH]; cbn [includes]; intro H.
  - destruct (String.prefix a EmptyString) eqn:E; [| discriminate].
    apply prefix_elim in E. destruct E as (s & E). exists EmptyString, s. exact E.
  - destruct (String.prefix a (String c b)) eqn:E.
    + apply prefix_elim in E. destruct E as (s & E). exists EmptyString, s. exact E.
    + destruct (IH H) as (p & s & ->). exists (String c p), s. reflexivity.
Qed.

Lemma includes_trans (a b c : string) :
  includes a b = true -> includes b c = true -> includes a c = true.
Proof.
  intros Hab Hbc. apply includes_elim in Hbc. destruct Hbc as (p & s & ->).
  apply includes_append_l, includes_append_r, Hab.
Qed.

(** ** JSON.stringify *)

Lemma serialize_object (gap ind : string) (props : list (string * value)) :
  serialize gap ind (JObj props) =
  Some (bracketed gap ind "{" "}" (members gap (ind ++ gap) props)).
Proof.
  unfold bracketed. cbn [serialize]. cbv zeta.
  change ((fix members (ps : list (string * value)) : list string :=
             match ps with
             | [] => []
             | (k, x) :: ps' =>
                 match serialize gap (ind ++ gap) x with
                 | Some s =>
                     (quote k ++ ":" ++
                      (if String.eqb gap EmptyString then EmptyString else " ") ++ s)
                       :: members ps'
                 | None => members ps'
                 end
             end) props) with (members gap (ind ++ gap) props).
  destruct (members gap (ind ++ gap) props); [reflexivity |].
  destruct (String.eqb gap EmptyString); reflexivity.
Qed.

Lemma serialize_array (gap ind : string) (items : list value) :
  serialize gap ind (JArr items) =
  Some (bracketed gap ind "[" "]" (elements gap (ind ++ gap) items)).
Proof.
  unfold bracketed. cbn [serialize]. cbv zeta. fold (elements gap (ind ++ gap) items).
  destruct (elements gap (ind ++ gap) items); [reflexivity |].
  destruct (String.eqb gap EmptyString); reflexivity.
Qed.

Lemma bracketed_includes (gap ind opening closing p : string) (partial : list string) :
  In p partial -> includes p (bracketed gap ind opening closing partial) = true.
Proof.
  intro H. unfold bracketed. destruct partial as [| q rest] eqn:E; [destruct H |].
  rewrite <- E in *. clear E.
  destruct (String.eqb gap EmptyString).
  - apply includes_append_l, includes_append_r, includes_join, H.
  - do 3 apply includes_append_l. apply includes_append_r, includes_join, H.
Qed.

Lemma members_in (gap ind k t : string) (x : value) (ps : list (string * value)) :
  In (k, x) ps -> serialize gap ind x = Some t ->
  exists m, In m (members gap ind ps) /\ includes t m = true.
Proof.
  intros Hin Hser. induction ps as [| [k' x'] ps IH]; [destruct Hin |].
  destruct Hin as [E | Hin].
  - inversion E; subst k' x'. cbn [members]. rewrite Hser. eexists. split; [left; reflexivity |].
    do 3 apply includes_append_l. apply includes_refl.
  - destruct (IH Hin) as (m & Hm & Hinc). exists m. split; [| exact Hinc].
    cbn [members]. destruct (serialize gap ind x'); [right |]; exact Hm.
Qed.

(** The text of a property occurs in the text of its object. *)
Lemma serialize_object_includes (gap ind k t : string) (x : value)
      (props : list (string * value)) :
  In (k, x) props -> serialize gap (ind ++ gap) x = Some t ->
  exists s, serialize gap ind (JObj props) = Some s /\ includes t s = true.
Proof.
  intros Hin Hser. rewrite serialize_object. eexists. split; [reflexivity |].
  destruct (members_in gap (ind ++ gap) k t x props Hin Hser) as (m & Hm & Hinc).
  eapply includes_trans; [exact Hinc |]. apply bracketed_includes, Hm.
Qed.

(** The text of an element occurs in the text of its array. *)
Lemma serialize_array_includes (gap ind t : string) (x : value) (items : list value) :
  In x items -> serialize gap (ind ++ gap) x = Some t ->
  exists s, serialize gap ind (JArr items) = Some s /\ includes t s = true.
Proof.
  intros Hin Hser. rewrite serialize_array. eexists. split; [reflexivity |].
  apply bracketed_includes. unfold elements. apply in_map_iff.
  exists x. rewrite Hser. split; [reflexivity | exact Hin].
Qed.

(** ** Loops over arrays whose callbacks do not throw *)

Lemma get_prop_field (v : value) (k : string) :
  nullish v = false -> get_prop v k = Ok (field k v).
Proof. destruct v; intro H; try discriminate H; reflexivity. Qed.

Lemma filterR_pure (f : value -> result bool) (g : value -> bool) (l : list value) :
  (forall x, In x l -> f x = Ok (g x)) -> filterR f l = Ok (filter g l).
Proof.
  induction l as [| x rest IH]; intro H; simpl; [reflexivity |].
  rewrite (H x (or_introl eq_refl)). simpl.
  rewrite IH by (intros y Hy; apply H; right; exact Hy). simpl.
  destruct (g x); reflexivity.
Qed.

Lemma mapR_pure {A B : Type} (f : A -> result B) (g : A -> B) (l : list A) :
  (forall x, In x l -> f x = Ok (g x)) -> mapR f l = Ok (map g l).
Proof.
  induction l as [| x rest IH]; intro H; simpl; [reflexivity |].
  rewrite (H x (or_introl eq_refl)). simpl.
  rewrite IH by (intros y Hy; apply H; right; exact Hy). reflexivity.
Qed.

Lemma flat_mapR_pure {A B : Type} (f : A -> result (list B)) (g : A -> list B) (l : list A) :
  (forall x, In x l -> f x = Ok (g x)) -> flat_mapR f l = Ok (flat_map g l).
Proof.
  induction l as [| x rest IH]; intro H; simpl; [reflexivity |].
  rewrite (H x (or_introl eq_refl)). simpl.
  rewrite IH by (intros y Hy; apply H; right; exact Hy). reflexivity.
Qed.

Lemma filter_filter {A : Type} (f g : A -> bool) (l : list A) :
  filter g (filter f l) = filter (fun x => f x && g x) l.
Proof.
  induction l as [| x rest IH]; simpl; [reflexivity |].
  destruct (f x); simpl; [destruct (g x) |]; now rewrite IH.
Qed.

(** ** The corpus *)

Lemma corpus_records (w : world) (sources : list DocSource.t) (c : value) :
  In c (flat_map (contributed w) sources) -> is_record_of sources c.
Proof.
  intro H. apply in_flat_map in H. destruct H as (source & Hs & Hc).
  unfold contributed in Hc. apply in_map_iff in Hc. destruct Hc as (cls & <- & _).
  eexists _, source. split; [reflexivity |]. split; [exact Hs |].
  rewrite lookup_obj_set_other by reflexivity. apply lookup_obj_set_same.
Qed.

Lemma record_not_nullish (sources : list DocSource.t) (c : value) :
  is_record_of sources c -> nullish c = false.
Proof. intros (props & source & -> & _). reflexivity. Qed.

Lemma select_classes_pure (key : string) (args : value) (rawData : list value) :
  nullish args = false ->
  (forall c, In c rawData -> nullish c = false) ->
  select_classes key args rawData = Ok (filter (selected key args) rawData).
Proof.
  intros Hargs Hrec. unfold select_classes.
  rewrite (filterR_pure _ (fun cls => strict_eq (field "name" cls) (field key args))).
  2:{ intros c Hc. unfold named.
      rewrite (get_prop_field c) by auto. rewrite (get_prop_field args) by auto.
      reflexivity. }
  simpl. unfold narrow_by_source. rewrite (get_prop_field args) by auto. simpl.
  unfold selected. destruct (truthy (field "source" args)); simpl.
  - rewrite (filterR_pure _ (fun cls => strict_eq (field "_source" cls) (field "source" args))).
    2:{ intros c Hc. apply filter_In in Hc. destruct Hc as [Hc _]. unfold from_source.
        rewrite (get_prop_field c) by auto. rewrite (get_prop_field args) by auto.
        reflexivity. }
    rewrite filter_filter. reflexivity.
  - f_equal. apply filter_ext. intro c. now rewrite andb_true_r.
Qed.

Section ServerProperties.

Variable toLowerCase : string -> string.

(** ** [tools/call] *)

(** A [tools/call] of a tool other than [list_sources] aggregates and
    answers from the corpus alone. *)
Lemma handleRequest_tools_call
  (w : world) (env : Env) (sessionId : option string) (message id name args : value) (n : nat) :
  is_tools_call message id name args ->
  strict_eq name (JStr "list_sources") = false ->
  run w n (handleRequest toLowerCase message sessionId env) =
  let r := run w n (fetchAllSources env) in
  {| returned := Ok (tools_call_response toLowerCase id name args (returned r));
     events := events r; drawn := drawn r |}.
Proof.
  intros (Hid & Hmethod & params & Hparams & Hname & Hargs) Hnot.
  unfold handleRequest. rewrite Hid, Hmethod, Hparams. simpl.
  rewrite Hname, Hargs. simpl. rewrite Hnot.
  rewrite run_bind. simpl. rewrite app_nil_r. reflexivity.
Qed.

Lemma tools_call_result
  (w : world) (env : Env) (sessionId : option string) (message id name args : value) :
  is_tools_call message id name args ->
  strict_eq name (JStr "list_sources") = false ->
  result_of w (handleRequest toLowerCase message sessionId env) =
  Ok (tools_call_response toLowerCase id name args (result_of w (fetchAllSources env))).
Proof.
  intros H Hnot. unfold result_of.
  rewrite (handleRequest_tools_call w env sessionId message id name args 0 H Hnot).
  reflexivity.
Qed.

(** C6 fails at the tool name [{"toString": 1}]: it is none of the six
    tools, the template literal of the [default] case throws on it inside
    the [try], and the answer is the internal error [-32603], not
    [-32601]. *)
Lemma unconvertible_name_is_an_internal_error :
  (forall t, In t (map tool_name tools) -> unconvertible <> JStr t) /\
  result_of ex_world
    (handleRequest ascii_toLowerCase (tools_call_named (JNum 7) unconvertible (JObj []))
       None two_sources) =
  Ok (internal_error (JNum 7) (TypeError "Cannot convert object to primitive value")) /\
  (forall text,
      result_of ex_world
        (handleRequest ascii_toLowerCase (tools_call_named (JNum 7) unconvertible (JObj []))
           None two_sources) <>
      Ok (error_envelope (JNum 7) (-32601) text)).
Proof.
  split; [| split].
  - intros t _. discriminate.
  - reflexivity.
  - intros text. discriminate.
Qed.

(** C6, amended: a [tools/call] whose [name] is none of the six tools of
    the catalogue and converts to a string (every string, number,
    boolean, [null] and missing name does) is answered with the JSON-RPC
    error [-32601], whose message is [Unknown tool: ] followed by that
    text (the name itself when it is a string), so the name occurs in it.
    A name whose conversion throws is answered with the internal error
    [-32603] that carries the thrown message. *)
Theorem unknown_tool_is_rejected
  (w : world) (env : Env) (sessionId : option string) (message id name args : value) :
  is_tools_call message id name args ->
  (forall t, In t (map tool_name tools) -> name <> JStr t) ->
  match toString name with
  | Ok text =>
      result_of w (handleRequest toLowerCase message sessionId env) =
      Ok (error_envelope id (-32601) ("Unknown tool: " ++ text)) /\
      includes text ("Unknown tool: " ++ text) = true /\
      (forall s, name = JStr s -> text = s)
  | Throw e =>
      result_of w (handleRequest toLowerCase message sessionId env) =
      Ok (internal_error id e)
  end.
Proof.
  intros Hcall Hunknown.
  assert (Hne : forall t, In t (map tool_name tools) -> strict_eq name (JStr t) = false).
  { intros t Ht. specialize (Hunknown t Ht).
    destruct name; try reflexivity. simpl. apply String.eqb_neq. congruence. }
  rewrite (tools_call_result w env sessionId message id name args Hcall).
  2:{ apply Hne. simpl. tauto. }
  assert (Hswitch : tool_switch toLowerCase name args (result_of w (fetchAllSources env)) =
                    Ok None).
  { unfold tool_switch.
    destruct name as [| | b | n | s | items | props]; try reflexivity.
    assert (Hs : forall t, In t (map tool_name tools) -> String.eqb s t = false).
    { intros t Ht. exact (Hne t Ht). }
    rewrite !Hs by (simpl; tauto). reflexivity. }
  unfold tools_call_response. rewrite Hswitch.
  destruct (toString name) as [text | e] eqn:Etext; [| reflexivity].
  split; [reflexivity |]. split.
  - apply includes_append_l, includes_refl.
  - intros s ->. cbn [toString] in Etext. congruence.
Qed.

(** ** [get_class] *)

Lemma tool_switch_get_class (args : value) (rawData : list value) :
  tool_switch toLowerCase (JStr "get_class") args rawData =
  (do c <- get_class args rawData; Ok (Some c)).
Proof. reflexivity. Qed.

Lemma candidate_pure (c : value) :
  nullish c = false -> candidate c = Ok (candidate_of c).
Proof.
  intro H. unfold candidate, candidate_of. rewrite !(get_prop_field c) by exact H.
  reflexivity.
Qed.

(** The source of a record of the corpus occurs, quoted, in the listing
    of any candidates the record is among. *)
Lemma listing_names_source (sources : list DocSource.t) (classData : list value) (c : value) :
  is_record_of sources c -> In c classData ->
  exists source listing,
    In source sources /\ field "_source" c = JStr (DocSource.name source) /\
    JSON_stringify indent2 (JArr (map candidate_of classData)) = JStr listing /\
    includes (quote (DocSource.name source)) listing = true.
Proof.
  intros (props & source & -> & Hsource & Hlookup) Hin.
  assert (Hfield : field "_source" (JObj props) = JStr (DocSource.name source)).
  { unfold field. simpl. rewrite Hlookup. reflexivity. }
  destruct (serialize_object_includes indent2 (EmptyString ++ indent2) "source"
              (quote (DocSource.name source)) (JStr (DocSource.name source))
              [("name", field "name" (JObj props));
               ("source", JStr (DocSource.name source));
               ("desc", field "desc" (JObj props))])
    as (line & Hline & Hinc1); [right; left; reflexivity | reflexivity |].
  destruct (serialize_array_includes indent2 EmptyString line
              (candidate_of (JObj props)) (map candidate_of classData))
    as (listing & Hlisting & Hinc2).
  { apply in_map. exact Hin. }
  { unfold candidate_of. rewrite Hfield. exact Hline. }
  exists source, listing. split; [exact Hsource |]. split; [exact Hfield |]. split.
  - unfold JSON_stringify. rewrite Hlisting. reflexivity.
  - eapply includes_trans; eassumption.
Qed.

Lemma get_prop_nullish (v : value) (k : string) :
  nullish v = true -> exists e, get_prop v k = Throw e.
Proof. destruct v; intro H; try discriminate H; eexists; reflexivity. Qed.

Lemma select_classes_nullish (key : string) (args : value) (rawData : list value) :
  nullish args = true -> exists e, select_classes key args rawData = Throw e.
Proof.
  intro H. unfold select_classes.
  destruct rawData as [| c rest]; cbn [filterR rbind].
  - unfold narrow_by_source.
    destruct (get_prop_nullish args "source" H) as (e & ->). eexists. reflexivity.
  - unfold named. destruct (get_prop c "name") as [c_name | e]; cbn [rbind].
    + destruct (get_prop_nullish args key H) as (e & ->). eexists. reflexivity.
    + eexists. reflexivity.
Qed.

(** A value that is strictly equal to another is a primitive, and
    converts to a string. *)
Lemma strict_eq_converts (x y : value) :
  strict_eq x y = true -> exists text, toString y = Ok text.
Proof.
  destruct x, y; intro H; try discriminate H; cbn [toString];
    try (eexists; reflexivity).
  destruct b0; eexists; reflexivity.
Qed.

Lemma selected_converts (key : string) (args : value) (rawData : list value) (c : value) :
  In c (filter (selected key args) rawData) ->
  exists text, toString (field key args) = Ok text.
Proof.
  intro Hc. apply filter_In in Hc. destruct Hc as [_ Hc].
  unfold selected in Hc. apply andb_true_iff in Hc. destruct Hc as [Hc _].
  eapply strict_eq_converts, Hc.
Qed.

Lemma stringify_text (gap : string) (v : value) (text : string) :
  JSON_stringify gap v = JStr text -> serialize gap EmptyString v = Some text.
Proof.
  unfold JSON_stringify. destruct (serialize gap EmptyString v); congruence.
Qed.

(** C3 fails at the class name [{"toString": 1}]: no record has that
    name, the template literal of the not-found message throws on it
    inside the [try], and the answer is the internal error [-32603], not a
    tool result. *)
Lemma unconvertible_class_name_is_an_internal_error :
  filter (selected "name" (JObj [("name", unconvertible)]))
         (result_of ex_world (fetchAllSources two_sources)) = [] /\
  result_of ex_world
    (handleRequest ascii_toLowerCase
       (tools_call (JNum 1) "get_class" (JObj [("name", unconvertible)])) None two_sources) =
  Ok (internal_error (JNum 1) (TypeError "Cannot convert object to primitive value")) /\
  (forall text,
      result_of ex_world
        (handleRequest ascii_toLowerCase
           (tools_call (JNum 1) "get_class" (JObj [("name", unconvertible)])) None
           two_sources) <>
      Ok (tool_result (JNum 1) text)).
Proof.
  split; [reflexivity |]. split; [reflexivity |]. intros text. discriminate.
Qed.

(** C3, amended: [get_class] selects the records of the corpus with
    exactly the class name (of the given source, when [source] is given).
    No match: the successful tool result [Class '...' not found], when
    the name converts to a string (every string, number, boolean, [null]
    and missing name does); the internal error [-32603] when the
    conversion throws.  One match: the full record, serialized.  More:
    the successful tool result that states the number of matches, asks
    for the [source] parameter and lists the candidates, every
    candidate's source name occurring (quoted) in the listing.  A call
    without an arguments object is answered with the internal error. *)
Theorem get_class_answers
  (w : world) (env : Env) (sessionId : option string) (message id args : value) :
  is_tools_call message id (JStr "get_class") args ->
  let classData := filter (selected "name" args) (result_of w (fetchAllSources env)) in
  let answer := result_of w (handleRequest toLowerCase message sessionId env) in
  (nullish args = true -> exists e, answer = Ok (internal_error id e)) /\
  (nullish args = false ->
   (classData = [] ->
    match toString (field "name" args) with
    | Ok text => answer = Ok (tool_result id (JStr ("Class '" ++ text ++ "' not found")))
    | Throw e => answer = Ok (internal_error id e)
    end) /\
   (forall only, classData = [only] ->
    answer = Ok (tool_result id (JSON_stringify indent2 only)) /\
    exists text, JSON_stringify indent2 only = JStr text) /\
   (2 <= List.length classData ->
    exists text listing,
      toString (field "name" args) = Ok text /\
      JSON_stringify indent2 (JArr (map candidate_of classData)) = JStr listing /\
      answer =
      Ok (tool_result id
            (JStr ("Found " ++ string_of_nat (List.length classData) ++ " classes named '"
                   ++ text
                   ++ "' from different sources. Specify 'source' parameter to disambiguate."
                   ++ nl ++ nl ++ listing))) /\
      forall c, In c classData ->
        exists source,
          In source (DOC_SOURCES env) /\
          field "_source" c = JStr (DocSource.name source) /\
          includes (quote (DocSource.name source)) listing = true)).
Proof.
  intros Hcall classData answer.
  assert (Hrec : forall c, In c (result_of w (fetchAllSources env)) ->
                           is_record_of (DOC_SOURCES env) c).
  { intros c Hc. unfold result_of in Hc. rewrite fetchAllSources_corpus in Hc.
    eapply corpus_records, Hc. }
  assert (Hanswer : answer =
                    Ok (tools_call_response toLowerCase id (JStr "get_class") args
                          (result_of w (fetchAllSources env)))).
  { apply tools_call_result; [exact Hcall | reflexivity]. }
  unfold tools_call_response in Hanswer. rewrite tool_switch_get_class in Hanswer.
  unfold get_class in Hanswer.
  split.
  { intro Hargs.
    destruct (select_classes_nullish "name" args (result_of w (fetchAllSources env)) Hargs)
      as (e & He).
    rewrite He in Hanswer. exists e. exact Hanswer. }
  intro Hargs.
  rewrite select_classes_pure in Hanswer;
    [| exact Hargs | intros c Hc; eapply record_not_nullish, Hrec, Hc].
  fold classData in Hanswer. cbn [rbind] in Hanswer.
  assert (Hdata : forall c, In c classData -> is_record_of (DOC_SOURCES env) c).
  { intros c Hc. apply Hrec. apply filter_In in Hc. apply Hc. }
  assert (Hconv : forall c, In c classData ->
                            exists text, toString (field "name" args) = Ok text).
  { intros c Hc. eapply selected_converts, Hc. }
  clearbody classData answer.
  split; [| split].
  - intros ->. rewrite Hanswer. unfold not_found_text.
    rewrite (get_prop_field args) by exact Hargs. cbn [rbind].
    destruct (toString (field "name" args)); reflexivity.
  - intros only ->. split; [rewrite Hanswer; reflexivity |].
    destruct (Hdata only (or_introl eq_refl)) as (props & _ & -> & _).
    unfold JSON_stringify. rewrite serialize_object. eexists. reflexivity.
  - intro Hlen.
    destruct classData as [| c1 [| c2 rest]]; simpl in Hlen; try lia.
    destruct (Hconv c1 (or_introl eq_refl)) as (text & Htext).
    destruct (listing_names_source (DOC_SOURCES env) (c1 :: c2 :: rest) c1)
      as (_ & listing & _ & _ & Hlisting & _); [apply Hdata; left; reflexivity | left; reflexivity |].
    exists text, listing. split; [exact Htext |]. split; [exact Hlisting |]. split.
    + rewrite Hanswer. rewrite (get_prop_field args) by exact Hargs. cbn [rbind].
      rewrite Htext. cbn [rbind].
      rewrite (mapR_pure candidate candidate_of).
      2:{ intros c Hc. apply candidate_pure. eapply record_not_nullish, Hdata, Hc. }
      cbn [rbind]. rewrite (stringify_text _ _ _ Hlisting). reflexivity.
    + intros c Hc.
      destruct (listing_names_source (DOC_SOURCES env) (c1 :: c2 :: rest) c)
        as (source & listing' & Hs & Hf & Hl & Hinc); [apply Hdata, Hc | exact Hc |].
      rewrite Hlisting in Hl. inversion Hl; subst listing'.
      exists source. repeat split; assumption.
Qed.

(** ** [get_function] *)

Lemma tool_switch_get_function (args : value) (rawData : list value) :
  tool_switch toLowerCase (JStr "get_function") args rawData =
  (do c <- get_function args rawData; Ok (Some c)).
Proof. reflexivity. Qed.

Lemma findR_pure (f : value -> result bool) (g : value -> bool) (l : list value) :
  (forall x, In x l -> f x = Ok (g x)) ->
  findR f l = Ok (match find g l with Some x => x | None => JUndef end).
Proof.
  induction l as [| x rest IH]; intro H; simpl; [reflexivity |].
  rewrite (H x (or_introl eq_refl)). simpl. destruct (g x); [reflexivity |].
  apply IH. intros y Hy. apply H. right. exact Hy.
Qed.

Lemma found_in_pure (args cls : value) :
  nullish args = false -> nullish cls = false -> functions_well_formed cls = true ->
  found_in args cls = Ok (matches_in (field "functionName" args) cls).
Proof.
  intros Hargs Hcls Hwf.
  unfold found_in, find_function, matches_in, function_named, functions_of.
  unfold functions_well_formed in Hwf.
  rewrite (get_prop_field cls "functions") by exact Hcls. cbn [rbind].
  destruct (field "functions" cls) as [| | b | n | s | fs | ps]; try discriminate Hwf;
    try reflexivity.
  rewrite (findR_pure _ (fun f => strict_eq (field "name" f) (field "functionName" args))).
  2:{ intros f Hf. rewrite forallb_forall in Hwf. specialize (Hwf f Hf).
      destruct f; try discriminate Hwf.
      rewrite (get_prop_field args) by exact Hargs. reflexivity. }
  cbn [rbind].
  destruct (find (fun f => strict_eq (field "name" f) (field "functionName" args)) fs)
    as [f |] eqn:Efind; [| reflexivity].
  apply find_some in Efind. destruct Efind as [Hin _].
  rewrite forallb_forall in Hwf. specialize (Hwf f Hin).
  destruct f; try discriminate Hwf. cbn [truthy].
  rewrite !(get_prop_field cls) by exact Hcls. reflexivity.
Qed.

(** C4 fails at the class name [{"toString": 1}]: no class has that
    name, the template literal of the class-not-found message throws on
    it inside the [try], and the answer is the internal error [-32603],
    not a tool result. *)
Lemma unconvertible_className_is_an_internal_error :
  filter (selected "className"
            (JObj [("className", unconvertible); ("functionName", JStr "render")]))
         (result_of ex_world (fetchAllSources two_sources)) = [] /\
  result_of ex_world
    (handleRequest ascii_toLowerCase
       (tools_call (JNum 1) "get_function"
          (JObj [("className", unconvertible); ("functionName", JStr "render")]))
       None two_sources) =
  Ok (internal_error (JNum 1) (TypeError "Cannot convert object to primitive value")) /\
  (forall text,
      result_of ex_world
        (handleRequest ascii_toLowerCase
           (tools_call (JNum 1) "get_function"
              (JObj [("className", unconvertible); ("functionName", JStr "render")]))
           None two_sources) <>
      Ok (tool_result (JNum 1) text)).
Proof.
  split; [reflexivity |]. split; [reflexivity |]. intros text. discriminate.
Qed.

(** C4, amended: [get_function] selects the classes of the corpus with
    exactly the class name (of the given source, when [source] is given),
    their [functions] being absent or arrays of function records.  No
    class: the successful tool result [Class '...' not found], which
    names the class, when the class name converts to a string (every
    string, number, boolean, [null] and missing name does).  Classes but
    no function of that exact name in any of them:
    [Function '...' not found in class '...'], when the function name
    converts to a string.  A name whose conversion throws is answered, in
    these two cases, with the internal error [-32603].  One function: the
    record, annotated with [_source] and [_className].  More: the list of
    the annotated records.  A call without an arguments object is
    answered with the internal error. *)
Theorem get_function_answers
  (w : world) (env : Env) (sessionId : option string) (message id args : value) :
  is_tools_call message id (JStr "get_function") args ->
  let targetClasses :=
    filter (selected "className" args) (result_of w (fetchAllSources env)) in
  let found := flat_map (matches_in (field "functionName" args)) targetClasses in
  let answer := result_of w (handleRequest toLowerCase message sessionId env) in
  (nullish args = true -> exists e, answer = Ok (internal_error id e)) /\
  (nullish args = false ->
   forallb functions_well_formed targetClasses = true ->
   (targetClasses = [] ->
    match toString (field "className" args) with
    | Ok className =>
        answer = Ok (tool_result id (JStr ("Class '" ++ className ++ "' not found"))) /\
        includes className ("Class '" ++ className ++ "' not found") = true
    | Throw e => answer = Ok (internal_error id e)
    end) /\
   (targetClasses <> [] -> found = [] ->
    match toString (field "functionName" args) with
    | Ok functionName =>
        exists className,
          toString (field "className" args) = Ok className /\
          answer = Ok (tool_result id
                         (JStr ("Function '" ++ functionName ++ "' not found in class '"
                                ++ className ++ "'")))
    | Throw e => answer = Ok (internal_error id e)
    end) /\
   (forall only, found = [only] ->
    answer = Ok (tool_result id (JSON_stringify indent2 only))) /\
   (2 <= List.length found ->
    answer = Ok (tool_result id (JSON_stringify indent2 (JArr found)))) /\
   (forall cls f, exists props,
      annotated cls f = JObj props /\
      lookup "_source" props = Some (field "_source" cls) /\
      lookup "_className" props = Some (field "name" cls))).
Proof.
  intros Hcall targetClasses found answer.
  assert (Hrec : forall c, In c (result_of w (fetchAllSources env)) -> nullish c = false).
  { intros c Hc. unfold result_of in Hc. rewrite fetchAllSources_corpus in Hc.
    eapply record_not_nullish, corpus_records, Hc. }
  assert (Hanswer : answer =
                    Ok (tools_call_response toLowerCase id (JStr "get_function") args
                          (result_of w (fetchAllSources env)))).
  { apply tools_call_result; [exact Hcall | reflexivity]. }
  unfold tools_call_response in Hanswer. rewrite tool_switch_get_function in Hanswer.
  unfold get_function in Hanswer.
  split.
  { intro Hargs.
    destruct (select_classes_nullish "className" args (result_of w (fetchAllSources env))
                Hargs) as (e & He).
    rewrite He in Hanswer. exists e. exact Hanswer. }
  intros Hargs Hwf.
  rewrite select_classes_pure in Hanswer by assumption.
  fold targetClasses in Hanswer. cbn [rbind] in Hanswer.
  assert (Hfound : foundFunctions args targetClasses = Ok found).
  { apply flat_mapR_pure. intros cls Hcls. apply found_in_pure; [exact Hargs | |].
    - apply Hrec. apply filter_In in Hcls. apply Hcls.
    - rewrite forallb_forall in Hwf. apply Hwf, Hcls. }
  assert (Hnonempty : found <> [] -> targetClasses <> []).
  { intros Hne ->. apply Hne. reflexivity. }
  assert (Hconv : forall c, In c targetClasses ->
                            exists text, toString (field "className" args) = Ok text).
  { intros c Hc. eapply selected_converts, Hc. }
  clearbody targetClasses found answer.
  split; [| split; [| split; [| split]]].
  - intros ->. rewrite Hanswer. unfold not_found_text.
    rewrite (get_prop_field args) by exact Hargs. cbn [rbind].
    destruct (toString (field "className" args)) as [className | e]; [| reflexivity].
    split; [reflexivity | apply includes_middle].
  - intros Hne ->. rewrite Hanswer.
    destruct targetClasses as [| c rest]; [now elim Hne |].
    rewrite Hfound. cbn [rbind]. rewrite !(get_prop_field args) by exact Hargs.
    cbn [rbind].
    destruct (toString (field "functionName" args)) as [functionName | e];
      [| reflexivity].
    destruct (Hconv c (or_introl eq_refl)) as (className & Hclass).
    exists className. split; [exact Hclass |]. cbn [rbind]. rewrite Hclass. reflexivity.
  - intros only ->. rewrite Hanswer.
    destruct targetClasses as [| c rest]; [now elim Hnonempty |].
    rewrite Hfound. reflexivity.
  - intro Hlen. rewrite Hanswer.
    destruct targetClasses as [| c rest]; [elim Hnonempty; [| reflexivity] |].
    + intros ->. simpl in Hlen. lia.
    + rewrite Hfound. destruct found as [| f1 [| f2 more]]; simpl in Hlen; try lia.
      reflexivity.
  - intros cls f. eexists. split; [reflexivity |]. split.
    + rewrite lookup_obj_set_other by reflexivity. apply lookup_obj_set_same.
    + apply lookup_obj_set_same.
Qed.

(** ** [handlePost] *)

Lemma someR_pure (f : value -> result bool) (g : value -> bool) (l : list value) :
  (forall x, In x l -> f x = Ok (g x)) -> someR f l = Ok (existsb g l).
Proof.
  induction l as [| x rest IH]; intro H; simpl; [reflexivity |].
  rewrite (H x (or_introl eq_refl)). simpl. destruct (g x); [reflexivity |].
  apply IH. intros y Hy. apply H. right. exact Hy.
Qed.

Lemma is_request_pure (msg : value) :
  nullish msg = false -> is_request msg = Ok (request_like msg).
Proof.
  intro H. unfold is_request, request_like.
  rewrite !(get_prop_field msg) by exact H. cbn [rbind].
  destruct (truthy (field "method" msg)); reflexivity.
Qed.

Lemma has_id_pure (msg : value) :
  nullish msg = false -> has_id msg = Ok (negb (strict_eq (field "id" msg) JUndef)).
Proof.
  intro H. unfold has_id. rewrite (get_prop_field msg) by exact H. reflexivity.
Qed.

(** A parsed body none of whose messages is null and none of whose
    messages is a request is answered with 202 and no body, whatever the
    number of messages. *)
Lemma notifications_are_accepted (request : Request) (env : Env) (body : value) :
  json request = Ok body ->
  forallb (fun msg => negb (nullish msg)) (messages_of body) = true ->
  existsb request_like (messages_of body) = false ->
  handlePost toLowerCase request env =
  Ret (Ok {| body := NoBody; status := 202; headers := getCorsHeaders request |}).
Proof.
  intros Hjson Hmsgs Hnone. unfold handlePost. rewrite Hjson.
  fold (messages_of body).
  rewrite (someR_pure is_request request_like).
  - rewrite Hnone. reflexivity.
  - intros msg Hmsg. apply is_request_pure.
    rewrite forallb_forall in Hmsgs. specialize (Hmsgs msg Hmsg).
    now apply negb_true_iff in Hmsgs.
Qed.

(** C5 at the body [null] (and at the batch [[null]]): the body parses,
    its message list holds no message with a [method] and an [id], and
    [handlePost] throws at [msg.method] instead of answering 202. *)
Theorem null_message_is_not_accepted (w : world) (env : Env) (origin : option string) :
  existsb request_like (messages_of JNull) = false /\
  result_of w (fetch toLowerCase (post_mcp origin JNull) env) =
  Throw (TypeError "Cannot read properties of null (reading 'method')") /\
  result_of w (fetch toLowerCase (post_mcp origin (JArr [JNull])) env) =
  Throw (TypeError "Cannot read properties of null (reading 'method')").
Proof. repeat split. Qed.

(** ** The router *)

(** C7 at the 404 and the two 405 answers: each is built without
    headers, so it carries no [Access-Control-Allow-Origin], whatever the
    request's [Origin]. *)
Theorem not_found_and_not_allowed_carry_no_cors
  (w : world) (env : Env) (origin : option string) :
  (let response :=
     {| body := TextBody "Not Found"; status := 404; headers := [] |} in
   result_of w (fetch toLowerCase (request_of "GET" "/nope" origin None) env) = Ok response /\
   header "Access-Control-Allow-Origin" (headers response) = None) /\
  (let response :=
     {| body := TextBody "Method Not Allowed"; status := 405; headers := [] |} in
   result_of w (fetch toLowerCase (request_of "DELETE" "/mcp" origin None) env) = Ok response /\
   result_of w (fetch toLowerCase
                  (request_of "GET" "/mcp" origin (Some "application/json")) env) =
   Ok response /\
   header "Access-Control-Allow-Origin" (headers response) = None).
Proof. repeat split. Qed.

(** ** Determinism *)

(** The answer to a [tools/call] is a function of the corpus. *)
Lemma tools_call_factors
  (env : Env) (sessionId : option string) (message : value) :
  field "method" message = JStr "tools/call" ->
  exists answer : list value -> result value,
    forall w, result_of w (handleRequest toLowerCase message sessionId env) =
              answer (result_of w (fetchAllSources env)).
Proof.
  intro Hmethod. unfold result_of, handleRequest.
  destruct message as [| | b | n | s | items | props];
    try (exists (fun _ => Throw (TypeError "unreachable")); discriminate Hmethod);
    try (unfold field in Hmethod; simpl in Hmethod; discriminate Hmethod).
  cbn [get_prop rbind].
  unfold field in Hmethod. cbn [get_prop] in Hmethod. rewrite Hmethod.
  cbn [strict_eq String.eqb Ascii.eqb Bool.eqb].
  set (id := match lookup "id" props with Some x => x | None => JUndef end).
  set (params := match lookup "params" props with Some x => x | None => JUndef end).
  destruct (get_prop params "name") as [name | e]; cbn [rbind].
  2:{ eexists (fun _ => _). intro w. cbn [run returned]. reflexivity. }
  destruct (get_prop params "arguments") as [args | e]; cbn [rbind].
  2:{ eexists (fun _ => _). intro w. cbn [run returned]. reflexivity. }
  destruct (strict_eq name (JStr "list_sources")).
  - eexists (fun _ => _). intro w. cbn [run returned]. reflexivity.
  - exists (fun rawData => Ok (tools_call_response toLowerCase id name args rawData)).
    intro w. rewrite run_bind. reflexivity.
Qed.

Lemma embedded_corpus (w1 w2 : world) (env : Env) :
  all_embedded env = true ->
  result_of w1 (fetchAllSources env) = result_of w2 (fetchAllSources env).
Proof.
  intro H. unfold result_of. rewrite !fetchAllSources_corpus.
  unfold all_embedded in H. rewrite forallb_forall in H.
  induction (DOC_SOURCES env) as [| source rest IH]; [reflexivity |].
  simpl. rewrite IH by (intros s Hs; apply H; right; exact Hs).
  f_equal. specialize (H source (or_introl eq_refl)).
  unfold contributed, payload. destruct (DocSource._embeddedData source);
    [reflexivity | discriminate H].
Qed.

(** C9: a [tools/call] (of any of the six tools) is answered from the
    request and the corpus alone: two evaluations against the same corpus
    give the same envelope, hence the same serialized bytes; and against
    a registry made of embedded snapshots only, any two evaluations do,
    whatever the network does in between. *)
Theorem tools_are_deterministic
  (w1 w2 : world) (env : Env) (sessionId : option string) (message : value) :
  field "method" message = JStr "tools/call" ->
  (result_of w1 (fetchAllSources env) = result_of w2 (fetchAllSources env) ->
   result_of w1 (handleRequest toLowerCase message sessionId env) =
   result_of w2 (handleRequest toLowerCase message sessionId env)) /\
  (all_embedded env = true ->
   result_of w1 (handleRequest toLowerCase message sessionId env) =
   result_of w2 (handleRequest toLowerCase message sessionId env)).
Proof.
  intro Hmethod.
  destruct (tools_call_factors env sessionId message Hmethod) as (answer & Hanswer).
  assert (Hsame : result_of w1 (fetchAllSources env) = result_of w2 (fetchAllSources env) ->
                  result_of w1 (handleRequest toLowerCase message sessionId env) =
                  result_of w2 (handleRequest toLowerCase message sessionId env)).
  { intro Hcorpus. rewrite !Hanswer, Hcorpus. reflexivity. }
  split; [exact Hsame |].
  intro Hembedded. apply Hsame, embedded_corpus, Hembedded.
Qed.

(** ** Dispatch *)

(** [handleRequest] throws only while destructuring its message. *)
Lemma handleRequest_total
  (w : world) (n : nat) (env : Env) (sessionId : option string) (message : value) :
  nullish message = false ->
  exists response,
    returned (run w n (handleRequest toLowerCase message sessionId env)) = Ok response.
Proof.
  intro H. unfold handleRequest. rewrite !(get_prop_field message) by exact H.
  cbn [rbind].
  destruct (strict_eq (field "method" message) (JStr "initialize")).
  { eexists. reflexivity. }
  destruct (strict_eq (field "method" message) (JStr "tools/list")).
  { eexists. reflexivity. }
  destruct (strict_eq (field "method" message) (JStr "tools/call")).
  2:{ eexists. reflexivity. }
  destruct (get_prop (field "params" message) "name") as [name | e]; cbn [rbind].
  2:{ eexists. reflexivity. }
  destruct (get_prop (field "params" message) "arguments") as [args | e]; cbn [rbind].
  2:{ eexists. reflexivity. }
  destruct (strict_eq name (JStr "list_sources")).
  { eexists. reflexivity. }
  rewrite run_bind. eexists. reflexivity.
Qed.

(** A message without a [method] is answered with [Method not found]
    under its own [id]. *)
Lemma handleRequest_without_method
  (env : Env) (sessionId : option string) (message : value) :
  nullish message = false ->
  field "method" message = JUndef ->
  handleRequest toLowerCase message sessionId env =
  Ret (Ok (error_envelope (field "id" message) (-32601) "Method not found")).
Proof.
  intros H Hmethod. unfold handleRequest. rewrite !(get_prop_field message) by exact H.
  cbn [rbind]. rewrite Hmethod. reflexivity.
Qed.

Lemma all_handled_run
  (w : world) (env : Env) (sessionId : option string) (msgs : list value) :
  (forall m, In m msgs -> nullish m = false) ->
  forall n, exists responses,
    returned (run w n (all_handled toLowerCase sessionId env msgs)) = Ok responses /\
    List.length responses = List.length msgs /\
    forall m e, In m msgs ->
                handleRequest toLowerCase m sessionId env = Ret (Ok e) ->
                In e responses.
Proof.
  induction msgs as [| msg rest IH]; intros Hmsgs n.
  - exists []. repeat split. intros m e [].
  - cbn [all_handled]. rewrite run_bind. cbv zeta. cbn [returned].
    destruct (handleRequest_total w n env sessionId msg (Hmsgs msg (or_introl eq_refl)))
      as (response & Hresponse).
    rewrite run_bind. cbv zeta. cbn [returned run].
    destruct (IH (fun m Hm => Hmsgs m (or_intror Hm))
                 (drawn (run w n (handleRequest toLowerCase msg sessionId env))))
      as (responses & Hresponses & Hlen & Hin).
    rewrite Hresponse, Hresponses. cbn [rbind].
    exists (response :: responses). split; [reflexivity |]. split; [simpl; now rewrite Hlen |].
    intros m e [<- | Hm] He.
    + rewrite He in Hresponse. injection Hresponse as <-. left. reflexivity.
    + right. eapply Hin; eassumption.
Qed.

Lemma sse_try_run
  (w : world) (env : Env) (sessionId : option string) (msgs : list value) :
  (forall m, In m msgs -> nullish m = false) ->
  forall written n, exists frames,
    returned (run w n (sse_try toLowerCase sessionId env msgs written)) =
    ((written ++ frames)%list, Ok tt) /\
    forall m e, In m msgs ->
                strict_eq (field "id" m) JUndef = false ->
                handleRequest toLowerCase m sessionId env = Ret (Ok e) ->
                In (sse_frame e) frames.
Proof.
  induction msgs as [| msg rest IH]; intros Hmsgs written n.
  - exists []. rewrite app_nil_r. split; [reflexivity |]. intros m e [].
  - cbn [sse_try].
    rewrite (has_id_pure msg) by (apply Hmsgs; left; reflexivity).
    destruct (strict_eq (field "id" msg) JUndef) eqn:Eid; cbn [negb].
    + destruct (IH (fun m Hm => Hmsgs m (or_intror Hm)) written n) as (frames & Hrun & Hin).
      exists frames. split; [exact Hrun |].
      intros m e [<- | Hm] Hid He; [congruence | eapply Hin; eassumption].
    + rewrite run_bind. cbv zeta. cbn [returned].
      destruct (handleRequest_total w n env sessionId msg (Hmsgs msg (or_introl eq_refl)))
        as (response & Hresponse).
      rewrite Hresponse.
      destruct (IH (fun m Hm => Hmsgs m (or_intror Hm))
                   (written ++ [sse_frame response])%list
                   (drawn (run w n (handleRequest toLowerCase msg sessionId env))))
        as (frames & Hrun & Hin).
      exists (sse_frame response :: frames). split.
      * rewrite Hrun, <- app_assoc. reflexivity.
      * intros m e [<- | Hm] Hid He.
        -- rewrite He in Hresponse. injection Hresponse as <-. left. reflexivity.
        -- right. eapply Hin; eassumption.
Qed.

Lemma two_members {A : Type} (x y : A) (l : list A) :
  In x l -> In y l -> x <> y -> 2 <= List.length l.
Proof.
  intros Hx Hy Hne. destruct l as [| a [| b rest]]; simpl in *.
  - destruct Hx.
  - destruct Hx as [<- | []]. destruct Hy as [<- | []]. now elim Hne.
  - lia.
Qed.

(** C10: in a body without null messages that holds at least one request
    (a [method] and a defined [id]), every message with a defined [id] is
    dispatched, also one without a [method]: its answer, the error
    [-32601] [Method not found] under the message's own [id], is among
    the envelopes of the buffered answer and among the frames of the
    streamed one. *)
Theorem id_without_method_is_dispatched
  (w : world) (env : Env) (request : Request) (body m : value) :
  json request = Ok body ->
  forallb (fun msg => negb (nullish msg)) (messages_of body) = true ->
  existsb request_like (messages_of body) = true ->
  In m (messages_of body) ->
  field "method" m = JUndef ->
  strict_eq (field "id" m) JUndef = false ->
  let envelope := error_envelope (field "id" m) (-32601) "Method not found" in
  if includes "text/event-stream" (accept_of request) then
    exists frames,
      result_of w (handlePost toLowerCase request env) =
      Ok {| body := FrameStream frames; status := 200;
            headers := event_stream_headers request |} /\
      In (sse_frame envelope) frames
  else
    exists responses,
      result_of w (handlePost toLowerCase request env) =
      Ok {| body := body_of (JSON_stringify compact (JArr responses)); status := 200;
            headers := json_headers request |} /\
      In envelope responses.
Proof.
  intros Hjson Hmsgs Hrequest Hm Hmethod Hid envelope.
  assert (Hnonnull : forall msg, In msg (messages_of body) -> nullish msg = false).
  { intros msg Hmsg. rewrite forallb_forall in Hmsgs. specialize (Hmsgs msg Hmsg).
    now apply negb_true_iff in Hmsgs. }
  assert (Hanswer := handleRequest_without_method env (Mcp_Session_Id request) m
                       (Hnonnull m Hm) Hmethod).
  fold envelope in Hanswer.
  unfold result_of, handlePost. rewrite Hjson. fold (messages_of body).
  rewrite (someR_pure is_request request_like)
    by (intros msg Hmsg; apply is_request_pure, Hnonnull, Hmsg).
  rewrite Hrequest.
  destruct (includes "text/event-stream" (accept_of request)).
  - rewrite run_bind. cbv zeta. cbn [returned run]. unfold handleSSE.
    rewrite run_bind. cbv zeta. cbn [returned run].
    destruct (sse_try_run w env (Mcp_Session_Id request) (messages_of body) Hnonnull [] 0)
      as (frames & Hrun & Hin).
    rewrite Hrun. cbn [fst snd app]. exists frames. split; [reflexivity |].
    eapply Hin; eassumption.
  - rewrite (filterR_pure has_id (fun msg => negb (strict_eq (field "id" msg) JUndef)))
      by (intros msg Hmsg; apply has_id_pure, Hnonnull, Hmsg).
    rewrite run_bind. cbv zeta. cbn [returned].
    set (requests := filter (fun msg => negb (strict_eq (field "id" msg) JUndef))
                            (messages_of body)).
    assert (Hm' : In m requests).
    { apply filter_In. split; [exact Hm | now rewrite Hid]. }
    destruct (all_handled_run w env (Mcp_Session_Id request) requests) with (n := 0)
      as (responses & Hrun & Hlen & Hin).
    { intros msg Hmsg. apply Hnonnull. apply filter_In in Hmsg. apply Hmsg. }
    rewrite Hrun. cbn [run returned].
    apply existsb_exists in Hrequest. destruct Hrequest as (r & Hr & Hlike).
    unfold request_like in Hlike. apply andb_true_iff in Hlike. destruct Hlike as [Hrm Hrid].
    assert (Hlen2 : 2 <= List.length responses).
    { rewrite Hlen. apply (two_members r m).
      - apply filter_In. split; assumption.
      - exact Hm'.
      - intros ->. rewrite Hmethod in Hrm. discriminate Hrm. }
    exists responses. split.
    + destruct responses as [| e1 [| e2 more]]; simpl in Hlen2; try lia. reflexivity.
    + eapply Hin; eassumption.
Qed.

(** ** CORS on the answers built with [getCorsHeaders] *)

Lemma cors_of_getCorsHeaders (request : Request) :
  header "Access-Control-Allow-Origin" (getCorsHeaders request) =
  Some (allowed_origin request).
Proof. reflexivity. Qed.

Lemma handlePost_cors (w : world) (n : nat) (env : Env) (request : Request)
      (response : Response) :
  returned (run w n (handlePost toLowerCase request env)) = Ok response ->
  header "Access-Control-Allow-Origin" (headers response) = Some (allowed_origin request).
Proof.
  unfold handlePost. destruct (json request) as [body | e].
  - destruct (someR is_request _) as [[|] | e]; cbn [run returned].
    + destruct (includes "text/event-stream" (accept_of request)).
      * rewrite run_bind. cbv zeta. cbn [returned run]. unfold handleSSE.
        rewrite run_bind. cbv zeta. cbn [returned run].
        intro H. injection H as <-. reflexivity.
      * destruct (filterR has_id _) as [requests | e]; cbn [run returned];
          [| discriminate].
        rewrite run_bind. cbv zeta. cbn [returned].
        destruct (returned (run w n (all_handled toLowerCase _ env requests)))
          as [responses | e]; cbn [run returned]; [| discriminate].
        intro H. injection H as <-. reflexivity.
    + intro H. injection H as <-. reflexivity.
    + discriminate.
  - cbn [run returned]. intro H. injection H as <-. reflexivity.
Qed.

(** Every answer of the router other than the bare 404 and 405 ones
    carries the CORS headers, the allowed origin being the request's
    [Origin] when it is there and not empty, and the wildcard
    otherwise. *)
Lemma other_responses_carry_cors (w : world) (env : Env) (request : Request)
      (response : Response) :
  result_of w (fetch toLowerCase request env) = Ok response ->
  status response <> 404%Z ->
  status response <> 405%Z ->
  header "Access-Control-Allow-Origin" (headers response) = Some (allowed_origin request).
Proof.
  unfold result_of, fetch. intros H H404 H405.
  destruct (String.eqb (pathname request) "/mcp" || String.eqb (pathname request) "/mcp/").
  - destruct (String.eqb (method request) "POST").
    { eapply handlePost_cors, H. }
    destruct (String.eqb (method request) "GET").
    { cbn [run returned] in H. injection H as <-. unfold handleGet in *.
      destruct (negb (includes "text/event-stream" (accept_of request)));
        [now elim H405 | reflexivity]. }
    destruct (String.eqb (method request) "OPTIONS");
      cbn [run returned] in H; injection H as <-; [reflexivity | now elim H405].
  - destruct (String.eqb (pathname request) "/" && String.eqb (method request) "GET");
      cbn [run returned] in H; injection H as <-; [reflexivity | now elim H404].
Qed.

End ServerProperties.

(** * Further properties of the worker *)

Section WorkerProperties.

Variable toLowerCase : string -> string.

(** ** Envelopes *)

Lemma tools_call_response_envelope (id name args : value) (rawData : list value) :
  is_envelope_for id (tools_call_response toLowerCase id name args rawData).
Proof.
  unfold tools_call_response.
  destruct (tool_switch toLowerCase name args rawData) as [[content |] | e];
    [| destruct (toString name) as [text | e] |];
    eexists; (split; [reflexivity |]); (split; [reflexivity |]); (split; [reflexivity |]).
  - left. eexists. split; reflexivity.
  - right. eexists _, _, _. split; [reflexivity |]. split; [reflexivity |]. left. reflexivity.
  - right. eexists _, _, _. split; [reflexivity |]. split; [reflexivity |]. right. reflexivity.
  - right. eexists _, _, _. split; [reflexivity |]. split; [reflexivity |]. right. reflexivity.
Qed.

Lemma handleRequest_envelope
  (w : world) (n : nat) (env : Env) (sessionId : option string) (message : value) :
  nullish message = false ->
  exists response,
    returned (run w n (handleRequest toLowerCase message sessionId env)) = Ok response /\
    is_envelope_for (field "id" message) response.
Proof.
  intro H. unfold handleRequest. rewrite !(get_prop_field message) by exact H.
  cbn [rbind].
  assert (Hresult : forall r,
             is_envelope_for (field "id" message)
               (result_envelope (field "id" message) r)).
  { intro r. eexists. repeat (split; [reflexivity |]). left. eexists. split; reflexivity. }
  destruct (strict_eq (field "method" message) (JStr "initialize")).
  { eexists. split; [reflexivity |]. eexists. repeat (split; [reflexivity |]).
    left. eexists. split; reflexivity. }
  destruct (strict_eq (field "method" message) (JStr "tools/list")).
  { eexists. split; [reflexivity |]. apply Hresult. }
  destruct (strict_eq (field "method" message) (JStr "tools/call")).
  2:{ eexists. split; [reflexivity |]. eexists. repeat (split; [reflexivity |]).
      right. eexists _, _, _. split; [reflexivity |]. split; [reflexivity |].
      left. reflexivity. }
  destruct (get_prop (field "params" message) "name") as [name | e]; cbn [rbind].
  2:{ eexists. split; [reflexivity |]. eexists. repeat (split; [reflexivity |]).
      right. eexists _, _, _. split; [reflexivity |]. split; [reflexivity |].
      right. reflexivity. }
  destruct (get_prop (field "params" message) "arguments") as [args | e]; cbn [rbind].
  2:{ eexists. split; [reflexivity |]. eexists. repeat (split; [reflexivity |]).
      right. eexists _, _, _. split; [reflexivity |]. split; [reflexivity |].
      right. reflexivity. }
  destruct (strict_eq name (JStr "list_sources")).
  { eexists. split; [reflexivity |]. apply Hresult. }
  rewrite run_bind. eexists. split; [reflexivity |]. apply tools_call_response_envelope.
Qed.

(** Whatever the method and the parameters of a message that is not
    null, [handleRequest] returns (it does not throw) a JSON-RPC 2.0
    envelope that carries the message's own [id] and either a [result]
    or an [error] with code [-32601] or [-32603]. *)
Theorem handleRequest_answers_with_envelope
  (w : world) (n : nat) (env : Env) (sessionId : option string) (message : value) :
  nullish message = false ->
  exists response,
    returned (run w n (handleRequest toLowerCase message sessionId env)) = Ok response /\
    is_envelope_for (field "id" message) response.
Proof. apply handleRequest_envelope. Qed.

(** ** What reaches the network *)

(** [handleRequest] touches the network (and the log) only to aggregate,
    and it aggregates for exactly the [tools/call] messages whose tool is
    not [list_sources], an unknown tool included: every other message is
    answered without a single request. *)
Theorem handleRequest_fetches_only_to_aggregate
  (w : world) (n : nat) (env : Env) (sessionId : option string) (message : value) :
  events (run w n (handleRequest toLowerCase message sessionId env)) =
  if aggregates message then events (run w n (fetchAllSources env)) else [].
Proof.
  unfold aggregates, handleRequest.
  destruct (nullish message) eqn:Hnull.
  { destruct message; try discriminate Hnull; reflexivity. }
  rewrite !(get_prop_field message) by exact Hnull. cbn [rbind].
  destruct (field "method" message) as [| | b | z | m | items | props]; try reflexivity.
  cbn [strict_eq].
  destruct (String.eqb m "tools/call") eqn:Hcall.
  2:{ cbn [andb].
      destruct (String.eqb m "initialize"); [reflexivity |].
      destruct (String.eqb m "tools/list"); reflexivity. }
  apply String.eqb_eq in Hcall. subst m.
  cbn [String.eqb Ascii.eqb Bool.eqb andb].
  destruct (nullish (field "params" message)) eqn:Hparams.
  { destruct (field "params" message); try discriminate Hparams; reflexivity. }
  rewrite !(get_prop_field (field "params" message)) by exact Hparams.
  cbn [rbind negb andb].
  destruct (strict_eq (field "name" (field "params" message)) (JStr "list_sources"));
    [reflexivity |].
  rewrite run_bind. cbn [negb events run]. apply app_nil_r.
Qed.

(** Off the POST to [/mcp] the router answers without touching the
    network, the log or the UUID source: the info document, the
    preflight, the event stream of GET and the 404 and 405 answers are
    built from the request and the registry alone. *)
Theorem router_is_silent_off_post
  (w : world) (n : nat) (env : Env) (request : Request) :
  is_mcp_post request = false ->
  events (run w n (fetch toLowerCase request env)) = [] /\
  drawn (run w n (fetch toLowerCase request env)) = n.
Proof.
  unfold is_mcp_post, fetch. intro H.
  destruct (String.eqb (pathname request) "/mcp" || String.eqb (pathname request) "/mcp/").
  - cbn [andb] in H. rewrite H.
    destruct (String.eqb (method request) "GET"); [split; reflexivity |].
    destruct (String.eqb (method request) "OPTIONS"); split; reflexivity.
  - destruct (String.eqb (pathname request) "/" && String.eqb (method request) "GET");
      split; reflexivity.
Qed.

(** ** [get_raw_api_data] *)

Lemma corpus_not_nullish (w : world) (env : Env) (c : value) :
  In c (result_of w (fetchAllSources env)) -> nullish c = false.
Proof.
  intro Hc. unfold result_of in Hc. rewrite fetchAllSources_corpus in Hc.
  eapply record_not_nullish, corpus_records, Hc.
Qed.

Lemma corpus_source_field (w : world) (env : Env) (c : value) :
  In c (result_of w (fetchAllSources env)) ->
  exists source, In source (DOC_SOURCES env) /\
                 field "_source" c = JStr (DocSource.name source).
Proof.
  intro Hc. unfold result_of in Hc. rewrite fetchAllSources_corpus in Hc.
  apply corpus_records in Hc. destruct Hc as (props & source & -> & Hs & Hl).
  exists source. split; [exact Hs |]. unfold field. simpl. rewrite Hl. reflexivity.
Qed.

Lemma filter_none {A : Type} (f : A -> bool) (l : list A) :
  (forall x, In x l -> f x = false) -> filter f l = [].
Proof.
  induction l as [| x rest IH]; intro H; [reflexivity |].
  simpl. rewrite (H x (or_introl eq_refl)). apply IH.
  intros y Hy. apply H. right. exact Hy.
Qed.

Lemma strict_eq_str (s : string) (v : value) :
  strict_eq (JStr s) v = true -> v = JStr s.
Proof.
  destruct v; simpl; try discriminate. intro H. apply String.eqb_eq in H. now subst.
Qed.

Lemma narrow_by_source_pure (args : value) (l : list value) :
  nullish args = false ->
  (forall c, In c l -> nullish c = false) ->
  narrow_by_source args l =
  Ok (if truthy (field "source" args)
      then filter (fun cls => strict_eq (field "_source" cls) (field "source" args)) l
      else l).
Proof.
  intros Hargs Hl. unfold narrow_by_source.
  rewrite (get_prop_field args) by exact Hargs. cbn [rbind].
  destruct (truthy (field "source" args)); [| reflexivity].
  apply filterR_pure. intros c Hc. unfold from_source.
  rewrite (get_prop_field c) by auto. rewrite (get_prop_field args) by exact Hargs.
  reflexivity.
Qed.

(** [get_raw_api_data] serializes the whole corpus when [source] is not
    given (or is falsy), and otherwise the records stamped with exactly
    that source, in corpus order.  A [source] that is not the name of a
    configured source is no error: the answer is the empty array. *)
Theorem get_raw_api_data_answers
  (w : world) (env : Env) (sessionId : option string) (message id args : value) :
  is_tools_call message id (JStr "get_raw_api_data") args ->
  nullish args = false ->
  let corpus := result_of w (fetchAllSources env) in
  let answer := result_of w (handleRequest toLowerCase message sessionId env) in
  answer =
  Ok (tool_result id
        (JSON_stringify indent2
           (JArr (if truthy (field "source" args)
                  then filter (fun cls => strict_eq (field "_source" cls)
                                                    (field "source" args)) corpus
                  else corpus)))) /\
  (truthy (field "source" args) = true ->
   (forall source, In source (DOC_SOURCES env) ->
                   field "source" args <> JStr (DocSource.name source)) ->
   answer = Ok (tool_result id (JStr "[]"))).
Proof.
  intros Hcall Hargs corpus answer.
  assert (Hanswer : answer =
                    Ok (tools_call_response toLowerCase id (JStr "get_raw_api_data") args
                          corpus)).
  { apply tools_call_result; [exact Hcall | reflexivity]. }
  unfold tools_call_response in Hanswer.
  change (tool_switch toLowerCase (JStr "get_raw_api_data") args corpus)
    with (do c <- get_raw_api_data args corpus; Ok (Some c)) in Hanswer.
  unfold get_raw_api_data in Hanswer.
  rewrite narrow_by_source_pure in Hanswer;
    [| exact Hargs | intros c Hc; eapply corpus_not_nullish, Hc].
  cbn [rbind] in Hanswer. split; [exact Hanswer |].
  intros Htruthy Hunknown. rewrite Hanswer, Htruthy.
  rewrite filter_none; [reflexivity |].
  intros c Hc. destruct (corpus_source_field w env c Hc) as (source & Hs & Hf).
  rewrite Hf. destruct (strict_eq _ _) eqn:E; [| reflexivity].
  apply strict_eq_str in E. elim (Hunknown source Hs E).
Qed.

(** ** A [tools/call] without [arguments] *)

(** What the five data tools answer when the request carries no
    [arguments] object (it is missing or null).  [get_raw_api_data],
    [get_class] and [get_function] read a property of it in any case and
    answer with the internal error [-32603].  [search_classes] and
    [search_functions] read it only per class of the corpus: they answer
    [-32603] when the corpus has a record, and the empty array when the
    corpus is empty. *)
Theorem tools_without_arguments
  (w : world) (env : Env) (sessionId : option string) (message id args : value)
  (name : string) :
  is_tools_call message id (JStr name) args ->
  nullish args = true ->
  let corpus := result_of w (fetchAllSources env) in
  let answer := result_of w (handleRequest toLowerCase message sessionId env) in
  (In name ["get_raw_api_data"; "get_class"; "get_function"] ->
   exists e, answer = Ok (internal_error id e)) /\
  (In name ["search_classes"; "search_functions"] ->
   (corpus <> [] -> exists e, answer = Ok (internal_error id e)) /\
   (corpus = [] -> answer = Ok (tool_result id (JStr "[]")))).
Proof.
  intros Hcall Hargs corpus answer.
  assert (Hanswer : forall tool, name = tool ->
             strict_eq (JStr tool) (JStr "list_sources") = false ->
             answer = Ok (tools_call_response toLowerCase id (JStr tool) args corpus)).
  { intros tool <- Hnot. apply tools_call_result; assumption. }
  destruct (get_prop_nullish args "source" Hargs) as (e_source & Hsource).
  split.
  - intros [<- | [<- | [<- | []]]].
    + rewrite (Hanswer _ eq_refl eq_refl). unfold tools_call_response.
      change (tool_switch toLowerCase (JStr "get_raw_api_data") args corpus)
        with (do c <- get_raw_api_data args corpus; Ok (Some c)).
      unfold get_raw_api_data, narrow_by_source. rewrite Hsource.
      eexists. reflexivity.
    + rewrite (Hanswer _ eq_refl eq_refl). unfold tools_call_response.
      change (tool_switch toLowerCase (JStr "get_class") args corpus)
        with (do c <- get_class args corpus; Ok (Some c)).
      unfold get_class.
      destruct (select_classes_nullish "name" args corpus Hargs) as (e & ->).
      eexists. reflexivity.
    + rewrite (Hanswer _ eq_refl eq_refl). unfold tools_call_response.
      change (tool_switch toLowerCase (JStr "get_function") args corpus)
        with (do c <- get_function args corpus; Ok (Some c)).
      unfold get_function.
      destruct (select_classes_nullish "className" args corpus Hargs) as (e & ->).
      eexists. reflexivity.
  - intros [<- | [<- | []]].
    + rewrite (Hanswer _ eq_refl eq_refl). unfold tools_call_response.
      change (tool_switch toLowerCase (JStr "search_classes") args corpus)
        with (do c <- search_classes toLowerCase args corpus; Ok (Some c)).
      unfold search_classes. clearbody corpus. split.
      * intro Hne. destruct corpus as [| c rest]; [now elim Hne |].
        cbn [filterR]. unfold search_classes_keep at 1. rewrite Hsource.
        eexists. reflexivity.
      * intros ->. reflexivity.
    + rewrite (Hanswer _ eq_refl eq_refl). unfold tools_call_response.
      change (tool_switch toLowerCase (JStr "search_functions") args corpus)
        with (do c <- search_functions toLowerCase args corpus; Ok (Some c)).
      unfold search_functions, search_functions_loop. clearbody corpus. split.
      * intro Hne. destruct corpus as [| c rest]; [now elim Hne |].
        cbn [flat_mapR]. unfold search_functions_skip at 1. rewrite Hsource.
        eexists. reflexivity.
      * intros ->. reflexivity.
Qed.

(** ** [search_classes] *)

Lemma name_matches_query_pure (args x : value) :
  nullish args = false -> nullish x = false ->
  truthy (field "query" args) = true ->
  string_or_absent (field "query" args) = true ->
  is_string (field "name" x) = true ->
  name_matches_query toLowerCase args x = Ok (query_matches toLowerCase args x).
Proof.
  intros Hargs Hx Htruthy Hquery Hname. unfold name_matches_query, query_matches.
  rewrite (get_prop_field x) by exact Hx. rewrite (get_prop_field args) by exact Hargs.
  rewrite Htruthy.
  destruct (field "name" x); try discriminate Hname.
  destruct (field "query" args); try discriminate Hquery; try discriminate Htruthy.
  reflexivity.
Qed.

Lemma search_classes_keep_pure (args cls : value) :
  nullish args = false -> nullish cls = false ->
  string_or_absent (field "query" args) = true ->
  class_well_formed cls = true ->
  search_classes_keep toLowerCase args cls = Ok (class_matches toLowerCase args cls).
Proof.
  intros Hargs Hcls Hquery Hwf.
  apply andb_true_iff in Hwf. destruct Hwf as [Hname Htags].
  unfold search_classes_keep, class_matches, source_matches, tag_matches.
  rewrite !(get_prop_field args) by exact Hargs.
  rewrite !(get_prop_field cls) by exact Hcls. cbn [rbind].
  destruct (truthy (field "source" args)); cbn [rbind negb orb].
  - destruct (strict_eq (field "_source" cls) (field "source" args)); cbn [negb andb];
      [| reflexivity].
    destruct (truthy (field "query" args)) eqn:Hq; cbn [rbind negb orb andb].
    + rewrite name_matches_query_pure by assumption. cbn [rbind].
      unfold query_matches at 1. rewrite Hq. cbn [negb orb].
      destruct (includes _ _) eqn:Hinc; cbn [negb];
        unfold query_matches; rewrite Hq, Hinc; cbn [negb orb andb]; [| reflexivity].
      destruct (truthy (field "tag" args)); cbn [rbind negb orb]; [| reflexivity].
      destruct (field "tags" cls) as [| | b | z | s | tags | ps]; try discriminate Htags;
        cbn [truthy negb rbind call_includes]; try reflexivity.
      destruct (existsb _ tags); reflexivity.
    + unfold query_matches. rewrite Hq. cbn [negb orb andb].
      destruct (truthy (field "tag" args)); cbn [rbind negb orb]; [| reflexivity].
      destruct (field "tags" cls) as [| | b | z | s | tags | ps]; try discriminate Htags;
        cbn [truthy negb rbind call_includes]; try reflexivity.
      destruct (existsb _ tags); reflexivity.
  - destruct (truthy (field "query" args)) eqn:Hq; cbn [rbind negb orb andb].
    + rewrite name_matches_query_pure by assumption. cbn [rbind].
      unfold query_matches at 1. rewrite Hq. cbn [negb orb].
      destruct (includes _ _) eqn:Hinc; cbn [negb];
        unfold query_matches; rewrite Hq, Hinc; cbn [negb orb andb]; [| reflexivity].
      destruct (truthy (field "tag" args)); cbn [rbind negb orb]; [| reflexivity].
      destruct (field "tags" cls) as [| | b | z | s | tags | ps]; try discriminate Htags;
        cbn [truthy negb rbind call_includes]; try reflexivity.
      destruct (existsb _ tags); reflexivity.
    + unfold query_matches. rewrite Hq. cbn [negb orb andb].
      destruct (truthy (field "tag" args)); cbn [rbind negb orb]; [| reflexivity].
      destruct (field "tags" cls) as [| | b | z | s | tags | ps]; try discriminate Htags;
        cbn [truthy negb rbind call_includes]; try reflexivity.
      destruct (existsb _ tags); reflexivity.
Qed.

(** [search_classes] over a corpus of class records ([name] a string,
    [tags] absent or an array) with a query that is a string or not
    given: the answer lists, in corpus order, the classes of the given
    source (all when none is given) whose name contains the query
    whatever the case (all when none is given) and whose tags hold
    exactly the given tag (all when none is given), each as name, tags,
    description and source. *)
Theorem search_classes_answers
  (w : world) (env : Env) (sessionId : option string) (message id args : value) :
  is_tools_call message id (JStr "search_classes") args ->
  nullish args = false ->
  string_or_absent (field "query" args) = true ->
  forallb class_well_formed (result_of w (fetchAllSources env)) = true ->
  result_of w (handleRequest toLowerCase message sessionId env) =
  Ok (tool_result id
        (JSON_stringify indent2
           (JArr (map class_line
                      (filter (class_matches toLowerCase args)
                              (result_of w (fetchAllSources env))))))).
Proof.
  intros Hcall Hargs Hquery Hwf.
  rewrite (tools_call_result toLowerCase w env sessionId message id
             (JStr "search_classes") args Hcall eq_refl).
  unfold tools_call_response.
  change (tool_switch toLowerCase (JStr "search_classes") args
            (result_of w (fetchAllSources env)))
    with (do c <- search_classes toLowerCase args (result_of w (fetchAllSources env));
          Ok (Some c)).
  unfold search_classes.
  rewrite (filterR_pure _ (class_matches toLowerCase args)).
  2:{ intros c Hc. apply search_classes_keep_pure; try assumption.
      - eapply corpus_not_nullish, Hc.
      - rewrite forallb_forall in Hwf. apply Hwf, Hc. }
  cbn [rbind]. rewrite (mapR_pure _ class_line).
  2:{ intros c Hc. apply filter_In in Hc. destruct Hc as [Hc _].
      rewrite !(get_prop_field c) by (eapply corpus_not_nullish, Hc). reflexivity. }
  reflexivity.
Qed.

(** ** The case of a query *)

Lemma filterR_ext (f g : value -> result bool) (l : list value) :
  (forall x, f x = g x) -> filterR f l = filterR g l.
Proof.
  intro H. induction l as [| x rest IH]; [reflexivity |].
  cbn [filterR]. rewrite H, IH. reflexivity.
Qed.

Lemma flat_mapR_ext {A B : Type} (f g : A -> result (list B)) (l : list A) :
  (forall x, f x = g x) -> flat_mapR f l = flat_mapR g l.
Proof.
  intro H. induction l as [| x rest IH]; [reflexivity |].
  cbn [flat_mapR]. rewrite H, IH. reflexivity.
Qed.

Lemma truthy_nonempty (q : string) : q <> EmptyString -> truthy (JStr q) = true.
Proof. intro H. cbn [truthy]. apply String.eqb_neq in H. now rewrite H. Qed.

Lemma name_matches_query_case (args args' : value) (q q' : string) (x : value) :
  get_prop args "query" = Ok (JStr q) ->
  get_prop args' "query" = Ok (JStr q') ->
  toLowerCase q = toLowerCase q' ->
  name_matches_query toLowerCase args x = name_matches_query toLowerCase args' x.
Proof.
  intros Hq Hq' H. unfold name_matches_query. rewrite Hq, Hq'.
  destruct (get_prop x "name") as [x_name | e]; [| reflexivity]. cbn [rbind].
  destruct (call_toLowerCase toLowerCase x_name) as [lname | e]; [| reflexivity].
  cbn [rbind call_toLowerCase]. rewrite H. reflexivity.
Qed.

(** The two search tools do not see the case of the query: two requests
    whose arguments differ only in their (non-empty) query strings,
    wherever the query stands among the arguments, the two strings having
    the same lower-case form, get the same answer, whatever the corpus
    holds. *)
Theorem search_ignores_query_case
  (w : world) (env : Env) (sessionId : option string) (m m' id args args' : value)
  (name q q' : string) :
  is_tools_call m id (JStr name) args ->
  is_tools_call m' id (JStr name) args' ->
  In name ["search_classes"; "search_functions"] ->
  get_prop args "query" = Ok (JStr q) ->
  get_prop args' "query" = Ok (JStr q') ->
  (forall k, k <> "query" -> get_prop args k = get_prop args' k) ->
  q <> EmptyString -> q' <> EmptyString ->
  toLowerCase q = toLowerCase q' ->
  result_of w (handleRequest toLowerCase m sessionId env) =
  result_of w (handleRequest toLowerCase m' sessionId env).
Proof.
  intros Hm Hm' Hname Ha Ha' Hother Hq Hq' Hcase.
  pose proof (truthy_nonempty q Hq) as Tq.
  pose proof (truthy_nonempty q' Hq') as Tq'.
  assert (Hsource : get_prop args "source" = get_prop args' "source")
    by (apply Hother; discriminate).
  assert (Htag : get_prop args "tag" = get_prop args' "tag")
    by (apply Hother; discriminate).
  assert (HclassName : get_prop args "className" = get_prop args' "className")
    by (apply Hother; discriminate).
  destruct Hname as [<- | [<- | []]].
  - rewrite (tools_call_result toLowerCase w env sessionId m id _ _ Hm eq_refl).
    rewrite (tools_call_result toLowerCase w env sessionId m' id _ _ Hm' eq_refl).
    f_equal. unfold tools_call_response.
    change (tool_switch toLowerCase (JStr "search_classes") ?a ?l)
      with (do c <- search_classes toLowerCase a l; Ok (Some c)).
    unfold search_classes.
    rewrite (filterR_ext (search_classes_keep toLowerCase args)
               (search_classes_keep toLowerCase args'));
      [reflexivity |].
    intro cls. unfold search_classes_keep.
    rewrite Hsource, Htag.
    rewrite (name_matches_query_case args args' q q' cls Ha Ha' Hcase).
    rewrite Ha, Ha'. cbn [rbind]. rewrite Tq, Tq'. reflexivity.
  - rewrite (tools_call_result toLowerCase w env sessionId m id _ _ Hm eq_refl).
    rewrite (tools_call_result toLowerCase w env sessionId m' id _ _ Hm' eq_refl).
    f_equal. unfold tools_call_response.
    change (tool_switch toLowerCase (JStr "search_functions") ?a ?l)
      with (do c <- search_functions toLowerCase a l; Ok (Some c)).
    unfold search_functions, search_functions_loop.
    rewrite (flat_mapR_ext
               (fun cls =>
                  do skip <- search_functions_skip args cls;
                  if skip then Ok []
                  else search_functions_in toLowerCase args cls)
               (fun cls =>
                  do skip <- search_functions_skip args' cls;
                  if skip then Ok []
                  else search_functions_in toLowerCase args' cls));
      [reflexivity |].
    intro cls.
    assert (Hskip : search_functions_skip args cls = search_functions_skip args' cls).
    { unfold search_functions_skip. rewrite Hsource, HclassName. reflexivity. }
    rewrite Hskip.
    destruct (search_functions_skip args' cls) as [[|] | e]; try reflexivity.
    cbn [rbind]. unfold search_functions_in.
    destruct (get_prop cls "functions") as [c_functions | e]; [| reflexivity].
    cbn [rbind].
    destruct (if truthy c_functions then iterate_functions c_functions else Ok [])
      as [funcs | e]; [| reflexivity].
    cbn [rbind]. apply flat_mapR_ext. intro func. unfold search_functions_step.
    rewrite (name_matches_query_case args args' q q' func Ha Ha' Hcase).
    rewrite Ha, Ha'. cbn [rbind]. rewrite Tq, Tq'. reflexivity.
Qed.

(** ** [search_functions] *)

Lemma flat_map_filter {A B : Type} (keep : A -> bool) (g : A -> B) (l : list A) :
  flat_map (fun x => if keep x then [g x] else []) l = map g (filter keep l).
Proof.
  induction l as [| x rest IH]; [reflexivity |].
  simpl. destruct (keep x); simpl; now rewrite IH.
Qed.

Lemma search_functions_step_pure (args cls func : value) :
  nullish args = false -> nullish cls = false ->
  string_or_absent (field "query" args) = true ->
  is_object func && is_string (field "name" func) = true ->
  search_functions_step toLowerCase args cls func =
  Ok (if query_matches toLowerCase args func then [function_line cls func] else []).
Proof.
  intros Hargs Hcls Hquery Hfunc. apply andb_true_iff in Hfunc.
  destruct Hfunc as [Hobj Hname].
  assert (Hnn : nullish func = false) by (destruct func; try discriminate Hobj; reflexivity).
  unfold search_functions_step.
  rewrite (get_prop_field args) by exact Hargs. cbn [rbind].
  destruct (truthy (field "query" args)) eqn:Hq; cbn [negb rbind].
  - rewrite name_matches_query_pure by assumption. cbn [rbind].
    destruct (query_matches toLowerCase args func); [| reflexivity].
    rewrite !(get_prop_field cls) by exact Hcls.
    rewrite !(get_prop_field func) by exact Hnn. reflexivity.
  - unfold query_matches. rewrite Hq. cbn [negb orb].
    rewrite !(get_prop_field cls) by exact Hcls.
    rewrite !(get_prop_field func) by exact Hnn. reflexivity.
Qed.

Lemma search_functions_in_pure (args cls : value) :
  nullish args = false -> nullish cls = false ->
  string_or_absent (field "query" args) = true ->
  functions_named cls = true ->
  search_functions_in toLowerCase args cls =
  Ok (map (function_line cls) (filter (query_matches toLowerCase args) (functions_of cls))).
Proof.
  intros Hargs Hcls Hquery Hwf. unfold search_functions_in, functions_of.
  unfold functions_named in Hwf.
  rewrite (get_prop_field cls) by exact Hcls. cbn [rbind].
  destruct (field "functions" cls) as [| | b | z | s | fs | ps]; try discriminate Hwf;
    try reflexivity.
  cbn [truthy iterate_functions rbind].
  rewrite (flat_mapR_pure _ (fun f => if query_matches toLowerCase args f
                                      then [function_line cls f] else [])).
  - rewrite flat_map_filter. reflexivity.
  - intros f Hf. apply search_functions_step_pure; try assumption.
    rewrite forallb_forall in Hwf. apply Hwf, Hf.
Qed.

Lemma search_functions_skip_pure (args cls : value) :
  nullish args = false -> nullish cls = false ->
  search_functions_skip args cls = Ok (negb (class_searched args cls)).
Proof.
  intros Hargs Hcls. unfold search_functions_skip, class_searched, source_matches.
  rewrite !(get_prop_field args) by exact Hargs.
  rewrite !(get_prop_field cls) by exact Hcls. cbn [rbind].
  destruct (truthy (field "source" args)); cbn [rbind negb orb].
  - destruct (strict_eq (field "_source" cls) (field "source" args)); cbn [negb andb];
      [| reflexivity].
    destruct (truthy (field "className" args)); cbn [rbind negb orb]; reflexivity.
  - destruct (truthy (field "className" args)); cbn [rbind negb orb andb]; reflexivity.
Qed.

Lemma search_functions_loop_pure (args : value) (rawData : list value) :
  nullish args = false ->
  (forall c, In c rawData -> nullish c = false) ->
  string_or_absent (field "query" args) = true ->
  forallb functions_named rawData = true ->
  search_functions_loop toLowerCase args rawData =
  Ok (flat_map (function_lines toLowerCase args) rawData).
Proof.
  intros Hargs Hraw Hquery Hwf. unfold search_functions_loop.
  apply flat_mapR_pure. intros cls Hcls. unfold function_lines.
  rewrite search_functions_skip_pure by auto. cbn [rbind].
  destruct (class_searched args cls); cbn [negb]; [| reflexivity].
  apply search_functions_in_pure; auto.
  rewrite forallb_forall in Hwf. apply Hwf, Hcls.
Qed.

(** [search_functions] over a corpus whose classes have no [functions]
    or an array of function records with string names, with a query that
    is a string or not given: the answer lists, class by class in corpus
    order and function by function in the class's order, the functions
    of the classes of the given source and of the given class name (all
    when not given) whose name contains the query whatever the case, each
    as class name, name, type, description and source. *)
Theorem search_functions_answers
  (w : world) (env : Env) (sessionId : option string) (message id args : value) :
  is_tools_call message id (JStr "search_functions") args ->
  nullish args = false ->
  string_or_absent (field "query" args) = true ->
  forallb functions_named (result_of w (fetchAllSources env)) = true ->
  result_of w (handleRequest toLowerCase message sessionId env) =
  Ok (tool_result id
        (JSON_stringify indent2
           (JArr (flat_map (function_lines toLowerCase args)
                           (result_of w (fetchAllSources env)))))).
Proof.
  intros Hcall Hargs Hquery Hwf.
  rewrite (tools_call_result toLowerCase w env sessionId message id
             (JStr "search_functions") args Hcall eq_refl).
  unfold tools_call_response.
  change (tool_switch toLowerCase (JStr "search_functions") args
            (result_of w (fetchAllSources env)))
    with (do c <- search_functions toLowerCase args (result_of w (fetchAllSources env));
          Ok (Some c)).
  unfold search_functions.
  rewrite search_functions_loop_pure;
    [reflexivity | exact Hargs | intros c Hc; eapply corpus_not_nullish, Hc
     | exact Hquery | exact Hwf].
Qed.

Lemma functions_named_well_formed (cls : value) :
  functions_named cls = true -> functions_well_formed cls = true.
Proof.
  unfold functions_named, functions_well_formed.
  destruct (field "functions" cls); try (intro H; exact H).
  intro H. rewrite forallb_forall in *. intros f Hf. specialize (H f Hf).
  apply andb_true_iff in H. apply H.
Qed.

(** [get_function] and [search_functions] agree: over the same corpus
    (classes with no [functions] or an array of function records with
    string names) and with the same arguments (no query), every function
    that [get_function] finds in a class it selects is also in the list
    of [search_functions], under the same class and source. *)
Theorem found_functions_are_listed (args : value) (rawData : list value) :
  nullish args = false ->
  truthy (field "query" args) = false ->
  string_or_absent (field "query" args) = true ->
  (forall c, In c rawData -> nullish c = false) ->
  forallb functions_named rawData = true ->
  exists targetClasses found listed,
    select_classes "className" args rawData = Ok targetClasses /\
    foundFunctions args targetClasses = Ok found /\
    search_functions_loop toLowerCase args rawData = Ok listed /\
    forall cls f,
      In cls targetClasses ->
      function_named (field "functionName" args) cls = Some f ->
      In (annotated cls f) found /\ In (function_line cls f) listed.
Proof.
  intros Hargs Hnoquery Hquery Hraw Hwf.
  exists (filter (selected "className" args) rawData).
  exists (flat_map (matches_in (field "functionName" args))
                   (filter (selected "className" args) rawData)).
  exists (flat_map (function_lines toLowerCase args) rawData).
  split; [apply select_classes_pure; assumption |]. split.
  { apply flat_mapR_pure. intros cls Hcls. apply filter_In in Hcls.
    destruct Hcls as [Hcls _]. apply found_in_pure; auto.
    apply functions_named_well_formed. rewrite forallb_forall in Hwf. apply Hwf, Hcls. }
  split; [apply search_functions_loop_pure; assumption |].
  intros cls f Hcls Hf. split.
  - apply in_flat_map. exists cls. split; [exact Hcls |].
    unfold matches_in. rewrite Hf. left. reflexivity.
  - apply filter_In in Hcls. destruct Hcls as [Hcls Hsel].
    apply in_flat_map. exists cls. split; [exact Hcls |].
    unfold function_lines, class_searched, source_matches.
    unfold selected in Hsel. apply andb_true_iff in Hsel. destruct Hsel as [Hname Hsource].
    rewrite Hsource, Hname, orb_true_r. cbn [andb].
    apply in_map. apply filter_In. unfold function_named in Hf.
    apply find_some in Hf. destruct Hf as [Hin _]. split; [exact Hin |].
    unfold query_matches. rewrite Hnoquery. reflexivity.
Qed.

(** ** Batches *)

Lemma non_null_in (messages : list value) (msg : value) :
  non_null messages = true -> In msg messages -> nullish msg = false.
Proof.
  unfold non_null. intros H Hin. rewrite forallb_forall in H.
  specialize (H msg Hin). now apply negb_true_iff in H.
Qed.

Lemma all_handled_in_order
  (w : world) (env : Env) (sessionId : option string) (msgs : list value) :
  (forall m, In m msgs -> nullish m = false) ->
  forall n, exists responses,
    returned (run w n (all_handled toLowerCase sessionId env msgs)) = Ok responses /\
    Forall2 (fun m r => is_envelope_for (field "id" m) r) msgs responses.
Proof.
  induction msgs as [| msg rest IH]; intros Hmsgs n.
  - exists []. split; [reflexivity | constructor].
  - cbn [all_handled]. rewrite run_bind. cbv zeta. cbn [returned].
    destruct (handleRequest_envelope w n env sessionId msg (Hmsgs msg (or_introl eq_refl)))
      as (response & Hresponse & Henv).
    rewrite run_bind. cbv zeta. cbn [returned run].
    destruct (IH (fun m Hm => Hmsgs m (or_intror Hm))
                 (drawn (run w n (handleRequest toLowerCase msg sessionId env))))
      as (responses & Hresponses & Hall).
    rewrite Hresponse, Hresponses. cbn [rbind].
    exists (response :: responses). split; [reflexivity |]. constructor; assumption.
Qed.

Lemma sse_try_in_order
  (w : world) (env : Env) (sessionId : option string) (msgs : list value) :
  (forall m, In m msgs -> nullish m = false) ->
  forall written n, exists responses,
    returned (run w n (sse_try toLowerCase sessionId env msgs written)) =
    ((written ++ map sse_frame responses)%list, Ok tt) /\
    Forall2 (fun m r => is_envelope_for (field "id" m) r) (with_id msgs) responses.
Proof.
  induction msgs as [| msg rest IH]; intros Hmsgs written n.
  - exists []. cbn [map]. rewrite app_nil_r. split; [reflexivity | constructor].
  - cbn [sse_try]. unfold with_id. cbn [filter]. fold (with_id rest).
    rewrite (has_id_pure msg) by (apply Hmsgs; left; reflexivity).
    destruct (strict_eq (field "id" msg) JUndef) eqn:Eid; cbn [negb].
    + apply (IH (fun m Hm => Hmsgs m (or_intror Hm))).
    + rewrite run_bind. cbv zeta. cbn [returned].
      destruct (handleRequest_envelope w n env sessionId msg (Hmsgs msg (or_introl eq_refl)))
        as (response & Hresponse & Henv).
      rewrite Hresponse.
      destruct (IH (fun m Hm => Hmsgs m (or_intror Hm))
                   (written ++ [sse_frame response])%list
                   (drawn (run w n (handleRequest toLowerCase msg sessionId env))))
        as (responses & Hrun & Hall).
      exists (response :: responses). split.
      * rewrite Hrun, <- app_assoc. reflexivity.
      * constructor; assumption.
Qed.

(** A body without null messages that holds a request, answered as one
    JSON body: there is one envelope per message with a defined [id], in
    the order of the messages, each under its message's [id]; a single
    envelope is sent bare, two or more as an array. *)
Theorem buffered_answers_in_order
  (w : world) (env : Env) (request : Request) (body : value) :
  json request = Ok body ->
  non_null (messages_of body) = true ->
  existsb request_like (messages_of body) = true ->
  includes "text/event-stream" (accept_of request) = false ->
  exists responses,
    result_of w (handlePost toLowerCase request env) =
    Ok {| body := body_of (JSON_stringify compact
                             (match responses with
                              | [only] => only
                              | _ => JArr responses
                              end));
          status := 200;
          headers := json_headers request |} /\
    Forall2 (fun m r => is_envelope_for (field "id" m) r)
            (with_id (messages_of body)) responses.
Proof.
  intros Hjson Hmsgs Hrequest Haccept.
  unfold result_of, handlePost. rewrite Hjson. fold (messages_of body).
  rewrite (someR_pure is_request request_like)
    by (intros msg Hmsg; eapply is_request_pure, non_null_in; eassumption).
  rewrite Hrequest, Haccept.
  rewrite (filterR_pure has_id (fun msg => negb (strict_eq (field "id" msg) JUndef)))
    by (intros msg Hmsg; eapply has_id_pure, non_null_in; eassumption).
  fold (with_id (messages_of body)).
  rewrite run_bind. cbv zeta. cbn [returned].
  destruct (all_handled_in_order w env (Mcp_Session_Id request) (with_id (messages_of body)))
    with (n := 0) as (responses & Hrun & Hall).
  { intros msg Hmsg. apply filter_In in Hmsg. eapply non_null_in; [eassumption | apply Hmsg]. }
  rewrite Hrun. exists responses. split; [reflexivity | exact Hall].
Qed.

(** The same body answered as an event stream: one frame per message
    with a defined [id], in the order of the messages, each holding the
    envelope under its message's [id]; no frame for a notification. *)
Theorem streamed_answers_in_order
  (w : world) (env : Env) (request : Request) (body : value) :
  json request = Ok body ->
  non_null (messages_of body) = true ->
  existsb request_like (messages_of body) = true ->
  includes "text/event-stream" (accept_of request) = true ->
  exists responses,
    result_of w (handlePost toLowerCase request env) =
    Ok {| body := FrameStream (map sse_frame responses);
          status := 200;
          headers := event_stream_headers request |} /\
    Forall2 (fun m r => is_envelope_for (field "id" m) r)
            (with_id (messages_of body)) responses.
Proof.
  intros Hjson Hmsgs Hrequest Haccept.
  unfold result_of, handlePost. rewrite Hjson. fold (messages_of body).
  rewrite (someR_pure is_request request_like)
    by (intros msg Hmsg; eapply is_request_pure, non_null_in; eassumption).
  rewrite Hrequest, Haccept.
  rewrite run_bind. cbv zeta. cbn [returned run]. unfold handleSSE.
  rewrite run_bind. cbv zeta. cbn [returned run].
  destruct (sse_try_in_order w env (Mcp_Session_Id request) (messages_of body))
    with (written := @nil string) (n := 0) as (responses & Hrun & Hall).
  { intros msg Hmsg. eapply non_null_in; eassumption. }
  rewrite Hrun. cbn [fst snd app]. exists responses. split; [reflexivity | exact Hall].
Qed.

(** ** A null message after a request *)

Lemma someR_found (before rest : list value) :
  (forall m, In m before -> nullish m = false) ->
  existsb request_like before = true ->
  someR is_request (before ++ rest) = Ok true.
Proof.
  induction before as [| msg before' IH]; intros Hnn Hex; [discriminate Hex |].
  cbn [app someR]. rewrite is_request_pure by (apply Hnn; left; reflexivity).
  cbn [rbind]. cbn [existsb] in Hex.
  destruct (request_like msg); [reflexivity |].
  apply IH; [intros m Hm; apply Hnn; right; exact Hm | exact Hex].
Qed.

Lemma filterR_has_id_null (before after : list value) :
  (forall m, In m before -> nullish m = false) ->
  filterR has_id (before ++ JNull :: after) =
  Throw (TypeError "Cannot read properties of null (reading 'id')").
Proof.
  induction before as [| msg before' IH]; intro Hnn; [reflexivity |].
  cbn [app filterR]. rewrite has_id_pure by (apply Hnn; left; reflexivity).
  cbn [rbind]. rewrite IH by (intros m Hm; apply Hnn; right; exact Hm). reflexivity.
Qed.

Lemma sse_try_null
  (w : world) (env : Env) (sessionId : option string) (before after : list value) :
  (forall m, In m before -> nullish m = false) ->
  forall written n, exists responses,
    returned (run w n (sse_try toLowerCase sessionId env (before ++ JNull :: after) written)) =
    ((written ++ map sse_frame responses)%list,
     Throw (TypeError "Cannot read properties of null (reading 'id')")) /\
    Forall2 (fun m r => is_envelope_for (field "id" m) r) (with_id before) responses.
Proof.
  induction before as [| msg rest IH]; intros Hmsgs written n.
  - exists []. cbn [map app]. rewrite app_nil_r. split; [reflexivity | constructor].
  - cbn [app sse_try]. unfold with_id. cbn [filter]. fold (with_id rest).
    rewrite (has_id_pure msg) by (apply Hmsgs; left; reflexivity).
    destruct (strict_eq (field "id" msg) JUndef) eqn:Eid; cbn [negb].
    + apply (IH (fun m Hm => Hmsgs m (or_intror Hm))).
    + rewrite run_bind. cbv zeta. cbn [returned].
      destruct (handleRequest_envelope w n env sessionId msg (Hmsgs msg (or_introl eq_refl)))
        as (response & Hresponse & Henv).
      rewrite Hresponse.
      destruct (IH (fun m Hm => Hmsgs m (or_intror Hm))
                   (written ++ [sse_frame response])%list
                   (drawn (run w n (handleRequest toLowerCase msg sessionId env))))
        as (responses & Hrun & Hall).
      exists (response :: responses). split.
      * rewrite Hrun, <- app_assoc. reflexivity.
      * constructor; assumption.
Qed.

(** A batch in which a null follows a request (the messages before the
    null are not null and one of them is a request).  Streamed, the
    requests before the null are answered in order, then the writer's
    [TypeError] becomes one last frame, an internal error [-32603]
    without [id], and the messages after the null get no answer.
    Buffered, the same body makes [handlePost] throw: nothing is
    answered. *)
Theorem null_after_a_request
  (w : world) (env : Env) (request : Request) (body : value)
  (before after : list value) :
  json request = Ok body ->
  messages_of body = (before ++ JNull :: after)%list ->
  non_null before = true ->
  existsb request_like before = true ->
  if includes "text/event-stream" (accept_of request) then
    exists responses,
      result_of w (handlePost toLowerCase request env) =
      Ok {| body := FrameStream
                      (map sse_frame responses ++
                       [error_frame
                          (TypeError "Cannot read properties of null (reading 'id')")]);
            status := 200;
            headers := event_stream_headers request |} /\
      Forall2 (fun m r => is_envelope_for (field "id" m) r) (with_id before) responses
  else
    result_of w (handlePost toLowerCase request env) =
    Throw (TypeError "Cannot read properties of null (reading 'id')").
Proof.
  intros Hjson Hmessages Hbefore Hrequest.
  assert (Hnn : forall m, In m before -> nullish m = false).
  { intros m Hm. eapply non_null_in; eassumption. }
  unfold result_of, handlePost. rewrite Hjson. fold (messages_of body).
  rewrite Hmessages, (someR_found before (JNull :: after) Hnn Hrequest).
  destruct (includes "text/event-stream" (accept_of request)).
  - rewrite run_bind. cbv zeta. cbn [returned run]. unfold handleSSE.
    rewrite run_bind. cbv zeta. cbn [returned run].
    destruct (sse_try_null w env (Mcp_Session_Id request) before after Hnn [] 0)
      as (responses & Hrun & Hall).
    rewrite Hrun. cbn [fst snd app]. exists responses. split; [reflexivity | exact Hall].
  - rewrite (filterR_has_id_null before after Hnn). reflexivity.
Qed.

(** ** The catalogue and the switch *)

(** Every tool that [tools/list] advertises is dispatched: a
    [tools/call] of a catalogued tool is answered with a result or, when
    its handler throws, with the internal error [-32603], never with
    [Unknown tool]. *)
Theorem catalogued_tools_are_dispatched
  (w : world) (env : Env) (sessionId : option string) (message id args : value)
  (name : string) :
  is_tools_call message id (JStr name) args ->
  In name (map tool_name tools) ->
  (exists content,
      result_of w (handleRequest toLowerCase message sessionId env) =
      Ok (result_envelope id (JObj [("content", content)]))) \/
  (exists e,
      result_of w (handleRequest toLowerCase message sessionId env) =
      Ok (internal_error id e)).
Proof.
  intros Hcall Hname.
  assert (Hswitch : forall tool, name = tool ->
             strict_eq (JStr tool) (JStr "list_sources") = false ->
             forall r : result value,
               tool_switch toLowerCase (JStr tool) args (result_of w (fetchAllSources env)) =
               (do c <- r; Ok (Some c)) ->
               (exists content,
                   result_of w (handleRequest toLowerCase message sessionId env) =
                   Ok (result_envelope id (JObj [("content", content)]))) \/
               (exists e,
                   result_of w (handleRequest toLowerCase message sessionId env) =
                   Ok (internal_error id e))).
  { intros tool <- Hnot r Hr.
    rewrite (tools_call_result toLowerCase w env sessionId message id (JStr name) args
               Hcall Hnot).
    unfold tools_call_response. rewrite Hr.
    destruct r as [c | e]; [left | right]; eexists; reflexivity. }
  simpl in Hname.
  destruct Hname as [<- | [<- | [<- | [<- | [<- | [<- | []]]]]]].
  - left. destruct Hcall as (Hid & Hmethod & params & Hparams & Hname & Hargs).
    unfold result_of, handleRequest. rewrite Hid, Hmethod, Hparams. cbn [rbind].
    rewrite Hname, Hargs. eexists. reflexivity.
  - eapply (Hswitch _ eq_refl eq_refl). reflexivity.
  - eapply (Hswitch _ eq_refl eq_refl). reflexivity.
  - eapply (Hswitch _ eq_refl eq_refl). reflexivity.
  - eapply (Hswitch _ eq_refl eq_refl). reflexivity.
  - eapply (Hswitch _ eq_refl eq_refl). reflexivity.
Qed.

End WorkerProperties.

(** * Further properties of the aggregator *)

Lemma keys_obj_set (props : list (string * value)) (k : string) (v : value) :
  (In k (keys props) /\ keys (obj_set props k v) = keys props) \/
  (~ In k (keys props) /\ keys (obj_set props k v) = (keys props ++ [k])%list).
Proof.
  unfold keys. induction props as [| [k' v'] rest IH]; cbn [obj_set map fst app In].
  - right. split; [tauto | reflexivity].
  - destruct (String.eqb k k') eqn:E; cbn [map fst].
    + apply String.eqb_eq in E. subst k'. left. split; [left; reflexivity | reflexivity].
    + apply String.eqb_neq in E. destruct IH as [[Hin Hk] | [Hnin Hk]].
      * left. split; [right; exact Hin |]. now rewrite Hk.
      * right. split.
        -- intros [H | H]; [now elim E | now elim Hnin].
        -- now rewrite Hk.
Qed.

Lemma NoDup_keys_obj_set (props : list (string * value)) (k : string) (v : value) :
  NoDup (keys props) -> NoDup (keys (obj_set props k v)).
Proof.
  intro H. destruct (keys_obj_set props k v) as [[_ ->] | [Hnin ->]]; [exact H |].
  apply NoDup_app; [exact H | constructor; [intros [] | constructor] |].
  intros x Hx [<- | []]. exact (Hnin Hx).
Qed.

Lemma keys_obj_set_prefix (props : list (string * value)) (k : string) (v : value) :
  exists extra, keys (obj_set props k v) = (keys props ++ extra)%list.
Proof.
  destruct (keys_obj_set props k v) as [[_ ->] | [_ ->]].
  - exists []. now rewrite app_nil_r.
  - exists [k]. reflexivity.
Qed.

(** Stamping a record touches nothing but [_source] and [_sourceUrl]:
    every other property keeps its value, the properties keep their
    places (the stamps go last when they are new, and take the place of
    a property of that name otherwise), and no property name comes to
    occur twice. *)
Theorem stamping_keeps_the_record
  (source_name : string) (sourceUrl : value) (props : list (string * value)) :
  exists stamped,
    stamp source_name sourceUrl (JObj props) = JObj stamped /\
    (forall k, String.eqb k "_source" = false -> String.eqb k "_sourceUrl" = false ->
               lookup k stamped = lookup k props) /\
    (exists extra, keys stamped = (keys props ++ extra)%list) /\
    (NoDup (keys props) -> NoDup (keys stamped)).
Proof.
  eexists. split; [reflexivity |]. cbn [spread]. split; [| split].
  - intros k H1 H2. rewrite lookup_obj_set_other by exact H2.
    apply lookup_obj_set_other. exact H1.
  - destruct (keys_obj_set_prefix props "_source" (JStr source_name)) as (e1 & H1).
    destruct (keys_obj_set_prefix (obj_set props "_source" (JStr source_name))
                "_sourceUrl" sourceUrl) as (e2 & H2).
    exists (e1 ++ e2)%list. rewrite H2, H1, app_assoc. reflexivity.
  - intro H. apply NoDup_keys_obj_set, NoDup_keys_obj_set, H.
Qed.

(** ** The URL that is fetched *)

Lemma endsWith_slash_append (b : string) : endsWith_slash (b ++ "/") = true.
Proof.
  induction b as [| c b IH]; [reflexivity |].
  simpl. destruct (b ++ "/") eqn:E; [destruct b; discriminate E | exact IH].
Qed.

Lemma slice_0_m1_append (b : string) : slice_0_m1 (b ++ "/") = b.
Proof.
  induction b as [| c b IH]; [reflexivity |].
  simpl. destruct (b ++ "/") eqn:E; [destruct b; discriminate E |].
  now rewrite IH.
Qed.

Lemma nonempty_some (s : string) : s <> EmptyString -> nonempty (Some s) = Some s.
Proof. intro H. unfold nonempty. apply String.eqb_neq in H. now rewrite H. Qed.

(** Which URL the aggregator fetches for a source without a snapshot.
    A non-empty [raw] is fetched as it is, whatever [url] says.  Without
    it, a documentation [url] is fetched at [/raw.json] below it, and one
    trailing slash makes no difference: [b] and [b/] give the same
    address. *)
Theorem rawUrl_resolution (source : DocSource.t) (b : string) :
  b <> EmptyString ->
  (DocSource.raw source = Some b -> resolve_rawUrl source = Some b) /\
  (nonempty (DocSource.raw source) = None ->
   endsWith_slash b = false ->
   (DocSource.url source = Some b -> resolve_rawUrl source = Some (b ++ "/raw.json")) /\
   (DocSource.url source = Some (b ++ "/") ->
    resolve_rawUrl source = Some (b ++ "/raw.json"))).
Proof.
  intro Hb. unfold resolve_rawUrl. split.
  - intros ->. rewrite nonempty_some by exact Hb. reflexivity.
  - intros -> Hslash. split; intros ->.
    + rewrite nonempty_some by exact Hb. rewrite Hslash. reflexivity.
    + rewrite nonempty_some by (destruct b; discriminate).
      rewrite endsWith_slash_append, slice_0_m1_append. reflexivity.
Qed.

(** A source with no snapshot and no usable [raw] or [url] (each
    missing or empty) is passed over in silence: its iteration issues no
    request, logs nothing and leaves the array as it was. *)
Theorem unlocated_source_is_passed_over
  (w : world) (n : nat) (source : DocSource.t) (allData : list value) :
  DocSource._embeddedData source = None ->
  nonempty (DocSource.raw source) = None ->
  nonempty (DocSource.url source) = None ->
  run w n (try_source source allData) =
  {| returned := (allData, Ok tt); events := []; drawn := n |}.
Proof.
  intros Hdata Hraw Hurl. unfold try_source, resolve_rawUrl.
  rewrite Hdata, Hraw, Hurl. reflexivity.
Qed.

(** * The text that [JSON.stringify] writes *)












(** * Properties of the deployment command *)

(** ** Splitting *)

Lemma split_without (c : ascii) (s : string) :
  contains_char c s = false -> split c s = [s].
Proof.
  induction s as [| x s IH]; [reflexivity |].
  cbn [contains_char split]. intro H. apply orb_false_iff in H. destruct H as [Hx Hs].
  rewrite Ascii.eqb_sym, Hx, (IH Hs). reflexivity.
Qed.

Lemma split_at (c : ascii) (a b : string) :
  contains_char c a = false ->
  split c (a ++ String c b) = a :: split c b.
Proof.
  induction a as [| x a IH]; cbn [contains_char append split].
  - intros _. rewrite Ascii.eqb_refl. reflexivity.
  - intro H. apply orb_false_iff in H. destruct H as [Hx Ha].
    rewrite Ascii.eqb_sym, Hx, (IH Ha). reflexivity.
Qed.

(** [resolveGitHubUrl] maps [owner/name] to the raw data of the GitHub
    Pages site of the repository; an identifier without a slash is taken
    for the owner and the repository part of the address is the text
    [undefined]. *)
Lemma resolveGitHubUrl_pages (owner name : string) :
  contains_char "/" owner = false ->
  contains_char "/" name = false ->
  resolveGitHubUrl (owner ++ "/" ++ name) =
  "https://" ++ owner ++ ".github.io/" ++ name ++ "/raw.json".
Proof.
  intros Howner Hname. unfold resolveGitHubUrl.
  change (owner ++ "/" ++ name) with (owner ++ String "/" name).
  rewrite (split_at "/" owner name Howner), (split_without "/" name Hname).
  reflexivity.
Qed.

Lemma strip_www_www (rest : string) : strip_www ("www." ++ rest) = rest.
Proof. unfold strip_www. destruct rest; reflexivity. Qed.

(** [resolveGitHubUrl] maps [owner/name] to the raw data of the GitHub
    Pages site of the repository; an identifier without a slash is taken
    for the owner and the repository part of the address is the text
    [undefined]. *)
Theorem resolveGitHubUrl_is_the_pages_address (owner name : string) :
  contains_char "/" owner = false ->
  contains_char "/" name = false ->
  resolveGitHubUrl (owner ++ "/" ++ name) =
  "https://" ++ owner ++ ".github.io/" ++ name ++ "/raw.json" /\
  resolveGitHubUrl owner =
  "https://" ++ owner ++ ".github.io/undefined/raw.json".
Proof.
  intros Howner Hname. split.
  - apply resolveGitHubUrl_pages; assumption.
  - unfold resolveGitHubUrl. rewrite (split_without "/" owner Howner). reflexivity.
Qed.

Section DeployProperties.

Variable parse_URL : string -> option (string * string).
Variable loadConfigFile : string -> option McpConfig.
Variable extractFromGitHub : string -> option (list value).

Lemma lower_first_label (label rest : string) :
  contains_char "." label = false ->
  interpolate (nth_error (split "." (label ++ "." ++ rest)) 0) = label.
Proof.
  intro H. change (label ++ "." ++ rest) with (label ++ String "." rest).
  rewrite (split_at "." label rest H). reflexivity.
Qed.

(** The name [extractNameFromUrl] gives a source.  A text that is no URL
    is its own name.  A host outside GitHub Pages is named by its first
    label, a leading [www.] apart.  A GitHub Pages site is named by the
    first segment of its path. *)
Theorem extractNameFromUrl_names (url : string) :
  (parse_URL url = None -> extractNameFromUrl parse_URL url = url) /\
  (forall label rest pathname,
      contains_char "." label = false ->
      String.prefix "www." (label ++ "." ++ rest) = false ->
      includes "github.io" (label ++ "." ++ rest) = false ->
      (parse_URL url = Some (label ++ "." ++ rest, pathname) \/
       parse_URL url = Some ("www." ++ label ++ "." ++ rest, pathname)) ->
      extractNameFromUrl parse_URL url = label) /\
  (forall hostname project pathname,
      includes "github.io" (strip_www hostname) = true ->
      contains_char "/" project = false ->
      project <> EmptyString ->
      (pathname = "/" ++ project \/ exists more, pathname = "/" ++ project ++ "/" ++ more) ->
      parse_URL url = Some (hostname, pathname) ->
      extractNameFromUrl parse_URL url = project).
Proof.
  unfold extractNameFromUrl. split; [| split].
  - intros ->. reflexivity.
  - intros label rest pathname Hlabel Hwww Hgithub [-> | ->].
    + unfold strip_www. rewrite Hwww, Hgithub. apply lower_first_label, Hlabel.
    + rewrite strip_www_www, Hgithub. apply lower_first_label, Hlabel.
  - intros hostname project pathname Hgithub Hproject Hne Hpath ->.
    rewrite Hgithub.
    assert (Hkeep : is_nonempty project = true).
    { unfold is_nonempty. apply String.eqb_neq in Hne. now rewrite Hne. }
    destruct Hpath as [-> | (more & ->)].
    + change ("/" ++ project) with (EmptyString ++ String "/" project).
      rewrite (split_at "/" EmptyString project eq_refl), (split_without "/" project Hproject).
      cbn [filter is_nonempty String.eqb negb]. fold (is_nonempty project).
      rewrite Hkeep. reflexivity.
    + change ("/" ++ project ++ "/" ++ more)
        with (EmptyString ++ String "/" (project ++ String "/" more)).
      rewrite (split_at "/" EmptyString _ eq_refl), (split_at "/" project more Hproject).
      cbn [filter is_nonempty String.eqb negb]. fold (is_nonempty project).
      rewrite Hkeep. reflexivity.
Qed.





End DeployProperties.

(** ** The generated [wrangler.toml] *)

Lemma substitution_app (matched before after plain rest : string) :
  contains_char "$" plain = false ->
  substitution matched before after (plain ++ rest) =
  plain ++ substitution matched before after rest.
Proof.
  induction plain as [| c plain IH]; [reflexivity |].
  cbn [contains_char]. intro H. apply orb_false_iff in H. destruct H as [Hc Hplain].
  cbn [append substitution]. rewrite Ascii.eqb_sym, Hc, (IH Hplain). reflexivity.
Qed.

Lemma substitution_plain (matched before after plain : string) :
  contains_char "$" plain = false ->
  substitution matched before after plain = plain.
Proof.
  intro H. rewrite <- (append_empty_r plain) at 1.
  rewrite (substitution_app _ _ _ _ _ H). apply append_empty_r.
Qed.

Lemma escape_apostrophes_app (a b : string) :
  escape_apostrophes (a ++ b) = escape_apostrophes a ++ escape_apostrophes b.
Proof.
  induction a as [| c a IH]; [reflexivity |].
  cbn [append escape_apostrophes]. rewrite IH. destruct (Ascii.eqb c "'"); reflexivity.
Qed.

Lemma escape_apostrophes_dollar_free (s : string) :
  contains_char "$" s = false -> contains_char "$" (escape_apostrophes s) = false.
Proof.
  induction s as [| c s IH]; [reflexivity |].
  cbn [contains_char escape_apostrophes]. intro H.
  apply orb_false_iff in H. destruct H as [Hc Hs].
  destruct (Ascii.eqb c "'"); cbn [contains_char]; rewrite Hc, (IH Hs); reflexivity.
Qed.

Lemma placeholder_found :
  find_first "%%DOC_SOURCES%%" WRANGLER_TOML = Some (wrangler_head, "'").
Proof. vm_compute. reflexivity. Qed.

Lemma wranglerConfig_of_substitutes (json : string) :
  wranglerConfig_of json =
  wrangler_head
  ++ substitution "%%DOC_SOURCES%%" wrangler_head "'" (escape_apostrophes json) ++ "'".
Proof. unfold wranglerConfig_of, replace_first. rewrite placeholder_found. reflexivity. Qed.

(** The serialized sources, when they hold no dollar sign, are written
    into [wrangler.toml] as the value of [DOC_SOURCES], between the two
    apostrophes of the template, each apostrophe of theirs behind a
    backslash. *)
Theorem sources_are_written_between_the_quotes (json : string) :
  contains_char "$" json = false ->
  wranglerConfig_of json = wrangler_head ++ escape_apostrophes json ++ "'".
Proof.
  intro H. rewrite wranglerConfig_of_substitutes.
  rewrite (substitution_plain _ _ _ _ (escape_apostrophes_dollar_free json H)).
  reflexivity.
Qed.

(** The serialized sources are the replacement text of
    [String.prototype.replace]: a doubled dollar sign in them reaches
    [wrangler.toml] as a single one. *)
Theorem doubled_dollar_is_halved (a b : string) :
  contains_char "$" a = false ->
  contains_char "$" b = false ->
  wranglerConfig_of (a ++ "$$" ++ b) =
  wrangler_head ++ escape_apostrophes a ++ "$" ++ escape_apostrophes b ++ "'".
Proof.
  intros Ha Hb. rewrite wranglerConfig_of_substitutes.
  rewrite (escape_apostrophes_app a ("$$" ++ b)).
  rewrite (substitution_app _ _ _ _ _ (escape_apostrophes_dollar_free a Ha)).
  change (escape_apostrophes ("$$" ++ b)) with ("$$" ++ escape_apostrophes b).
  change (substitution "%%DOC_SOURCES%%" wrangler_head "'" ("$$" ++ escape_apostrophes b))
    with ("$" ++ substitution "%%DOC_SOURCES%%" wrangler_head "'" (escape_apostrophes b)).
  rewrite (substitution_plain _ _ _ _ (escape_apostrophes_dollar_free b Hb)).
  rewrite <- !append_assoc. reflexivity.
Qed.

(** * Properties of the single-source worker *)

Lemma findR_first {A : Type} (f : value -> result bool)
  (before after : list value) (x : value) :
  Forall (fun c => f c = Ok false) before ->
  f x = Ok true ->
  findR f (before ++ x :: after)%list = Ok x.
Proof.
  intros Hbefore Hx. induction Hbefore as [| c before Hc _ IH]; cbn [app findR rbind].
  - rewrite Hx. reflexivity.
  - rewrite Hc. exact IH.
Qed.

Section SingleSourceProperties.

Variable toLowerCase : string -> string.
Variable raw_URL : string -> option string.

Lemma single_tools_call (message id name args : value) (sessionId : option string)
  (env : SingleSource.Env) (apiUrl : string) :
  is_tools_call message id name args ->
  raw_URL (SingleSource.DOCS_URL env) = Some apiUrl ->
  SingleSource.handleRequest toLowerCase raw_URL message sessionId env =
  await_fetch apiUrl (fun response =>
    match response with
    | FetchRejected m => Ret (Ok (internal_error id (TypeError m)))
    | FetchResponse _ (BodyInvalid m) => Ret (Ok (internal_error id (SyntaxError m)))
    | FetchResponse _ (BodyJson rawData) =>
        Ret (Ok (SingleSource.tools_call_response toLowerCase id name args rawData))
    end).
Proof.
  intros (Hid & Hmethod & params & Hparams & Hname & Hargs) Hurl.
  unfold SingleSource.handleRequest.
  rewrite Hid, Hmethod, Hparams. cbn [rbind]. rewrite Hname, Hargs. cbn [rbind].
  change (strict_eq (JStr "tools/call") (JStr "initialize")) with false.
  change (strict_eq (JStr "tools/call") (JStr "tools/list")) with false.
  change (strict_eq (JStr "tools/call") (JStr "tools/call")) with true.
  cbn iota. rewrite Hurl. reflexivity.
Qed.

(** Every [tools/call] of the single-source worker, whatever the tool
    name, issues one request, to the [/raw] of the documentation site,
    and awaits it. *)
Theorem single_tools_call_fetches_raw
  (w : world) (n : nat) (message id name args : value) (sessionId : option string)
  (env : SingleSource.Env) (apiUrl : string) :
  is_tools_call message id name args ->
  raw_URL (SingleSource.DOCS_URL env) = Some apiUrl ->
  events (run w n (SingleSource.handleRequest toLowerCase raw_URL message sessionId env)) =
  [Issued apiUrl; Settled apiUrl].
Proof.
  intros Hcall Hurl. rewrite (single_tools_call _ _ _ _ sessionId env apiUrl Hcall Hurl).
  unfold await_fetch. cbn [run events].
  destruct (net w apiUrl) as [m | status [rawData | m]]; reflexivity.
Qed.

(** When the request to the documentation site is rejected, or its
    body is no JSON, every [tools/call] is answered with the [-32603]
    envelope carrying the message, an unknown tool included. *)
Theorem single_failed_fetch_is_internal_error
  (w : world) (n : nat) (message id name args : value) (sessionId : option string)
  (env : SingleSource.Env) (apiUrl m : string) :
  is_tools_call message id name args ->
  raw_URL (SingleSource.DOCS_URL env) = Some apiUrl ->
  (net w apiUrl = FetchRejected m \/
   exists status, net w apiUrl = FetchResponse status (BodyInvalid m)) ->
  exists e,
    e_message e = m /\
    returned (run w n (SingleSource.handleRequest toLowerCase raw_URL message sessionId env)) =
    Ok (internal_error id e).
Proof.
  intros Hcall Hurl Hnet. rewrite (single_tools_call _ _ _ _ sessionId env apiUrl Hcall Hurl).
  unfold await_fetch. cbn [run returned].
  destruct Hnet as [-> | (status & ->)].
  - exists (TypeError m). split; reflexivity.
  - exists (SyntaxError m). split; reflexivity.
Qed.

(** The status of the documentation site's answer is not looked at: two
    answers with the same JSON body give the same response, and
    [get_raw_api_data] returns that body pretty-printed, an error
    document of a 404 as well. *)
Theorem single_status_is_not_checked
  (w w' : world) (n : nat) (message id name args : value) (sessionId : option string)
  (env : SingleSource.Env) (apiUrl : string) (status status' : Z) (rawData : value) :
  is_tools_call message id name args ->
  raw_URL (SingleSource.DOCS_URL env) = Some apiUrl ->
  net w apiUrl = FetchResponse status (BodyJson rawData) ->
  net w' apiUrl = FetchResponse status' (BodyJson rawData) ->
  returned (run w n (SingleSource.handleRequest toLowerCase raw_URL message sessionId env)) =
  returned (run w' n (SingleSource.handleRequest toLowerCase raw_URL message sessionId env)) /\
  (name = JStr "get_raw_api_data" ->
   returned (run w n (SingleSource.handleRequest toLowerCase raw_URL message sessionId env)) =
   Ok (tool_result id (JSON_stringify indent2 rawData))).
Proof.
  intros Hcall Hurl Hw Hw'. rewrite (single_tools_call _ _ _ _ sessionId env apiUrl Hcall Hurl).
  unfold await_fetch. cbn [run returned]. rewrite Hw, Hw'. cbn [run returned].
  split; [reflexivity |]. intros ->. reflexivity.
Qed.

(** A body that is no array: [search_classes], [get_class] and
    [get_function] answer with the [-32603] envelope, and so does
    [search_functions] unless the body is a string. *)
Theorem single_needs_an_array (id args rawData : value) (name : string) :
  is_array rawData = false ->
  (In name ["search_classes"; "get_class"; "get_function"] \/
   (name = "search_functions" /\ is_string rawData = false)) ->
  is_internal_error id
    (SingleSource.tools_call_response toLowerCase id (JStr name) args rawData).
Proof.
  intros Harray Hname. unfold is_internal_error, SingleSource.tools_call_response.
  destruct Hname as [[<- | [<- | [<- | []]]] | [-> Hstring]];
    destruct rawData; try discriminate Harray; try discriminate Hstring;
    cbn; eexists; reflexivity.
Qed.

(** [get_class] answers with the first class of that name, whatever
    follows it. *)
Theorem single_get_class_is_first_match
  (args cls : value) (n : string) (before after : list value) :
  get_prop args "name" = Ok (JStr n) ->
  Forall (fun c => is_object c = true /\ field "name" c <> JStr n) before ->
  is_object cls = true ->
  field "name" cls = JStr n ->
  SingleSource.get_class args (JArr (before ++ cls :: after)) =
  Ok (text_content (JSON_stringify indent2 cls)).
Proof.
  intros Hargs Hbefore Hobject Hname. unfold SingleSource.get_class.
  cbn [SingleSource.array_receiver rbind].
  rewrite (findR_first (A := value) (named "name" args) before after cls).
  - cbn [rbind]. destruct cls; try discriminate Hobject. reflexivity.
  - eapply Forall_impl; [| exact Hbefore]. intros c [Hc Hother].
    unfold named. destruct c as [| | b | z | s | items | props]; try discriminate Hc.
    unfold field in Hother. cbn [get_prop] in Hother. cbn [get_prop rbind].
    rewrite Hargs. cbn [rbind].
    destruct (lookup "name" props) as [[| | b | z | s | items | props'] |]; try reflexivity.
    cbn [strict_eq]. destruct (String.eqb s n) eqn:E; [| reflexivity].
    apply String.eqb_eq in E. subst s. contradiction Hother. reflexivity.
  - unfold named. destruct cls as [| | b | z | s | items | props]; try discriminate Hobject.
    unfold field in Hname. cbn [get_prop] in Hname. cbn [get_prop rbind].
    rewrite Hargs. cbn [rbind]. rewrite Hname. cbn [strict_eq].
    rewrite String.eqb_refl. reflexivity.
Qed.

End SingleSourceProperties.

(** * The properties at concrete inputs *)

(** Three sources of which the second answers 503. *)
Lemma iterable_junk_is_not_skipped_witness :
  fetched_url beta = Some "https://beta.example/docs/raw.json" /\
  fetch_failed (net ex_world "https://beta.example/docs/raw.json") = true /\
  result_of ex_world (fetchAllSources {| DOC_SOURCES := [alpha] ++ beta :: [gamma] |}) =
  (flat_map (contributed ex_world) [alpha] ++ flat_map (contributed ex_world) [gamma])%list.
Proof.
  split; [reflexivity |]. split; [reflexivity |].
  exact (proj1 iterable_junk_is_not_skipped ex_world [alpha] [gamma] beta
           "https://beta.example/docs/raw.json" eq_refl eq_refl).
Defined.

(** [tools/call] of the unregistered tool [delete_everything]. *)
Lemma unknown_tool_is_rejected_witness :
  is_tools_call (tools_call (JNum 7) "delete_everything" (JObj []))
    (JNum 7) (JStr "delete_everything") (JObj []) /\
  (forall t, In t (map tool_name tools) -> JStr "delete_everything" <> JStr t) /\
  result_of ex_world
    (handleRequest ascii_toLowerCase (tools_call (JNum 7) "delete_everything" (JObj []))
       None two_sources) =
  Ok (error_envelope (JNum 7) (-32601) "Unknown tool: delete_everything") /\
  includes "delete_everything" "Unknown tool: delete_everything" = true.
Proof.
  assert (Hcall : is_tools_call (tools_call (JNum 7) "delete_everything" (JObj []))
                    (JNum 7) (JStr "delete_everything") (JObj [])).
  { unfold is_tools_call. repeat split. eexists. repeat split. }
  assert (Hunknown : forall t, In t (map tool_name tools) ->
                               JStr "delete_everything" <> JStr t).
  { simpl. intros t [H | [H | [H | [H | [H | [H | []]]]]]]; subst t; discriminate. }
  split; [exact Hcall |]. split; [exact Hunknown |].
  pose proof (unknown_tool_is_rejected ascii_toLowerCase ex_world two_sources None
                (tools_call (JNum 7) "delete_everything" (JObj [])) (JNum 7)
                (JStr "delete_everything") (JObj []) Hcall Hunknown) as H.
  cbn [toString] in H. destruct H as (Hanswer & Hinc & _).
  split; [exact Hanswer | exact Hinc].
Defined.

(** [get_class("Foo")] against two sources that each hold a class [Foo]. *)
Lemma get_class_answers_witness :
  is_tools_call (tools_call (JNum 1) "get_class" (JObj [("name", JStr "Foo")]))
    (JNum 1) (JStr "get_class") (JObj [("name", JStr "Foo")]) /\
  nullish (JObj [("name", JStr "Foo")]) = false /\
  exists listing,
    result_of ex_world
      (handleRequest ascii_toLowerCase
         (tools_call (JNum 1) "get_class" (JObj [("name", JStr "Foo")])) None two_sources) =
    Ok (tool_result (JNum 1)
          (JStr ("Found 2 classes named 'Foo' from different sources. Specify 'source' parameter to disambiguate."
                 ++ nl ++ nl ++ listing))) /\
    includes (quote "alpha") listing = true /\
    includes (quote "delta") listing = true.
Proof.
  assert (Hcall : is_tools_call (tools_call (JNum 1) "get_class" (JObj [("name", JStr "Foo")]))
                    (JNum 1) (JStr "get_class") (JObj [("name", JStr "Foo")])).
  { unfold is_tools_call. repeat split. eexists. repeat split. }
  split; [exact Hcall |]. split; [reflexivity |].
  destruct (get_class_answers ascii_toLowerCase ex_world two_sources None
              (tools_call (JNum 1) "get_class" (JObj [("name", JStr "Foo")]))
              (JNum 1) (JObj [("name", JStr "Foo")]) Hcall) as (_ & Hsome).
  destruct (Hsome eq_refl) as (_ & _ & Hmany).
  destruct (Hmany (le_n 2)) as (text & listing & Htext & _ & Hanswer & Hsources).
  change (Ok "Foo" = Ok text) in Htext. injection Htext as Htext.
  rewrite <- Htext in Hanswer.
  exists listing. split; [exact Hanswer |]. split.
  - destruct (Hsources (stamp "alpha" (JStr "https://alpha.example/raw.json")
                          (ex_class "Foo" [ex_function "render"])))
      as (source & _ & Hname & Hinc); [left; reflexivity |].
    change (JStr "alpha" = JStr (DocSource.name source)) in Hname.
    injection Hname as Hname. rewrite <- Hname in Hinc. exact Hinc.
  - destruct (Hsources (stamp "delta" (JStr "owner/delta")
                          (ex_class "Foo" [ex_function "render"])))
      as (source & _ & Hname & Hinc); [right; left; reflexivity |].
    change (JStr "delta" = JStr (DocSource.name source)) in Hname.
    injection Hname as Hname. rewrite <- Hname in Hinc. exact Hinc.
Defined.

(** [get_function("Foo", "render")] against two sources that each hold a
    class [Foo] with a function [render]. *)
Lemma get_function_answers_witness :
  is_tools_call
    (tools_call (JNum 2) "get_function"
       (JObj [("className", JStr "Foo"); ("functionName", JStr "render")]))
    (JNum 2) (JStr "get_function")
    (JObj [("className", JStr "Foo"); ("functionName", JStr "render")]) /\
  nullish (JObj [("className", JStr "Foo"); ("functionName", JStr "render")]) = false /\
  forallb functions_well_formed
    (filter (selected "className"
               (JObj [("className", JStr "Foo"); ("functionName", JStr "render")]))
            (result_of ex_world (fetchAllSources two_sources))) = true /\
  result_of ex_world
    (handleRequest ascii_toLowerCase
       (tools_call (JNum 2) "get_function"
          (JObj [("className", JStr "Foo"); ("functionName", JStr "render")]))
       None two_sources) =
  Ok (tool_result (JNum 2)
        (JSON_stringify indent2
           (JArr [annotated (stamp "alpha" (JStr "https://alpha.example/raw.json")
                               (ex_class "Foo" [ex_function "render"]))
                            (ex_function "render");
                  annotated (stamp "delta" (JStr "owner/delta")
                               (ex_class "Foo" [ex_function "render"]))
                            (ex_function "render")]))).
Proof.
  assert (Hcall : is_tools_call
                    (tools_call (JNum 2) "get_function"
                       (JObj [("className", JStr "Foo"); ("functionName", JStr "render")]))
                    (JNum 2) (JStr "get_function")
                    (JObj [("className", JStr "Foo"); ("functionName", JStr "render")])).
  { unfold is_tools_call. repeat split. eexists. repeat split. }
  split; [exact Hcall |]. split; [reflexivity |]. split; [reflexivity |].
  destruct (get_function_answers ascii_toLowerCase ex_world two_sources None
              (tools_call (JNum 2) "get_function"
                 (JObj [("className", JStr "Foo"); ("functionName", JStr "render")]))
              (JNum 2) (JObj [("className", JStr "Foo"); ("functionName", JStr "render")])
              Hcall) as (_ & Hsome).
  destruct (Hsome eq_refl eq_refl) as (_ & _ & _ & Hmany & _).
  exact (Hmany (le_n 2)).
Defined.

(** Two [get_raw_api_data()] calls against embedded snapshots, one with
    the network up and one without. *)
Lemma tools_are_deterministic_witness :
  field "method" (tools_call (JNum 3) "get_raw_api_data" (JObj [])) = JStr "tools/call" /\
  all_embedded snapshots_only = true /\
  result_of ex_world
    (handleRequest ascii_toLowerCase (tools_call (JNum 3) "get_raw_api_data" (JObj []))
       None snapshots_only) =
  result_of offline
    (handleRequest ascii_toLowerCase (tools_call (JNum 3) "get_raw_api_data" (JObj []))
       None snapshots_only).
Proof.
  split; [reflexivity |]. split; [reflexivity |].
  exact (proj2 (tools_are_deterministic ascii_toLowerCase ex_world offline snapshots_only None
                  (tools_call (JNum 3) "get_raw_api_data" (JObj [])) eq_refl) eq_refl).
Defined.

(** A batch of a [list_sources] request and a response object with
    [id] 7: the response object is answered too. *)
Lemma id_without_method_is_dispatched_witness :
  json (post_mcp None ex_batch) = Ok ex_batch /\
  forallb (fun msg => negb (nullish msg)) (messages_of ex_batch) = true /\
  existsb request_like (messages_of ex_batch) = true /\
  In ex_response_object (messages_of ex_batch) /\
  field "method" ex_response_object = JUndef /\
  strict_eq (field "id" ex_response_object) JUndef = false /\
  exists responses,
    result_of ex_world (handlePost ascii_toLowerCase (post_mcp None ex_batch) two_sources) =
    Ok {| body := body_of (JSON_stringify compact (JArr responses)); status := 200;
          headers := json_headers (post_mcp None ex_batch) |} /\
    In (error_envelope (JNum 7) (-32601) "Method not found") responses.
Proof.
  assert (Hin : In ex_response_object (messages_of ex_batch)) by (right; left; reflexivity).
  repeat (split; [first [reflexivity | exact Hin] |]).
  exact (id_without_method_is_dispatched ascii_toLowerCase ex_world two_sources
           (post_mcp None ex_batch) ex_batch ex_response_object
           eq_refl eq_refl eq_refl Hin eq_refl eq_refl).
Defined.

(** A response object sent as a request is answered under its id. *)
Lemma handleRequest_answers_with_envelope_witness :
  nullish ex_response_object = false /\
  exists response,
    returned (run ex_world 0
                (handleRequest ascii_toLowerCase ex_response_object None two_sources)) =
    Ok response /\
    is_envelope_for (JNum 7) response.
Proof.
  split; [reflexivity |].
  exact (handleRequest_answers_with_envelope ascii_toLowerCase ex_world 0 two_sources None
           ex_response_object eq_refl).
Defined.

(** The info document of [GET /]. *)
Lemma router_is_silent_off_post_witness :
  is_mcp_post (request_of "GET" "/" None None) = false /\
  events (run ex_world 0
            (fetch ascii_toLowerCase (request_of "GET" "/" None None) two_sources)) = [] /\
  drawn (run ex_world 0
           (fetch ascii_toLowerCase (request_of "GET" "/" None None) two_sources)) = 0.
Proof.
  split; [reflexivity |].
  exact (router_is_silent_off_post ascii_toLowerCase ex_world 0 two_sources
           (request_of "GET" "/" None None) eq_refl).
Defined.

(** [get_raw_api_data] with a source that is configured. *)
Lemma get_raw_api_data_answers_witness :
  is_tools_call (tools_call (JNum 4) "get_raw_api_data" (JObj [("source", JStr "delta")]))
    (JNum 4) (JStr "get_raw_api_data") (JObj [("source", JStr "delta")]) /\
  nullish (JObj [("source", JStr "delta")]) = false /\
  result_of ex_world
    (handleRequest ascii_toLowerCase
       (tools_call (JNum 4) "get_raw_api_data" (JObj [("source", JStr "delta")]))
       None two_sources) =
  Ok (tool_result (JNum 4)
        (JSON_stringify indent2
           (JArr [stamp "delta" (JStr "owner/delta")
                    (ex_class "Foo" [ex_function "render"])]))).
Proof.
  assert (Hcall : is_tools_call
                    (tools_call (JNum 4) "get_raw_api_data" (JObj [("source", JStr "delta")]))
                    (JNum 4) (JStr "get_raw_api_data") (JObj [("source", JStr "delta")])).
  { unfold is_tools_call. repeat split. eexists. repeat split. }
  split; [exact Hcall |]. split; [reflexivity |].
  exact (proj1 (get_raw_api_data_answers ascii_toLowerCase ex_world two_sources None
                  (tools_call (JNum 4) "get_raw_api_data" (JObj [("source", JStr "delta")]))
                  (JNum 4) (JObj [("source", JStr "delta")]) Hcall eq_refl)).
Defined.

(** [get_raw_api_data] sent without [arguments]. *)
Lemma tools_without_arguments_witness :
  is_tools_call (tools_call_bare (JNum 5) "get_raw_api_data")
    (JNum 5) (JStr "get_raw_api_data") JUndef /\
  nullish JUndef = true /\
  exists e,
    result_of ex_world
      (handleRequest ascii_toLowerCase (tools_call_bare (JNum 5) "get_raw_api_data")
         None two_sources) =
    Ok (internal_error (JNum 5) e).
Proof.
  assert (Hcall : is_tools_call (tools_call_bare (JNum 5) "get_raw_api_data")
                    (JNum 5) (JStr "get_raw_api_data") JUndef).
  { unfold is_tools_call. repeat split. eexists. repeat split. }
  split; [exact Hcall |]. split; [reflexivity |].
  exact (proj1 (tools_without_arguments ascii_toLowerCase ex_world two_sources None
                  (tools_call_bare (JNum 5) "get_raw_api_data") (JNum 5) JUndef
                  "get_raw_api_data" Hcall eq_refl) (or_introl eq_refl)).
Defined.

(** [search_classes] with the query [fo] against the two sources. *)
Lemma search_classes_answers_witness :
  is_tools_call (tools_call (JNum 6) "search_classes" (JObj [("query", JStr "fo")]))
    (JNum 6) (JStr "search_classes") (JObj [("query", JStr "fo")]) /\
  nullish (JObj [("query", JStr "fo")]) = false /\
  string_or_absent (field "query" (JObj [("query", JStr "fo")])) = true /\
  forallb class_well_formed (result_of ex_world (fetchAllSources two_sources)) = true /\
  result_of ex_world
    (handleRequest ascii_toLowerCase
       (tools_call (JNum 6) "search_classes" (JObj [("query", JStr "fo")]))
       None two_sources) =
  Ok (tool_result (JNum 6)
        (JSON_stringify indent2
           (JArr [class_line (stamp "alpha" (JStr "https://alpha.example/raw.json")
                                (ex_class "Foo" [ex_function "render"]));
                  class_line (stamp "delta" (JStr "owner/delta")
                                (ex_class "Foo" [ex_function "render"]))]))).
Proof.
  assert (Hcall : is_tools_call
                    (tools_call (JNum 6) "search_classes" (JObj [("query", JStr "fo")]))
                    (JNum 6) (JStr "search_classes") (JObj [("query", JStr "fo")])).
  { unfold is_tools_call. repeat split. eexists. repeat split. }
  split; [exact Hcall |]. repeat (split; [reflexivity |]).
  exact (search_classes_answers ascii_toLowerCase ex_world two_sources None
           (tools_call (JNum 6) "search_classes" (JObj [("query", JStr "fo")]))
           (JNum 6) (JObj [("query", JStr "fo")]) Hcall eq_refl eq_refl eq_refl).
Defined.

(** The queries [REND] and [rend], each after a class name. *)
Lemma search_ignores_query_case_witness :
  is_tools_call
    (tools_call (JNum 8) "search_functions"
       (JObj [("className", JStr "Foo"); ("query", JStr "REND")]))
    (JNum 8) (JStr "search_functions")
    (JObj [("className", JStr "Foo"); ("query", JStr "REND")]) /\
  is_tools_call
    (tools_call (JNum 8) "search_functions"
       (JObj [("className", JStr "Foo"); ("query", JStr "rend")]))
    (JNum 8) (JStr "search_functions")
    (JObj [("className", JStr "Foo"); ("query", JStr "rend")]) /\
  In "search_functions" ["search_classes"; "search_functions"] /\
  get_prop (JObj [("className", JStr "Foo"); ("query", JStr "REND")]) "query" =
  Ok (JStr "REND") /\
  get_prop (JObj [("className", JStr "Foo"); ("query", JStr "rend")]) "query" =
  Ok (JStr "rend") /\
  (forall k, k <> "query" ->
             get_prop (JObj [("className", JStr "Foo"); ("query", JStr "REND")]) k =
             get_prop (JObj [("className", JStr "Foo"); ("query", JStr "rend")]) k) /\
  "REND" <> EmptyString /\ "rend" <> EmptyString /\
  ascii_toLowerCase "REND" = ascii_toLowerCase "rend" /\
  result_of ex_world
    (handleRequest ascii_toLowerCase
       (tools_call (JNum 8) "search_functions"
          (JObj [("className", JStr "Foo"); ("query", JStr "REND")]))
       None two_sources) =
  result_of ex_world
    (handleRequest ascii_toLowerCase
       (tools_call (JNum 8) "search_functions"
          (JObj [("className", JStr "Foo"); ("query", JStr "rend")]))
       None two_sources).
Proof.
  assert (H1 : is_tools_call
                 (tools_call (JNum 8) "search_functions"
                    (JObj [("className", JStr "Foo"); ("query", JStr "REND")]))
                 (JNum 8) (JStr "search_functions")
                 (JObj [("className", JStr "Foo"); ("query", JStr "REND")])).
  { unfold is_tools_call. repeat split. eexists. repeat split. }
  assert (H2 : is_tools_call
                 (tools_call (JNum 8) "search_functions"
                    (JObj [("className", JStr "Foo"); ("query", JStr "rend")]))
                 (JNum 8) (JStr "search_functions")
                 (JObj [("className", JStr "Foo"); ("query", JStr "rend")])).
  { unfold is_tools_call. repeat split. eexists. repeat split. }
  assert (H3 : In "search_functions" ["search_classes"; "search_functions"])
    by (right; left; reflexivity).
  assert (Hother : forall k, k <> "query" ->
             get_prop (JObj [("className", JStr "Foo"); ("query", JStr "REND")]) k =
             get_prop (JObj [("className", JStr "Foo"); ("query", JStr "rend")]) k).
  { intros k Hk. cbn [get_prop lookup].
    destruct (String.eqb k "className"); [reflexivity |].
    destruct (String.eqb k "query") eqn:E; [| reflexivity].
    apply String.eqb_eq in E. contradiction. }
  assert (H4 : "REND" <> EmptyString) by discriminate.
  assert (H5 : "rend" <> EmptyString) by discriminate.
  split; [exact H1 |]. split; [exact H2 |]. split; [exact H3 |].
  split; [reflexivity |]. split; [reflexivity |]. split; [exact Hother |].
  split; [exact H4 |]. split; [exact H5 |]. split; [reflexivity |].
  exact (search_ignores_query_case ascii_toLowerCase ex_world two_sources None _ _ (JNum 8)
           _ _ "search_functions" "REND" "rend" H1 H2 H3 eq_refl eq_refl Hother H4 H5
           eq_refl).
Defined.

(** [search_functions] for the class [Foo] against the two sources. *)
Lemma search_functions_answers_witness :
  is_tools_call (tools_call (JNum 9) "search_functions" (JObj [("className", JStr "Foo")]))
    (JNum 9) (JStr "search_functions") (JObj [("className", JStr "Foo")]) /\
  nullish (JObj [("className", JStr "Foo")]) = false /\
  string_or_absent (field "query" (JObj [("className", JStr "Foo")])) = true /\
  forallb functions_named (result_of ex_world (fetchAllSources two_sources)) = true /\
  result_of ex_world
    (handleRequest ascii_toLowerCase
       (tools_call (JNum 9) "search_functions" (JObj [("className", JStr "Foo")]))
       None two_sources) =
  Ok (tool_result (JNum 9)
        (JSON_stringify indent2
           (JArr [function_line (stamp "alpha" (JStr "https://alpha.example/raw.json")
                                   (ex_class "Foo" [ex_function "render"]))
                                (ex_function "render");
                  function_line (stamp "delta" (JStr "owner/delta")
                                   (ex_class "Foo" [ex_function "render"]))
                                (ex_function "render")]))).
Proof.
  assert (Hcall : is_tools_call
                    (tools_call (JNum 9) "search_functions" (JObj [("className", JStr "Foo")]))
                    (JNum 9) (JStr "search_functions") (JObj [("className", JStr "Foo")])).
  { unfold is_tools_call. repeat split. eexists. repeat split. }
  split; [exact Hcall |]. repeat (split; [reflexivity |]).
  exact (search_functions_answers ascii_toLowerCase ex_world two_sources None
           (tools_call (JNum 9) "search_functions" (JObj [("className", JStr "Foo")]))
           (JNum 9) (JObj [("className", JStr "Foo")]) Hcall eq_refl eq_refl eq_refl).
Defined.

(** [render] of [Foo], found by [get_function] and listed by
    [search_functions]. *)
Lemma found_functions_are_listed_witness :
  nullish (JObj [("className", JStr "Foo"); ("functionName", JStr "render")]) = false /\
  truthy (field "query" (JObj [("className", JStr "Foo"); ("functionName", JStr "render")]))
  = false /\
  string_or_absent
    (field "query" (JObj [("className", JStr "Foo"); ("functionName", JStr "render")]))
  = true /\
  (forall c, In c (result_of ex_world (fetchAllSources two_sources)) -> nullish c = false) /\
  forallb functions_named (result_of ex_world (fetchAllSources two_sources)) = true /\
  exists targetClasses found listed,
    select_classes "className"
      (JObj [("className", JStr "Foo"); ("functionName", JStr "render")])
      (result_of ex_world (fetchAllSources two_sources)) = Ok targetClasses /\
    foundFunctions (JObj [("className", JStr "Foo"); ("functionName", JStr "render")])
      targetClasses = Ok found /\
    search_functions_loop ascii_toLowerCase
      (JObj [("className", JStr "Foo"); ("functionName", JStr "render")])
      (result_of ex_world (fetchAllSources two_sources)) = Ok listed /\
    forall cls f,
      In cls targetClasses ->
      function_named
        (field "functionName"
           (JObj [("className", JStr "Foo"); ("functionName", JStr "render")])) cls = Some f ->
      In (annotated cls f) found /\ In (function_line cls f) listed.
Proof.
  assert (Hraw : forall c, In c (result_of ex_world (fetchAllSources two_sources)) ->
                           nullish c = false).
  { intros c [<- | [<- | [<- | []]]]; reflexivity. }
  repeat (split; [reflexivity |]). split; [exact Hraw |]. split; [reflexivity |].
  exact (found_functions_are_listed ascii_toLowerCase
           (JObj [("className", JStr "Foo"); ("functionName", JStr "render")])
           (result_of ex_world (fetchAllSources two_sources))
           eq_refl eq_refl eq_refl Hraw eq_refl).
Defined.

Lemma buffered_answers_in_order_witness :
  json (post_mcp None ex_mixed_batch) = Ok ex_mixed_batch /\
  non_null (messages_of ex_mixed_batch) = true /\
  existsb request_like (messages_of ex_mixed_batch) = true /\
  includes "text/event-stream" (accept_of (post_mcp None ex_mixed_batch)) = false /\
  exists responses,
    result_of ex_world (handlePost ascii_toLowerCase (post_mcp None ex_mixed_batch)
                          two_sources) =
    Ok {| body := body_of (JSON_stringify compact
                             (match responses with
                              | [only] => only
                              | _ => JArr responses
                              end));
          status := 200;
          headers := json_headers (post_mcp None ex_mixed_batch) |} /\
    Forall2 (fun m r => is_envelope_for (field "id" m) r)
            [tools_call (JNum 1) "list_sources" (JObj []); ex_response_object] responses.
Proof.
  repeat (split; [reflexivity |]).
  exact (buffered_answers_in_order ascii_toLowerCase ex_world two_sources
           (post_mcp None ex_mixed_batch) ex_mixed_batch eq_refl eq_refl eq_refl eq_refl).
Defined.

Lemma streamed_answers_in_order_witness :
  json (post_stream ex_mixed_batch) = Ok ex_mixed_batch /\
  non_null (messages_of ex_mixed_batch) = true /\
  existsb request_like (messages_of ex_mixed_batch) = true /\
  includes "text/event-stream" (accept_of (post_stream ex_mixed_batch)) = true /\
  exists responses,
    result_of ex_world (handlePost ascii_toLowerCase (post_stream ex_mixed_batch)
                          two_sources) =
    Ok {| body := FrameStream (map sse_frame responses);
          status := 200;
          headers := event_stream_headers (post_stream ex_mixed_batch) |} /\
    Forall2 (fun m r => is_envelope_for (field "id" m) r)
            [tools_call (JNum 1) "list_sources" (JObj []); ex_response_object] responses.
Proof.
  repeat (split; [reflexivity |]).
  exact (streamed_answers_in_order ascii_toLowerCase ex_world two_sources
           (post_stream ex_mixed_batch) ex_mixed_batch eq_refl eq_refl eq_refl eq_refl).
Defined.

(** The streamed answer to a request, a null and another request. *)
Lemma null_after_a_request_witness :
  json (post_stream ex_null_batch) = Ok ex_null_batch /\
  messages_of ex_null_batch =
  ([tools_call (JNum 1) "list_sources" (JObj [])] ++
   JNull :: [tools_call (JNum 2) "list_sources" (JObj [])])%list /\
  non_null [tools_call (JNum 1) "list_sources" (JObj [])] = true /\
  existsb request_like [tools_call (JNum 1) "list_sources" (JObj [])] = true /\
  exists responses,
    result_of ex_world (handlePost ascii_toLowerCase (post_stream ex_null_batch)
                          two_sources) =
    Ok {| body := FrameStream
                    (map sse_frame responses ++
                     [error_frame
                        (TypeError "Cannot read properties of null (reading 'id')")]);
          status := 200;
          headers := event_stream_headers (post_stream ex_null_batch) |} /\
    Forall2 (fun m r => is_envelope_for (field "id" m) r)
            [tools_call (JNum 1) "list_sources" (JObj [])] responses.
Proof.
  repeat (split; [reflexivity |]).
  exact (null_after_a_request ascii_toLowerCase ex_world two_sources
           (post_stream ex_null_batch) ex_null_batch
           [tools_call (JNum 1) "list_sources" (JObj [])]
           [tools_call (JNum 2) "list_sources" (JObj [])]
           eq_refl eq_refl eq_refl eq_refl).
Defined.

Lemma catalogued_tools_are_dispatched_witness :
  is_tools_call (tools_call (JNum 1) "list_sources" (JObj []))
    (JNum 1) (JStr "list_sources") (JObj []) /\
  In "list_sources" (map tool_name tools) /\
  ((exists content,
       result_of ex_world
         (handleRequest ascii_toLowerCase (tools_call (JNum 1) "list_sources" (JObj []))
            None two_sources) =
       Ok (result_envelope (JNum 1) (JObj [("content", content)]))) \/
   (exists e,
       result_of ex_world
         (handleRequest ascii_toLowerCase (tools_call (JNum 1) "list_sources" (JObj []))
            None two_sources) =
       Ok (internal_error (JNum 1) e))).
Proof.
  assert (Hcall : is_tools_call (tools_call (JNum 1) "list_sources" (JObj []))
                    (JNum 1) (JStr "list_sources") (JObj [])).
  { unfold is_tools_call. repeat split. eexists. repeat split. }
  assert (Hin : In "list_sources" (map tool_name tools)) by (left; reflexivity).
  split; [exact Hcall |]. split; [exact Hin |].
  exact (catalogued_tools_are_dispatched ascii_toLowerCase ex_world two_sources None
           (tools_call (JNum 1) "list_sources" (JObj [])) (JNum 1) (JObj [])
           "list_sources" Hcall Hin).
Defined.

(** A batch of two notifications is accepted. *)
Lemma notifications_are_accepted_witness :
  json (post_mcp (Some "https://app.example") ex_notifications) = Ok ex_notifications /\
  forallb (fun msg => negb (nullish msg)) (messages_of ex_notifications) = true /\
  existsb request_like (messages_of ex_notifications) = false /\
  handlePost ascii_toLowerCase (post_mcp (Some "https://app.example") ex_notifications)
    two_sources =
  Ret (Ok {| body := NoBody; status := 202;
             headers := getCorsHeaders
                          (post_mcp (Some "https://app.example") ex_notifications) |}).
Proof.
  repeat (split; [reflexivity |]).
  exact (notifications_are_accepted ascii_toLowerCase
           (post_mcp (Some "https://app.example") ex_notifications) two_sources
           ex_notifications eq_refl eq_refl eq_refl).
Defined.

(** The preflight answer echoes the origin. *)
Lemma other_responses_carry_cors_witness :
  result_of ex_world
    (fetch ascii_toLowerCase (request_of "OPTIONS" "/mcp" (Some "https://app.example") None)
       two_sources) =
  Ok {| body := NoBody; status := 204;
        headers := getCorsHeaders
                     (request_of "OPTIONS" "/mcp" (Some "https://app.example") None) |} /\
  204%Z <> 404%Z /\ 204%Z <> 405%Z /\
  header "Access-Control-Allow-Origin"
    (getCorsHeaders (request_of "OPTIONS" "/mcp" (Some "https://app.example") None)) =
  Some "https://app.example".
Proof.
  assert (H404 : 204%Z <> 404%Z) by discriminate.
  assert (H405 : 204%Z <> 405%Z) by discriminate.
  split; [reflexivity |]. split; [exact H404 |]. split; [exact H405 |].
  exact (other_responses_carry_cors ascii_toLowerCase ex_world two_sources
           (request_of "OPTIONS" "/mcp" (Some "https://app.example") None)
           {| body := NoBody; status := 204;
              headers := getCorsHeaders
                           (request_of "OPTIONS" "/mcp" (Some "https://app.example") None) |}
           eq_refl H404 H405).
Defined.

(** The documentation URL of [beta], with and without its slash. *)
Lemma rawUrl_resolution_witness :
  "https://beta.example/docs" <> EmptyString /\
  nonempty (DocSource.raw beta) = None /\
  endsWith_slash "https://beta.example/docs" = false /\
  DocSource.url beta = Some ("https://beta.example/docs" ++ "/") /\
  resolve_rawUrl beta = Some ("https://beta.example/docs" ++ "/raw.json").
Proof.
  assert (Hb : "https://beta.example/docs" <> EmptyString) by discriminate.
  split; [exact Hb |]. repeat (split; [reflexivity |]).
  exact (proj2 (proj2 (rawUrl_resolution beta "https://beta.example/docs" Hb)
                  eq_refl eq_refl) eq_refl).
Defined.

Lemma unlocated_source_is_passed_over_witness :
  DocSource._embeddedData unlocated = None /\
  nonempty (DocSource.raw unlocated) = None /\
  nonempty (DocSource.url unlocated) = None /\
  run ex_world 0 (try_source unlocated []) =
  {| returned := ([], Ok tt); events := []; drawn := 0 |}.
Proof.
  repeat (split; [reflexivity |]).
  exact (unlocated_source_is_passed_over ex_world 0 unlocated [] eq_refl eq_refl eq_refl).
Defined.

(** ** The deployment command *)

Lemma resolveGitHubUrl_is_the_pages_address_witness :
  contains_char "/" "evaera" = false /\
  contains_char "/" "moonwave" = false /\
  resolveGitHubUrl ("evaera" ++ "/" ++ "moonwave") =
  "https://" ++ "evaera" ++ ".github.io/" ++ "moonwave" ++ "/raw.json" /\
  resolveGitHubUrl "evaera" = "https://" ++ "evaera" ++ ".github.io/undefined/raw.json".
Proof.
  split; [reflexivity |]. split; [reflexivity |].
  exact (resolveGitHubUrl_is_the_pages_address "evaera" "moonwave" eq_refl eq_refl).
Defined.

(** A text that is no URL, a host with [www.], and a GitHub Pages
    site. *)
Lemma extractNameFromUrl_names_witness :
  extractNameFromUrl ex_parse_URL "evaera/moonwave" = "evaera/moonwave" /\
  extractNameFromUrl ex_parse_URL "https://www.example.org/docs" = "example" /\
  extractNameFromUrl ex_parse_URL "https://evaera.github.io/moonwave/api" = "moonwave".
Proof.
  assert (Hne : "moonwave" <> EmptyString) by discriminate.
  split; [| split].
  - exact (proj1 (extractNameFromUrl_names ex_parse_URL "evaera/moonwave") eq_refl).
  - exact (proj1 (proj2 (extractNameFromUrl_names ex_parse_URL "https://www.example.org/docs"))
             "example" "org" "/docs" eq_refl eq_refl eq_refl (or_intror eq_refl)).
  - exact (proj2 (proj2 (extractNameFromUrl_names ex_parse_URL
                           "https://evaera.github.io/moonwave/api"))
             "evaera.github.io" "moonwave" "/moonwave/api" eq_refl eq_refl Hne
             (or_intror (ex_intro _ "api" eq_refl)) eq_refl).
Defined.



(** The registry of the example deployment. *)
Lemma sources_are_written_between_the_quotes_witness :
  contains_char "$" (interpolate (serialize compact EmptyString (JArr ex_sources))) = false /\
  wranglerConfig ex_sources =
  wrangler_head
  ++ escape_apostrophes (interpolate (serialize compact EmptyString (JArr ex_sources))) ++ "'".
Proof.
  split; [reflexivity |].
  exact (sources_are_written_between_the_quotes
           (interpolate (serialize compact EmptyString (JArr ex_sources))) eq_refl).
Defined.

(** A source named [cash$$]. *)
Lemma doubled_dollar_is_halved_witness :
  contains_char "$" ("[{" ++ dq ++ "name" ++ dq ++ ":" ++ dq ++ "cash") = false /\
  contains_char "$" (dq ++ "}]") = false /\
  wranglerConfig_of (("[{" ++ dq ++ "name" ++ dq ++ ":" ++ dq ++ "cash") ++ "$$" ++ (dq ++ "}]")) =
  wrangler_head
  ++ escape_apostrophes ("[{" ++ dq ++ "name" ++ dq ++ ":" ++ dq ++ "cash")
  ++ "$" ++ escape_apostrophes (dq ++ "}]") ++ "'".
Proof.
  split; [reflexivity |]. split; [reflexivity |].
  exact (doubled_dollar_is_halved ("[{" ++ dq ++ "name" ++ dq ++ ":" ++ dq ++ "cash")
           (dq ++ "}]") eq_refl eq_refl).
Defined.

(** ** The single-source worker *)

(** An unknown tool still makes the worker fetch. *)
Lemma single_tools_call_fetches_raw_witness :
  is_tools_call (tools_call (JNum 1) "delete_everything" (JObj []))
    (JNum 1) (JStr "delete_everything") (JObj []) /\
  origin_raw (SingleSource.DOCS_URL single_env) = Some "https://alpha.example/raw" /\
  events (run single_world 0
            (SingleSource.handleRequest ascii_toLowerCase origin_raw
               (tools_call (JNum 1) "delete_everything" (JObj [])) None single_env)) =
  [Issued "https://alpha.example/raw"; Settled "https://alpha.example/raw"].
Proof.
  assert (Hcall : is_tools_call (tools_call (JNum 1) "delete_everything" (JObj []))
                    (JNum 1) (JStr "delete_everything") (JObj [])).
  { unfold is_tools_call. repeat split. eexists. repeat split. }
  split; [exact Hcall |]. split; [reflexivity |].
  exact (single_tools_call_fetches_raw ascii_toLowerCase origin_raw single_world 0
           (tools_call (JNum 1) "delete_everything" (JObj [])) (JNum 1)
           (JStr "delete_everything") (JObj []) None single_env
           "https://alpha.example/raw" Hcall eq_refl).
Defined.

(** An unknown tool without a network. *)
Lemma single_failed_fetch_is_internal_error_witness :
  is_tools_call (tools_call (JNum 1) "delete_everything" (JObj []))
    (JNum 1) (JStr "delete_everything") (JObj []) /\
  origin_raw (SingleSource.DOCS_URL single_env) = Some "https://alpha.example/raw" /\
  net offline "https://alpha.example/raw" = FetchRejected "fetch failed" /\
  exists e,
    e_message e = "fetch failed" /\
    returned (run offline 0
                (SingleSource.handleRequest ascii_toLowerCase origin_raw
                   (tools_call (JNum 1) "delete_everything" (JObj [])) None single_env)) =
    Ok (internal_error (JNum 1) e).
Proof.
  assert (Hcall : is_tools_call (tools_call (JNum 1) "delete_everything" (JObj []))
                    (JNum 1) (JStr "delete_everything") (JObj [])).
  { unfold is_tools_call. repeat split. eexists. repeat split. }
  split; [exact Hcall |]. split; [reflexivity |]. split; [reflexivity |].
  exact (single_failed_fetch_is_internal_error ascii_toLowerCase origin_raw offline 0
           (tools_call (JNum 1) "delete_everything" (JObj [])) (JNum 1)
           (JStr "delete_everything") (JObj []) None single_env
           "https://alpha.example/raw" "fetch failed" Hcall eq_refl (or_introl eq_refl)).
Defined.

(** The error document of a 404 is returned as the documentation. *)
Lemma single_status_is_not_checked_witness :
  is_tools_call (tools_call (JNum 2) "get_raw_api_data" (JObj []))
    (JNum 2) (JStr "get_raw_api_data") (JObj []) /\
  origin_raw (SingleSource.DOCS_URL single_env) = Some "https://alpha.example/raw" /\
  net gone_world "https://alpha.example/raw" =
  FetchResponse 404 (BodyJson (JObj [("error", JStr "Not Found")])) /\
  net odd_world "https://alpha.example/raw" =
  FetchResponse 200 (BodyJson (JObj [("error", JStr "Not Found")])) /\
  returned (run gone_world 0
              (SingleSource.handleRequest ascii_toLowerCase origin_raw
                 (tools_call (JNum 2) "get_raw_api_data" (JObj [])) None single_env)) =
  returned (run odd_world 0
              (SingleSource.handleRequest ascii_toLowerCase origin_raw
                 (tools_call (JNum 2) "get_raw_api_data" (JObj [])) None single_env)) /\
  returned (run gone_world 0
              (SingleSource.handleRequest ascii_toLowerCase origin_raw
                 (tools_call (JNum 2) "get_raw_api_data" (JObj [])) None single_env)) =
  Ok (tool_result (JNum 2)
        (JSON_stringify indent2 (JObj [("error", JStr "Not Found")]))).
Proof.
  assert (Hcall : is_tools_call (tools_call (JNum 2) "get_raw_api_data" (JObj []))
                    (JNum 2) (JStr "get_raw_api_data") (JObj [])).
  { unfold is_tools_call. repeat split. eexists. repeat split. }
  split; [exact Hcall |]. do 3 (split; [reflexivity |]).
  destruct (single_status_is_not_checked ascii_toLowerCase origin_raw gone_world odd_world 0
              (tools_call (JNum 2) "get_raw_api_data" (JObj [])) (JNum 2)
              (JStr "get_raw_api_data") (JObj []) None single_env
              "https://alpha.example/raw" 404 200 (JObj [("error", JStr "Not Found")])
              Hcall eq_refl eq_refl eq_refl) as (Hsame & Hraw).
  split; [exact Hsame | exact (Hraw eq_refl)].
Defined.

(** [get_class] against the error document. *)
Lemma single_needs_an_array_witness :
  is_array (JObj [("error", JStr "Not Found")]) = false /\
  In "get_class" ["search_classes"; "get_class"; "get_function"] /\
  is_internal_error (JNum 3)
    (SingleSource.tools_call_response ascii_toLowerCase (JNum 3) (JStr "get_class")
       (JObj [("name", JStr "Foo")]) (JObj [("error", JStr "Not Found")])).
Proof.
  assert (Hin : In "get_class" ["search_classes"; "get_class"; "get_function"]).
  { right. left. reflexivity. }
  split; [reflexivity |]. split; [exact Hin |].
  exact (single_needs_an_array ascii_toLowerCase (JNum 3) (JObj [("name", JStr "Foo")])
           (JObj [("error", JStr "Not Found")]) "get_class" eq_refl (or_introl Hin)).
Defined.

(** Two classes named [Foo] after a class [Bar]: the first [Foo] is the
    answer. *)
Lemma single_get_class_is_first_match_witness :
  get_prop (JObj [("name", JStr "Foo")]) "name" = Ok (JStr "Foo") /\
  Forall (fun c => is_object c = true /\ field "name" c <> JStr "Foo") [ex_class "Bar" []] /\
  is_object (ex_class "Foo" [ex_function "render"]) = true /\
  field "name" (ex_class "Foo" [ex_function "render"]) = JStr "Foo" /\
  SingleSource.get_class (JObj [("name", JStr "Foo")])
    (JArr ([ex_class "Bar" []] ++ ex_class "Foo" [ex_function "render"]
                                  :: [ex_class "Foo" []])) =
  Ok (text_content (JSON_stringify indent2 (ex_class "Foo" [ex_function "render"]))).
Proof.
  assert (Hbefore : Forall (fun c => is_object c = true /\ field "name" c <> JStr "Foo")
                           [ex_class "Bar" []]).
  { constructor; [| constructor]. split; [reflexivity | discriminate]. }
  split; [reflexivity |]. split; [exact Hbefore |]. split; [reflexivity |].
  split; [reflexivity |].
  exact (single_get_class_is_first_match (JObj [("name", JStr "Foo")])
           (ex_class "Foo" [ex_function "render"]) "Foo" [ex_class "Bar" []]
           [ex_class "Foo" []] eq_refl Hbefore eq_refl eq_refl).
Defined.
